(** * MovieRockstar: the TMDB client, its routes and pages, and the two services

    A shallow embedding of

    - [TMDBClient] ([_make_request] and the accessors built on it), the API
      routes and the pages of [main.py];
    - [OpenAIService] of [openai_utils.py];
    - [StreamingService] of [streaming_utils.py].

    Python code that talks to the network, sleeps and raises is written in a
    small state-and-exception monad.  The network, the random generator and
    the LLM endpoint are oracles: every theorem quantifies over them.

    Interpreter and library behaviour follows CPython 3.11 and aiohttp 3.8. *)

From Stdlib Require Import ZArith QArith String Ascii List Lia SpecFloat.
From stdpp Require Import base option list strings pretty gmap.

Close Scope Q_scope.

(** ** Python strings

    A [string] stands for the Python [str] whose code points are its
    characters: the strings of the model are those with code points below
    256.  The functions below give what the interpreter gives on them. *)

Module PyStr.

(** [str.isspace] on the code points below 256. *)
Definition isspace (c : ascii) : bool :=
  let n := nat_of_ascii c in
  (((9 <=? n) && (n <=? 13)) || ((28 <=? n) && (n <=? 32))
   || (n =? 133) || (n =? 160))%nat.

(** [s.lstrip(chars)] with the set of characters given as a predicate. *)
Fixpoint lstrip_by (p : ascii -> bool) (s : string) : string :=
  match s with
  | EmptyString => EmptyString
  | String c s' => if p c then lstrip_by p s' else s
  end.

Fixpoint rstrip_by (p : ascii -> bool) (s : string) : string :=
  match s with
  | EmptyString => EmptyString
  | String c s' =>
      match rstrip_by p s' with
      | EmptyString => if p c then EmptyString else String c EmptyString
      | r => String c r
      end
  end.

Definition is_char (c d : ascii) : bool := (nat_of_ascii c =? nat_of_ascii d)%nat.

Definition lstrip_char (c : ascii) : string -> string := lstrip_by (is_char c).
Definition rstrip_char (c : ascii) : string -> string := rstrip_by (is_char c).

(** [s.strip()] *)
Definition strip (s : string) : string := rstrip_by isspace (lstrip_by isspace s).

(** [s.replace(old, new)] for a non-empty [old]: occurrences are found from
    the left and do not overlap.  [skip] counts the characters of a match
    that are still to be dropped. *)
Fixpoint replace_go (old new : string) (skip : nat) (s : string) : string :=
  match s with
  | EmptyString => EmptyString
  | String c s' =>
      match skip with
      | S k => replace_go old new k s'
      | O =>
          if String.prefix old s
          then new +:+ replace_go old new (String.length old - 1) s'
          else String c (replace_go old new 0 s')
      end
  end.

Definition replace (old new s : string) : string := replace_go old new 0 s.

(** [s.lower()]: the upper-case letters below 256 are A-Z and the letters
    from 192 to 222 other than the multiplication sign (215). *)
Definition lower_char (c : ascii) : ascii :=
  let n := nat_of_ascii c in
  if (((65 <=? n) && (n <=? 90))
      || ((192 <=? n) && (n <=? 222) && negb (n =? 215)))%nat
  then ascii_of_nat (n + 32) else c.

Fixpoint lower (s : string) : string :=
  match s with
  | EmptyString => EmptyString
  | String c s' => String (lower_char c) (lower s')
  end.

(** *** [repr] of a string *)

Definition hex_digit (n : nat) : ascii :=
  if (n <? 10)%nat then ascii_of_nat (48 + n) else ascii_of_nat (87 + n).

(** The characters [repr] writes as they are: the printable ones. *)
Definition isprintable (c : ascii) : bool :=
  let n := nat_of_ascii c in
  (((32 <=? n) && (n <=? 126)) || ((161 <=? n) && negb (n =? 173)))%nat.

Definition repr_char (quote : ascii) (c : ascii) : string :=
  let n := nat_of_ascii c in
  if is_char c quote || is_char c "\" then String "\" (String c EmptyString)
  else if (n =? 9)%nat then "\t"
  else if (n =? 10)%nat then "\n"
  else if (n =? 13)%nat then "\r"
  else if isprintable c then String c EmptyString
  else String "\" (String "x" (String (hex_digit (n / 16))
                                  (String (hex_digit (n mod 16)) EmptyString))).

Fixpoint repr_body (quote : ascii) (s : string) : string :=
  match s with
  | EmptyString => EmptyString
  | String c s' => repr_char quote c +:+ repr_body quote s'
  end.

Fixpoint has_char (c : ascii) (s : string) : bool :=
  match s with
  | EmptyString => false
  | String d s' => is_char c d || has_char c s'
  end.

Definition double_quote : ascii := ascii_of_nat 34.

(** [repr(s)]: single quotes, unless the string has a single quote and no
    double quote. *)
Definition repr (s : string) : string :=
  let quote : ascii :=
    if has_char "'" s && negb (has_char double_quote s) then double_quote
    else "'"%char in
  String quote (repr_body quote s +:+ String quote EmptyString).

(** *** [int(s)] *)

Definition is_digit (c : ascii) : bool :=
  let n := nat_of_ascii c in ((48 <=? n) && (n <=? 57))%nat.

Definition digit_val (c : ascii) : Z := Z.of_nat (nat_of_ascii c - 48).

(** The white space of C's [isspace], which [int] skips around the number. *)
Definition is_c_space (c : ascii) : bool :=
  let n := nat_of_ascii c in (((9 <=? n) && (n <=? 13)) || (n =? 32))%nat.

(** The first step of [int(s)]: the string is made ASCII.  A character
    below 127 is kept, any other white space becomes a space, and any other
    character ends the text with a question mark (below 256 the only decimal
    digits are 0-9). *)
Fixpoint to_ascii (s : string) : string :=
  match s with
  | EmptyString => EmptyString
  | String c s' =>
      if (nat_of_ascii c <? 127)%nat then String c (to_ascii s')
      else if isspace c then String " " (to_ascii s')
      else "?"
  end.

(** The digits of the number: single underscores are allowed between
    digits.  The result is the value, the number of digits and the text
    that follows; [None] is an underscore out of place. *)
Fixpoint scan_digits (s : string) (acc : Z) (count : nat) (after_underscore : bool)
    : option (Z * nat * string) :=
  match s with
  | EmptyString => if after_underscore then None else Some (acc, count, EmptyString)
  | String c s' =>
      if is_digit c then scan_digits s' (10 * acc + digit_val c)%Z (S count) false
      else if is_char c "_" then
        if after_underscore then None else scan_digits s' acc count true
      else if after_underscore then None else Some (acc, count, s)
  end.

Inductive int_parse : Type :=
| IntValue (n : Z)
| IntInvalid                    (* invalid literal for int() with base 10 *)
| IntTooLong (digits : nat).    (* more digits than sys.get_int_max_str_digits() *)

(** The default of [sys.set_int_max_str_digits]. *)
Definition max_str_digits : nat := 4300.

(** [int(s)] for a string: white space, an optional sign, digits, white
    space.  The limit on the number of digits is checked once the digits are
    read, before what follows them is looked at. *)
Definition int_of_str (s : string) : int_parse :=
  let body := lstrip_by is_c_space (to_ascii s) in
  let '(negative, body) :=
    match body with
    | String "-" rest => (true, rest)
    | String "+" rest => (false, rest)
    | _ => (false, body)
    end in
  match body with
  | String "_" _ => IntInvalid
  | _ =>
      match scan_digits body 0 0 false with
      | None => IntInvalid
      | Some (n, count, rest) =>
          if (max_str_digits <? count)%nat then IntTooLong count
          else if (count =? 0)%nat then IntInvalid
          else
            match lstrip_by is_c_space rest with
            | EmptyString => IntValue (if negative then (- n)%Z else n)
            | _ => IntInvalid
            end
      end
  end.

End PyStr.

(** ** Python floats

    A finite binary64 number is kept as its mantissa and exponent, the value
    being [mant * 2^expo].  Every operation gives the exact result rounded to
    53 significant bits, to nearest and ties to even, which is what the
    interpreter's [float] does while results stay in the normal range (here
    they lie between [2^-53] and [2^1024]). *)

Module Float64.

Record float : Type := {
  mant : Z;
  expo : Z
}.

Definition value (x : float) : Q := (inject_Z (mant x) * Qpower 2 (expo x))%Q.

(** [m / 2^s] rounded to the nearest integer, ties to the even one. *)
Definition round_shift (m s : Z) : Z :=
  let q := (m / 2 ^ s)%Z in
  let r := (m mod 2 ^ s)%Z in
  let half := (2 ^ (s - 1))%Z in
  if (r <? half)%Z then q
  else if (half <? r)%Z then (q + 1)%Z
  else if Z.even q then q else (q + 1)%Z.

(** [m * 2^e] rounded to 53 significant bits. *)
Definition round53 (m e : Z) : float :=
  let s := (Z.log2 (Z.abs m) - 52)%Z in
  if (s <=? 0)%Z then {| mant := m; expo := e |}
  else {| mant := round_shift m s; expo := (e + s)%Z |}.

(** The largest magnitude is below [2^1024]. *)
Definition overflows (x : float) : bool :=
  (2 ^ 1024 <=? Z.abs (mant x) * 2 ^ expo x)%Z.

(** [float(n)] for an [int]; [None] is the [OverflowError]. *)
Definition of_int (n : Z) : option float :=
  let x := round53 n 0 in
  if overflows x then None else Some x.

Definition one : float := {| mant := 1; expo := 0 |}.

Definition mul (x y : float) : float :=
  round53 (mant x * mant y) (expo x + expo y).

Definition add (x y : float) : float :=
  let e := Z.min (expo x) (expo y) in
  round53 (mant x * 2 ^ (expo x - e) + mant y * 2 ^ (expo y - e)) e.

(** [x <= 0] *)
Definition nonpositive (x : float) : bool := (mant x <=? 0)%Z.

(** The value of [random.random()] for the 53 random bits [k]: [k / 2^53],
    at least 0 and below 1. *)
Definition of_random_bits (k : Z) : float :=
  {| mant := k mod 2 ^ 53; expo := -53 |}.

(** The same operations in the standard library's specification of
    IEEE 754, at binary64 (a precision of 53 bits, exponents up to 1024):
    the reference the examples compare this module with. *)
Definition reference_of_int (n : Z) : spec_float :=
  binary_normalize 53 1024 n 0 false.

Definition reference_of_random_bits (k : Z) : spec_float :=
  binary_normalize 53 1024 (k mod 2 ^ 53) (-53) false.

(** [1 + draw * 2 ** attempt] *)
Definition reference_backoff (k : Z) (attempt : nat) : spec_float :=
  SFadd 53 1024 (reference_of_int 1)
    (SFmul 53 1024 (reference_of_random_bits k)
       (reference_of_int (2 ^ Z.of_nat attempt))).

(** [x] and the reference are the same number. *)
Definition agrees (x : option float) (y : spec_float) : bool :=
  match x, y with
  | Some x, S754_finite negative m e =>
      Qeq_bool (value x)
        (inject_Z (if negative then Z.neg m else Z.pos m) * Qpower 2 e)
  | Some x, S754_zero _ => (mant x =? 0)%Z
  | None, S754_infinity _ => true
  | _, _ => false
  end.

End Float64.

(** ** Exceptions, JSON values, results *)

(** The exception classes the two files raise or catch.  Every constructor is
    a subclass of [Exception]. *)
Inductive exn : Type :=
| ClientError (msg : string)            (* aiohttp.ClientError and subclasses *)
| TimeoutError                          (* asyncio.TimeoutError *)
| HTTPException (status_code : Z) (detail : string)
| NameError (name : string)
| ValueError (msg : string)
| JSONDecodeError (msg : string)
| KeyError (key : string)
| IndexError (msg : string)
| AttributeError (msg : string)
| TypeError (msg : string)
| OverflowError (msg : string)
| OtherException (cls msg : string).

(** [str(e)] *)
Definition exn_str (e : exn) : string :=
  match e with
  | ClientError m | ValueError m | JSONDecodeError m | IndexError m
  | AttributeError m | TypeError m | OverflowError m | OtherException _ m => m
  | TimeoutError => EmptyString
  | HTTPException c d => pretty c +:+ ": " +:+ d
  | NameError n => "name '" +:+ n +:+ "' is not defined"
  | KeyError k => "'" +:+ k +:+ "'"
  end.

(** [except (aiohttp.ClientError, asyncio.TimeoutError)] *)
Definition is_transport (e : exn) : bool :=
  match e with
  | ClientError _ | TimeoutError => true
  | _ => false
  end.

(** [except (json.JSONDecodeError, KeyError)] *)
Definition is_decode_or_key (e : exn) : bool :=
  match e with
  | JSONDecodeError _ | KeyError _ => true
  | _ => false
  end.

#[local] Unset Elimination Schemes.
Inductive json : Type :=
| JNull
| JBool (b : bool)
| JInt (n : Z)
| JReal (q : Q)
| JStr (s : string)
| JArr (items : list json)
| JObj (fields : list (string * json)).
#[local] Set Elimination Schemes.

Inductive result (A : Type) : Type :=
| Ok (a : A)
| Raise (e : exn).
Arguments Ok {A} a.
Arguments Raise {A} e.


(** Truth value of a decoded JSON value ([if data], [x or {}]). *)
Definition truthy (v : json) : bool :=
  match v with
  | JNull => false
  | JBool b => b
  | JInt n => negb (n =? 0)%Z
  | JReal q => negb (Qeq_bool q 0)
  | JStr s => negb (String.eqb s EmptyString)
  | JArr items => match items with [] => false | _ => true end
  | JObj fields => match fields with [] => false | _ => true end
  end.

(** [d.get(key, default)] on a decoded JSON object. *)
Fixpoint fields_get (fields : list (string * json)) (key : string) (default : json) : json :=
  match fields with
  | [] => default
  | (k, v) :: rest => if String.eqb k key then v else fields_get rest key default
  end.

(** ** Python operations on decoded JSON values *)

Module PyJson.

(** [type(v).__name__] *)
Definition type_name (v : json) : string :=
  match v with
  | JNull => "NoneType"
  | JBool _ => "bool"
  | JInt _ => "int"
  | JReal _ => "float"
  | JStr _ => "str"
  | JArr _ => "list"
  | JObj _ => "dict"
  end.

Definition no_attribute (v : json) (attr : string) : exn :=
  AttributeError ("'" +:+ type_name v +:+ "' object has no attribute '" +:+ attr +:+ "'").

(** [v.get(key, default)]: only a dict has the method. *)
Definition get (v : json) (key : string) (default : json) : result json :=
  match v with
  | JObj fields => Ok (fields_get fields key default)
  | _ => Raise (no_attribute v "get")
  end.

(** [v or {}] *)
Definition or_empty_dict (v : json) : json :=
  if truthy v then v else JObj [].

(** [data.get("results", []) if data else []] *)
Definition results_or_empty (data : json) : result json :=
  if truthy data then get data "results" (JArr []) else Ok (JArr []).

(** [str(v)], as an f-string formats a value.  [repr] stands for the
    interpreter's rendering of floats, lists and dicts. *)
Definition str (repr : json -> string) (v : json) : string :=
  match v with
  | JStr s => s
  | JNull => "None"
  | JBool true => "True"
  | JBool false => "False"
  | JInt n => pretty n
  | _ => repr v
  end.

(** The one-character strings of a string. *)
Fixpoint chars (s : string) : list json :=
  match s with
  | EmptyString => []
  | String c s' => JStr (String c EmptyString) :: chars s'
  end.

(** [for x in v]: the items of a list, the keys of a dict, the characters
    of a string. *)
Definition iter (v : json) : result (list json) :=
  match v with
  | JArr items => Ok items
  | JObj fields => Ok (map (λ kv, JStr (fst kv)) fields)
  | JStr s => Ok (chars s)
  | _ => Raise (TypeError ("'" +:+ type_name v +:+ "' object is not iterable"))
  end.

(** [needle in hay] on strings *)
Fixpoint substring_of (needle hay : string) : bool :=
  String.prefix needle hay
  || match hay with
     | EmptyString => false
     | String _ hay' => substring_of needle hay'
     end.

Definition is_str (s : string) (v : json) : bool :=
  match v with
  | JStr s' => String.eqb s s'
  | _ => false
  end.

Definition has_key (fields : list (string * json)) (key : string) : bool :=
  existsb (λ kv, String.eqb (fst kv) key) fields.

(** [key in v] for a string [key]: a key of a dict, an item of a list, a
    part of a string. *)
Definition contains (v : json) (key : string) : result bool :=
  match v with
  | JObj fields => Ok (has_key fields key)
  | JArr items => Ok (existsb (is_str key) items)
  | JStr s => Ok (substring_of key s)
  | _ => Raise (TypeError ("argument of type '" +:+ type_name v +:+ "' is not iterable"))
  end.

(** [v[key]] for a string [key] (messages of CPython 3.11) *)
Definition getitem (v : json) (key : string) : result json :=
  match v with
  | JObj fields =>
      if has_key fields key then Ok (fields_get fields key JNull)
      else Raise (KeyError key)
  | JArr _ => Raise (TypeError "list indices must be integers or slices, not str")
  | JStr _ => Raise (TypeError "string indices must be integers, not 'str'")
  | _ => Raise (TypeError ("'" +:+ type_name v +:+ "' object is not subscriptable"))
  end.

(** [len(v)] *)
Definition len (v : json) : result Z :=
  match v with
  | JArr items => Ok (Z.of_nat (length items))
  | JObj fields => Ok (Z.of_nat (length fields))
  | JStr s => Ok (Z.of_nat (String.length s))
  | _ => Raise (TypeError ("object of type '" +:+ type_name v +:+ "' has no len()"))
  end.

(** [v[:n]] (messages of CPython 3.11) *)
Definition slice_to (n : nat) (v : json) : result json :=
  match v with
  | JArr items => Ok (JArr (firstn n items))
  | JStr s => Ok (JStr (String.substring 0 n s))
  | JObj _ => Raise (TypeError "unhashable type: 'slice'")
  | _ => Raise (TypeError ("'" +:+ type_name v +:+ "' object is not subscriptable"))
  end.

End PyJson.

(** ** The world the client runs in *)

(** Values stored in a [params] dictionary and passed as arguments. *)
Inductive pyval : Type :=
| VStr (s : string)
| VInt (n : Z).

Definition pyval_str (v : pyval) : string :=
  match v with
  | VStr s => s
  | VInt n => pretty n
  end.

(** What the server sends back for one GET.  [resp_body] is what decoding
    the body gives once [response.json()] has accepted the Content-Type
    ([json.loads] of the stripped body, [None] for an empty one);
    [resp_mismatch] is the text of the [ContentTypeError] it raises when it
    has not. *)
Record response : Type := {
  resp_status : Z;
  resp_headers : list (string * string);
  resp_text : string;              (* await response.text() *)
  resp_body : result json;
  resp_mismatch : string
}.

(** [response.headers.get(name)]: header names compare without case. *)
Definition headers_get (hs : list (string * string)) (name : string) : option string :=
  snd <$> List.find (fun kv => String.eqb (PyStr.lower (fst kv)) (PyStr.lower name)) hs.

(** A character of the class [[\w.+-]]: a letter, digit or other numeric
    character, the underscore, or one of the three signs. *)
Definition mime_char (c : ascii) : bool :=
  let n := nat_of_ascii c in
  (((48 <=? n) && (n <=? 57)) || ((65 <=? n) && (n <=? 90))
   || ((97 <=? n) && (n <=? 122)) || (n =? 95) || (n =? 43) || (n =? 45) || (n =? 46)
   || (n =? 170) || (n =? 178) || (n =? 179) || (n =? 181) || (n =? 185) || (n =? 186)
   || ((188 <=? n) && (n <=? 190))
   || ((192 <=? n) && negb (n =? 215) && negb (n =? 247)))%nat.

(** [+json] after one or more characters of the class. *)
Fixpoint structured_json (s : string) (started : bool) : bool :=
  match s with
  | EmptyString => false
  | String c s' =>
      (started && String.prefix "+json" s) || (mime_char c && structured_json s' true)
  end.

(** aiohttp's test of the Content-Type before it decodes JSON: the regular
    expression [^application/(?:[\w.+-]+?\+)?json] on the value in lower
    case. *)
Definition expects_json (content_type : string) : bool :=
  String.prefix "application/json" content_type
  || match content_type with
     | String "a" (String "p" (String "p" (String "l" (String "i" (String "c"
         (String "a" (String "t" (String "i" (String "o" (String "n"
           (String "/" subtype))))))))))) => structured_json subtype false
     | _ => false
     end.

(** [await response.json()]: a [ContentTypeError], which is an
    [aiohttp.ClientError], unless the Content-Type is a JSON one. *)
Definition resp_json (r : response) : result json :=
  if expects_json (PyStr.lower (default EmptyString
                                  (headers_get (resp_headers r) "Content-Type")))
  then resp_body r
  else Raise (ClientError (resp_mismatch r)).

Inductive get_outcome : Type :=
| Resp (r : response)
| Err (e : exn).

Record request : Type := {
  req_url : string;
  req_params : gmap string pyval
}.

Inductive session_obj : Type := SessionOpen | SessionClosed.

(** Dictionaries are shared objects: a [params] argument is a reference into
    [heap]. *)
Definition loc := nat.

(** A delay given to [asyncio.sleep]: the [int] read from a header, or the
    [float] of a backoff. *)
Inductive seconds : Type :=
| SecInt (n : Z)
| SecFloat (x : Float64.float).

Record state : Type := {
  heap : gmap loc (gmap string pyval);
  session : option session_obj;    (* self.session *)
  sent : list request;             (* GETs issued so far, oldest first *)
  slept : list seconds;            (* the delays slept, oldest first *)
  drawn : nat                      (* calls of random.random() so far *)
}.

Definition deref (st : state) (l : loc) : gmap string pyval :=
  default ∅ (heap st !! l).

(** The module's global names that [_make_request] looks up at run time.
    [g_random] is the binding of the name [random]: the generator behind
    [random.random()], which gives the 53 random bits of each draw, or
    [None] when the name is unbound. *)
Record Globals : Type := {
  g_random : option (nat -> Z)
}.

(** Lines 1-19 of [main.py] import aiohttp, asyncio, logging, traceback,
    fastapi, requests, os, pathlib, typing and datetime: [random] is not
    among them, and nothing else in the module binds it. *)
Definition main_globals : Globals := {| g_random := None |}.

(** ** A state-and-exception monad *)

Definition M (A : Type) : Type := state -> result A * state.

Definition ret {A} (a : A) : M A := fun st => (Ok a, st).
Definition raise {A} (e : exn) : M A := fun st => (Raise e, st).
Definition lift {A} (r : result A) : M A := fun st => (r, st).

Definition bind {A B} (m : M A) (k : A -> M B) : M B :=
  fun st =>
    match m st with
    | (Ok a, st') => k a st'
    | (Raise e, st') => (Raise e, st')
    end.

Notation "'let*' x := m 'in' k" := (bind m (fun x => k))
  (at level 10, x pattern, m at level 100, k at level 200).

(** [try: m except <classes> as e: h e] *)
Definition try_except {A} (m : M A) (catches : exn -> bool) (h : exn -> M A) : M A :=
  fun st =>
    match m st with
    | (Raise e, st') => if catches e then h e st' else (Raise e, st')
    | r => r
    end.

(** ** [class TMDBClient] *)

Record TMDBClient : Type := {
  api_key : string;
  base_url : string
}.

(** [TMDBClient.__init__] *)
Definition TMDBClient_init (key : string) : TMDBClient :=
  {| api_key := key; base_url := "https://api.themoviedb.org/3" |}.

Definition set_session (s : option session_obj) (st : state) : state :=
  {| heap := heap st; session := s; sent := sent st; slept := slept st; drawn := drawn st |}.

Definition set_heap (h : gmap loc (gmap string pyval)) (st : state) : state :=
  {| heap := h; session := session st; sent := sent st; slept := slept st; drawn := drawn st |}.

Definition log_sent (r : request) (st : state) : state :=
  {| heap := heap st; session := session st; sent := sent st ++ [r];
     slept := slept st; drawn := drawn st |}.

Definition log_slept (d : seconds) (st : state) : state :=
  {| heap := heap st; session := session st; sent := sent st;
     slept := slept st ++ [d]; drawn := drawn st |}.

Definition log_drawn (st : state) : state :=
  {| heap := heap st; session := session st; sent := sent st;
     slept := slept st; drawn := S (drawn st) |}.

(** [params = params or {}]: a missing or empty mapping is replaced by a new
    dictionary, any other mapping is kept, the caller's object itself. *)
Definition params_or_new (params : option loc) : M loc :=
  fun st =>
    let fresh_dict :=
      let l := fresh (dom (heap st)) in (Ok l, set_heap (<[l := ∅]> (heap st)) st) in
    match params with
    | None => fresh_dict
    | Some l => if decide (deref st l = ∅) then fresh_dict else (Ok l, st)
    end.

(** [d[key] = v] on the dictionary at [l]. *)
Definition setitem (l : loc) (key : string) (v : pyval) : M unit :=
  fun st => (Ok tt, set_heap (<[l := <[key := v]> (deref st l)]> (heap st)) st).

Definition too_large_for_float : exn :=
  OverflowError "int too large to convert to float".

(** Whether a delay is one that [asyncio.sleep] waits for: a delay of zero
    or less is not. *)
Definition waits (d : seconds) : bool :=
  match d with
  | SecInt n => (0 <? n)%Z
  | SecFloat x => negb (Float64.nonpositive x)
  end.

(** [await asyncio.sleep(d)].  A delay of zero or less returns at once.  Any
    other is added to the loop's clock, a [float]: an [int] beyond the range
    of [float] raises [OverflowError]. *)
Definition asyncio_sleep (d : seconds) : M unit :=
  fun st =>
    if negb (waits d) then (Ok tt, st)
    else
      match d with
      | SecInt n =>
          match Float64.of_int n with
          | Some _ => (Ok tt, log_slept d st)
          | None => (Raise too_large_for_float, st)
          end
      | SecFloat _ => (Ok tt, log_slept d st)
      end.

(** [1 + random.random() * (2 ** attempt)] at the draw [r] (lines 158, 173):
    the power is an [int], converted to [float] for the product, which raises
    [OverflowError] from [2 ** 1024] on. *)
Definition backoff (r : Float64.float) (attempt : nat) : result Float64.float :=
  match Float64.of_int (2 ^ Z.of_nat attempt) with
  | Some power => Ok (Float64.add Float64.one (Float64.mul r power))
  | None => Raise too_large_for_float
  end.

(** [int(s)] as a result. *)
Definition py_int (s : string) : result Z :=
  match PyStr.int_of_str s with
  | PyStr.IntValue n => Ok n
  | PyStr.IntInvalid =>
      Raise (ValueError ("invalid literal for int() with base 10: " +:+ PyStr.repr s))
  | PyStr.IntTooLong count =>
      Raise (ValueError
               ("Exceeds the limit (" +:+ pretty PyStr.max_str_digits
                  +:+ " digits) for integer string conversion: value has "
                  +:+ pretty count
                  +:+ " digits; use sys.set_int_max_str_digits() to increase the limit"))
  end.

(** [int(response.headers.get('Retry-After', 1))] (line 142) *)
Definition retry_after (r : response) : result Z :=
  match headers_get (resp_headers r) "Retry-After" with
  | None => Ok 1%Z
  | Some s => py_int s
  end.

Section Client.

Variable G : Globals.
Variable net : nat -> get_outcome.   (* the outcome of the n-th GET *)
Variable self : TMDBClient.

(** [TMDBClient.get_session] *)
Definition get_session : M unit :=
  fun st =>
    match session st with
    | Some SessionOpen => (Ok tt, st)
    | _ => (Ok tt, set_session (Some SessionOpen) st)
    end.

(** [async with session.get(url, params=params, ...) as response] *)
Definition session_get (url : string) (params : loc) : M response :=
  fun st =>
    let st' := log_sent {| req_url := url; req_params := deref st params |} st in
    match net (length (sent st)) with
    | Resp r => (Ok r, st')
    | Err e => (Raise e, st')
    end.

(** [random.random()]: the name [random] is resolved when the expression
    is evaluated. *)
Definition random_random : M Float64.float :=
  fun st =>
    match g_random G with
    | None => (Raise (NameError "random"), st)
    | Some rng => (Ok (Float64.of_random_bits (rng (drawn st))), log_drawn st)
    end.

(** Lines 112-135: the session, then two nested [async with session.get]
    blocks for the same URL.  Both GETs are issued; the inner response
    shadows the outer one. *)
Definition fetch_response (url : string) (params : loc) : M response :=
  let* _ := get_session in
  let* _ := session_get url params in
  session_get url params.

(** Lines 157-160 and 172-175: the backoff before the next iteration. *)
Definition backoff_and_continue (attempt : nat) : M (option json) :=
  let* r := random_random in
  let* delay := lift (backoff r attempt) in
  let* _ := asyncio_sleep (SecFloat delay) in
  ret None.

(** Lines 136-160: what is done with the response.  [None] is going on
    to the next iteration, [Some v] is [return v]. *)
Definition handle_response (max_retries : Z) (attempt : nat)
    (response : response) : M (option json) :=
  if (resp_status response =? 200)%Z then
    let* v := lift (resp_json response) in
    ret (Some v)
  else if (resp_status response =? 429)%Z then
    let* seconds := lift (retry_after response) in
    let* _ := asyncio_sleep (SecInt seconds) in
    ret None
  else
    let error_text := resp_text response in
    if (Z.of_nat attempt =? max_retries - 1)%Z then
      raise (HTTPException (resp_status response)
               ("TMDB API error: " +:+ pretty (resp_status response)
                  +:+ " - " +:+ error_text))
    else backoff_and_continue attempt.

(** Lines 162-175: [except (aiohttp.ClientError, asyncio.TimeoutError) as e] *)
Definition handle_transport (max_retries : Z) (attempt : nat) (e : exn)
    : M (option json) :=
  if (Z.of_nat attempt =? max_retries - 1)%Z then
    raise (HTTPException 500
             ("Failed to fetch data from TMDB after " +:+ pretty max_retries
                +:+ " attempts: " +:+ exn_str e))
  else backoff_and_continue attempt.

(** The body of [for attempt in range(max_retries)] (lines 110-175). *)
Definition attempt_body (url : string) (params : loc) (max_retries : Z)
    (attempt : nat) : M (option json) :=
  try_except
    (let* response := fetch_response url params in
     handle_response max_retries attempt response)
    is_transport
    (handle_transport max_retries attempt).

(** The [for] loop and the [raise] that follows it (lines 109-181). *)
Fixpoint retry_loop (url : string) (params : loc) (max_retries : Z)
    (attempts : list nat) : M json :=
  match attempts with
  | [] =>
      raise (HTTPException 500
               ("Failed to fetch data from TMDB after " +:+ pretty max_retries
                  +:+ " attempts"))
  | attempt :: rest =>
      let* r := attempt_body url params max_retries attempt in
      match r with
      | Some v => ret v
      | None => retry_loop url params max_retries rest
      end
  end.

(** Lines 100-103: the URL of the request. *)
Definition build_url (endpoint : string) : string :=
  let base_url := PyStr.rstrip_char "/" (base_url self) in
  let endpoint := PyStr.lstrip_char "/" endpoint in
  base_url +:+ "/" +:+ endpoint.

(** [TMDBClient._make_request] (lines 72-181).  The text of lines 182-248
    is the remainder of another version of the loop; it follows the
    unconditional [raise] of line 178 and belongs to no statement. *)
Definition _make_request (endpoint : string) (params : option loc)
    (max_retries : Z) : M json :=
  let* params := params_or_new params in
  let* _ := setitem params "api_key" (VStr (api_key self)) in
  let url := build_url endpoint in
  retry_loop url params max_retries (seq 0 (Z.to_nat max_retries)).

(** Calling a method that has two parameters with defaults (after [self])
    on positional arguments: a third positional argument is a [TypeError],
    raised before the body runs. *)
Definition call_method2 {A} (qualname : string) (default1 default2 : pyval)
    (body : pyval -> pyval -> M A) (args : list pyval) : M A :=
  match args with
  | [] => body default1 default2
  | [a] => body a default2
  | [a; b] => body a b
  | _ =>
      raise (TypeError (qualname +:+ "() takes from 1 to 3 positional arguments but "
                          +:+ pretty (S (length args)) +:+ " were given"))
  end.

(** [TMDBClient.get_trending(self, media_type="all", time_window="day")]
    (lines 250-253) *)
Definition get_trending_body (media_type time_window : pyval) : M json :=
  let endpoint :=
    "trending/" +:+ pyval_str media_type +:+ "/" +:+ pyval_str time_window in
  let* data := _make_request endpoint None 3 in
  if truthy data then
    match data with
    | JObj fields => ret (fields_get fields "results" (JArr []))
    | _ => raise (PyJson.no_attribute data "get")
    end
  else ret (JArr []).

Definition get_trending : list pyval -> M json :=
  call_method2 "TMDBClient.get_trending" (VStr "all") (VStr "day") get_trending_body.

End Client.

(** ** Route handlers of [main.py] *)

Module Routes.
Section Routes.

Variable G : Globals.
Variable net : nat -> get_outcome.
Variable tmdb_client : TMDBClient.

(** [@app.get("/api/trending")] (lines 331-334) *)
Definition get_trending (media_type time_window : string) (page : Z) : M json :=
  let* results :=
    get_trending G net tmdb_client [VStr media_type; VStr time_window; VInt page] in
  ret (JObj [("results", results)]).   (* JSONResponse({"results": results}) *)

End Routes.
End Routes.

(** ** [class OpenAIService] of [openai_utils.py] *)

Module OpenAIService.

(** The value of a key of a chat message: a string, or [None]. *)
Inductive field : Type :=
| FStr (s : string)
| FNone.

(** A message is indexed by key ([message['content']]). *)
Definition message : Type := list (string * field).

(** The object returned by [openai.ChatCompletion.create]. *)
Record completion : Type := {
  choices : list message
}.

Definition bindR {A B} (r : result A) (k : A -> result B) : result B :=
  match r with
  | Ok a => k a
  | Raise e => Raise e
  end.

Definition try_result {A} (r : result A) (catches : exn -> bool)
    (h : exn -> result A) : result A :=
  match r with
  | Raise e => if catches e then h e else Raise e
  | _ => r
  end.

(** [response.choices[0]] *)
Definition first_choice (r : completion) : result message :=
  match choices r with
  | [] => Raise (IndexError "list index out of range")
  | m :: _ => Ok m
  end.

(** [message[key]] *)
Fixpoint getitem (m : message) (key : string) : result field :=
  match m with
  | [] => Raise (KeyError key)
  | (k, v) :: rest => if String.eqb k key then Ok v else getitem rest key
  end.

(** [v.strip()] *)
Definition field_strip (v : field) : result string :=
  match v with
  | FStr s => Ok (PyStr.strip s)
  | FNone => Raise (AttributeError "'NoneType' object has no attribute 'strip'")
  end.

(** [content.replace('```json', '').replace('```', '').strip()] (line 70) *)
Definition clean (content : string) : string :=
  PyStr.strip
    (PyStr.replace "```" EmptyString (PyStr.replace "```json" EmptyString content)).

(** The f-string of lines 30-52. *)
Definition prompt (title content_type : string) (year : option Z) : string :=
  "
            You are a streaming platform expert. For the following content, provide direct streaming links 
            from legitimate sources. Only include official streaming platforms.
            
            Title: " +:+ title +:+ "
            Type: " +:+ (if String.eqb content_type "movie" then "Movie" else "TV Show") +:+ "
            " +:+ (match year with
                 | Some y => if (y =? 0)%Z then EmptyString else "Year: " +:+ pretty y
                 | None => EmptyString
                 end) +:+ "
            
            Provide a list of streaming platforms where this content is available.
            For each platform, include:
            - Platform name (e.g., Netflix, Amazon Prime, Disney+)
            - Direct URL to watch the content (if possible)
            - Whether it's included with subscription, available to rent, or purchase
            - Price if not included with subscription
            - Video quality (SD, HD, 4K, HDR, etc.)
            
            Format your response as a JSON array of objects with these keys:
            - provider: str (platform name)
            - url: str (direct watch URL)
            - type: str ('subscription', 'rent', 'buy')
            - price: str (e.g., 'Included', '$3.99', 'Not available')
            - quality: str (e.g., 'HD', '4K', 'HDR')
            ".

Definition system_message : string :=
  "You are a helpful assistant that provides direct streaming links for movies and TV shows.".

Section Service.

(** [json.loads] *)
Variable json_loads : string -> result json.

(** [openai.ChatCompletion.create(model=..., messages=[system, user],
    temperature=0.3, max_tokens=1000)], by model, system text and user
    text. *)
Variable ChatCompletion_create : string -> string -> string -> result completion.

(** [self.model] *)
Variable model : string.

(** [OpenAIService.get_direct_streaming_links] (lines 16-79) *)
Definition get_direct_streaming_links (title content_type : string)
    (year : option Z) : result (list json) :=
  try_result
    (bindR (ChatCompletion_create model system_message (prompt title content_type year))
       (fun response =>
          try_result
            (bindR (first_choice response) (fun choice =>
             bindR (getitem choice "content") (fun raw =>
             bindR (field_strip raw) (fun content =>
             let content := clean content in
             bindR (json_loads content) (fun links =>
             Ok (match links with
                 | JArr items => items
                 | _ => []
                 end))))))
            is_decode_or_key
            (fun _ => Ok [])))
    (fun _ => true)
    (fun _ => Ok []).

End Service.

End OpenAIService.

(** ** The link lookup as the specification tells it

    The definitions of this module do not come from the source: they say
    what the lookup is to return, to be compared with what
    [get_direct_streaming_links] returns. *)

Module LinkSpec.
Import OpenAIService.

(** The code-fence markers: the one that opens a JSON block, and the bare
    one. *)
Definition json_fence : string := "```json".
Definition bare_fence : string := "```".

Definition backtick : ascii := "`"%char.

(** [s] without its first [n] characters. *)
Fixpoint without_first (n : nat) (s : string) : string :=
  match n, s with
  | S n', String _ s' => without_first n' s'
  | _, _ => s
  end.

(** [s] with the occurrences of [marker] taken out.  The text is read from
    the left: where the marker starts, it is skipped; any other character is
    kept.  [fuel] is the number of steps allowed, and the length of [s] is
    enough. *)
Fixpoint erase_steps (fuel : nat) (marker s : string) : string :=
  match fuel with
  | O => s
  | S fuel' =>
      match s with
      | EmptyString => EmptyString
      | String c s' =>
          if String.prefix marker s
          then erase_steps fuel' marker (without_first (String.length marker) s)
          else String c (erase_steps fuel' marker s')
      end
  end.

Definition erase (marker s : string) : string :=
  erase_steps (String.length s) marker s.

(** Whether [marker] occurs in [s]. *)
Fixpoint occurs (marker s : string) : bool :=
  String.prefix marker s
  || match s with
     | EmptyString => false
     | String _ s' => occurs marker s'
     end.

Fixpoint blank (s : string) : bool :=
  match s with
  | EmptyString => true
  | String c s' => PyStr.isspace c && blank s'
  end.

(** [s] from its first character that is not white space on. *)
Fixpoint trim_left (s : string) : string :=
  match s with
  | EmptyString => EmptyString
  | String c s' => if PyStr.isspace c then trim_left s' else s
  end.

(** [s] up to its last character that is not white space. *)
Fixpoint trim_right (s : string) : string :=
  match s with
  | EmptyString => EmptyString
  | String c s' => if blank s then EmptyString else String c (trim_right s')
  end.

Definition trim (s : string) : string := trim_right (trim_left s).

(** The returned text with the code-fence markers stripped. *)
Definition unfenced (text : string) : string :=
  trim (erase bare_fence (erase json_fence (trim text))).

(** The value of the first entry of a message under [key]. *)
Definition entry (key : string) (m : message) : option field :=
  snd <$> List.find (fun kv => String.eqb (fst kv) key) m.

(** The text the model returned: the content of the first choice of a
    completion, when the call gave a completion, it has a choice, and the
    content of that choice is a text. *)
Definition returned_text (o : result completion) : option string :=
  match o with
  | Ok r =>
      match head (choices r) with
      | Some m =>
          match entry "content" m with
          | Some (FStr text) => Some text
          | _ => None
          end
      | None => None
      end
  | Raise _ => None
  end.

(** What the lookup returns: the returned text, stripped of its code-fence
    markers and parsed as JSON, when that is an array; the empty sequence
    when there is no text, when parsing fails and when the result is not an
    array. *)
Definition links (parse : string -> result json) (o : result completion) : list json :=
  match returned_text o with
  | Some text =>
      match parse (unfenced text) with
      | Ok (JArr items) => items
      | _ => []
      end
  | None => []
  end.

End LinkSpec.


(** ** What an attempt sees *)

(** The outcome of the attempt that starts when [i] GETs have been issued:
    the failure of one of its two GETs, or else the inner response. *)
Definition attempt_sees (net : nat -> get_outcome) (i : nat) : get_outcome :=
  match net i with
  | Err e => Err e
  | Resp _ => net (S i)
  end.

(** The number of GETs of the attempt that starts when [i] GETs have been
    issued: one when the first GET fails, two otherwise. *)
Definition attempt_gets (net : nat -> get_outcome) (i : nat) : nat :=
  match net i with
  | Err _ => 1
  | Resp _ => 2
  end.

(** The number of GETs issued when the [k]-th attempt after the one that
    starts at [i] starts. *)
Fixpoint attempt_start (net : nat -> get_outcome) (i k : nat) : nat :=
  match k with
  | O => i
  | S k' => attempt_start net (i + attempt_gets net i) k'
  end.

(** A status of 500 or more, or a connection error or timeout. *)
Definition transient (o : get_outcome) : bool :=
  match o with
  | Resp r => (500 <=? resp_status r)%Z
  | Err e => is_transport e
  end.

(** The conditions under which the code goes to one of its two backoff
    branches when attempts remain: a status other than 200 and 429, or a
    connection error or timeout. *)
Definition backoff_case (o : get_outcome) : bool :=
  match o with
  | Resp r => negb (resp_status r =? 200)%Z && negb (resp_status r =? 429)%Z
  | Err e => is_transport e
  end.

(** The state left by a run. *)
Definition final {A} (run : result A * state) : state := snd run.
Definition outcome {A} (run : result A * state) : result A := fst run.

(** The exception raised when the last attempt of the budget fails
    (lines 152-155 and 167-170). *)
Definition exhausted_error (max_retries : Z) (o : get_outcome) : exn :=
  match o with
  | Resp r =>
      HTTPException (resp_status r)
        ("TMDB API error: " +:+ pretty (resp_status r) +:+ " - " +:+ resp_text r)
  | Err e =>
      HTTPException 500
        ("Failed to fetch data from TMDB after " +:+ pretty max_retries
           +:+ " attempts: " +:+ exn_str e)
  end.

(** [quiet st st1]: between [st] and [st1] requests may have been issued
    and the session opened, but nothing was slept, drawn or stored. *)
Definition quiet (st st1 : state) : Prop :=
  heap st1 = heap st ∧ slept st1 = slept st ∧ drawn st1 = drawn st.

Definition keeps_heap {A} (m : M A) : Prop :=
  ∀ st, heap (final (m st)) = heap st.

(** ** Fixtures for the examples *)

Definition fresh_state : state :=
  {| heap := ∅; session := None; sent := []; slept := []; drawn := 0 |}.

Definition demo_client : TMDBClient := TMDBClient_init "k3y".

(** A response with a body that is not JSON. *)
Definition reply (status : Z) (hs : list (string * string)) (text : string) : response :=
  {| resp_status := status; resp_headers := hs; resp_text := text;
     resp_body := Raise (JSONDecodeError "Expecting value: line 1 column 1 (char 0)");
     resp_mismatch := "Attempt to decode JSON with unexpected mimetype" |}.

(** The Content-Type of TMDB's answers. *)
Definition json_type : list (string * string) :=
  [("Content-Type", "application/json;charset=utf-8")].

(** The decoded body [{"results":[{"id":1}]}]. *)
Definition results_id_1 : json :=
  JObj [("results", JArr [JObj [("id", JInt 1)]])].

Definition reply_ok (v : json) : response :=
  {| resp_status := 200; resp_headers := json_type; resp_text := "(json)";
     resp_body := Ok v;
     resp_mismatch := "Attempt to decode JSON with unexpected mimetype" |}.

(** A server that gives the same answer to every GET. *)
Definition always (r : response) : nat -> get_outcome := fun _ => Resp r.

(** A server that answers the GETs of the first attempt with [r] and every
    later GET with [r']. *)
Definition first_then (r r' : response) : nat -> get_outcome :=
  fun i => if (i <? 2)%nat then Resp r else Resp r'.

Definition not_found : response := reply 404 [] "Not Found".

(** A module namespace in which [random] is bound: the first draw is 1/2,
    the later ones are 0. *)
Definition half_then_zero : nat -> Z :=
  fun k => match k with O => (2 ^ 52)%Z | S _ => 0%Z end.

Definition globals_with_random : Globals := {| g_random := Some half_then_zero |}.

Definition unavailable : response := reply 503 [] "Service Unavailable".

Definition run_unavailable : result json * state :=
  _make_request main_globals (always unavailable) demo_client
    "movie/popular" None 3 fresh_state.

(** A server whose answers get worse: 500 to the first attempt, 502 to the
    second, 503 from then on. *)
Definition worsening : nat -> get_outcome :=
  fun i =>
    if (i <? 2)%nat then Resp (reply 500 [] "Internal Server Error")
    else if (i <? 4)%nat then Resp (reply 502 [] "Bad Gateway")
    else Resp unavailable.

Definition run_worsening : result json * state :=
  _make_request globals_with_random worsening demo_client
    "movie/popular" None 3 fresh_state.

(** Answers with status 429. *)
Definition too_many : response := reply 429 [] "Too Many Requests".

Definition too_many_wait_7 : response :=
  reply 429 [("Retry-After", "7")] "Too Many Requests".

Definition too_many_http_date : response :=
  reply 429 [("Retry-After", "Wed, 21 Oct 2015 07:28:00 GMT")] "Too Many Requests".

Definition run_rate_limited_no_header : result json * state :=
  _make_request main_globals (first_then too_many (reply_ok results_id_1))
    demo_client "movie/popular" None 3 fresh_state.

Definition run_rate_limited_http_date : result json * state :=
  _make_request main_globals (first_then too_many_http_date (reply_ok results_id_1))
    demo_client "movie/popular" None 3 fresh_state.

(** [n] zeros. *)
Fixpoint zeros (n : nat) : string :=
  match n with
  | O => EmptyString
  | S k => String "0" (zeros k)
  end.

(** A first attempt that is rate limited with the header value [value],
    and then a 200. *)
Definition run_rate_limited (value : string) : result json * state :=
  _make_request main_globals
    (first_then (reply 429 [("Retry-After", value)] "Too Many Requests")
       (reply_ok results_id_1))
    demo_client "movie/popular" None 3 fresh_state.

Definition run_rate_limited_throughout : result json * state :=
  _make_request main_globals (always too_many_wait_7) demo_client
    "movie/popular" None 3 fresh_state.

(** A 200 answer that is a page of HTML. *)
Definition not_json : response :=
  reply 200 [("Content-Type", "text/html; charset=utf-8")] "<html>not json</html>".

(** A 200 answer that says it is JSON and whose body is cut short. *)
Definition cut_short : response :=
  {| resp_status := 200; resp_headers := json_type; resp_text := "{";
     resp_body :=
       Raise (JSONDecodeError
                "Expecting property name enclosed in double quotes: line 1 column 2 (char 1)");
     resp_mismatch := "Attempt to decode JSON with unexpected mimetype" |}.

Definition run_malformed_body : result json * state :=
  _make_request main_globals (always not_json) demo_client
    "movie/popular" None 3 fresh_state.

Definition run_cut_short : result json * state :=
  _make_request main_globals (always cut_short) demo_client
    "movie/popular" None 3 fresh_state.

(** A caller's state: one dictionary, [{"page": 1}], at location 0. *)
Definition caller_state : state :=
  {| heap := {[ 0 := {[ "page" := VInt 1 ]} ]}; session := None;
     sent := []; slept := []; drawn := 0 |}.

Definition run_with_page : result json * state :=
  _make_request main_globals (always (reply_ok results_id_1)) demo_client
    "movie/popular" (Some 0) 3 caller_state.

(** Fixtures for the link lookup. *)
Module LinkFixtures.
Import OpenAIService.

(** A decoder that knows one text. *)
Definition loads_one_two (s : string) : result json :=
  if String.eqb s "[1, 2]" then Ok (JArr [JInt 1; JInt 2])
  else Raise (JSONDecodeError "Expecting value").

Definition fenced : string := "```json
[1, 2]
```
".

Definition completes_with (text : string) : string -> string -> string -> result completion :=
  fun _ _ _ =>
    Ok {| choices := [[("role", FStr "assistant"); ("content", FStr text)]] |}.

End LinkFixtures.

(** ** The other methods of [TMDBClient] *)

(** A dictionary display [{...}]: a new object. *)
Definition new_dict (d : gmap string pyval) : M loc :=
  fun st =>
    let l := fresh (dom (heap st)) in (Ok l, set_heap (<[l := d]> (heap st)) st).

Section ClientMethods.

Variable G : Globals.
Variable net : nat -> get_outcome.
Variable self : TMDBClient.

(** [TMDBClient.search(self, query, media_type="multi", page=1)]
    (lines 255-262) *)
Definition search (query media_type page : pyval) : M json :=
  let endpoint := "search/" +:+ pyval_str media_type in
  let* params :=
    new_dict {[ "query" := query; "page" := page; "include_adult" := VStr "false" ]} in
  let* data := _make_request G net self endpoint (Some params) 3 in
  ret (PyJson.or_empty_dict data).

(** [TMDBClient.get_movie_details] (lines 307-310).  The class body defines
    the method twice; the definition of lines 264-269, which sends
    [append_to_response], is replaced by this one when the class is built. *)
Definition get_movie_details (movie_id : pyval) : M json :=
  let endpoint := "movie/" +:+ pyval_str movie_id in
  let* data := _make_request G net self endpoint None 3 in
  ret (PyJson.or_empty_dict data).

(** [TMDBClient.get_tv_details] (lines 312-315), which replaces the
    definition of lines 271-276 in the same way. *)
Definition get_tv_details (tv_id : pyval) : M json :=
  let endpoint := "tv/" +:+ pyval_str tv_id in
  let* data := _make_request G net self endpoint None 3 in
  ret (PyJson.or_empty_dict data).

(** The shape shared by the four list accessors: [params = {"page": page}],
    then [data.get("results", []) if data else []]. *)
Definition paged_results (endpoint : string) (page : pyval) : M json :=
  let* params := new_dict {[ "page" := page ]} in
  let* data := _make_request G net self endpoint (Some params) 3 in
  lift (PyJson.results_or_empty data).

(** [TMDBClient.get_popular_movies(self, page=1)] (lines 278-282) *)
Definition get_popular_movies (page : pyval) : M json :=
  paged_results "movie/popular" page.

(** [TMDBClient.get_popular_tv(self, page=1)] (lines 284-288) *)
Definition get_popular_tv (page : pyval) : M json :=
  paged_results "tv/popular" page.

(** [TMDBClient.get_top_rated_movies(self, page=1)] (lines 290-294) *)
Definition get_top_rated_movies (page : pyval) : M json :=
  paged_results "movie/top_rated" page.

(** [TMDBClient.get_top_rated_tv(self, page=1)] (lines 296-300) *)
Definition get_top_rated_tv (page : pyval) : M json :=
  paged_results "tv/top_rated" page.

(** [TMDBClient.get_watch_providers(self, media_type, media_id)]
    (lines 302-305) *)
Definition get_watch_providers (media_type media_id : pyval) : M json :=
  let endpoint :=
    pyval_str media_type +:+ "/" +:+ pyval_str media_id +:+ "/watch/providers" in
  let* data := _make_request G net self endpoint None 3 in
  ret (PyJson.or_empty_dict data).

End ClientMethods.

(** ** The JSON routes of [main.py] *)

Module Api.
Section Api.

Variable G : Globals.
Variable net : nat -> get_outcome.
Variable tmdb_client : TMDBClient.

(** [@app.get("/api/search")] (lines 336-339) *)
Definition search (query media_type : string) (page : Z) : M json :=
  let* results :=
    search G net tmdb_client (VStr query) (VStr media_type) (VInt page) in
  ret results.   (* JSONResponse(results) *)

(** [@app.get("/api/movie/{movie_id}")] (lines 341-346) *)
Definition get_movie (movie_id : Z) : M json :=
  let* movie := get_movie_details G net tmdb_client (VInt movie_id) in
  if negb (truthy movie) then raise (HTTPException 404 "Movie not found")
  else ret movie.   (* JSONResponse(movie) *)

(** [@app.get("/api/movies/popular")] (lines 348-351) *)
Definition get_popular_movies (page : Z) : M json :=
  let* results := get_popular_movies G net tmdb_client (VInt page) in
  ret (JObj [("results", results)]).

(** [@app.get("/api/movies/top_rated")] (lines 353-356) *)
Definition get_top_rated_movies (page : Z) : M json :=
  let* results := get_top_rated_movies G net tmdb_client (VInt page) in
  ret (JObj [("results", results)]).

End Api.
End Api.

(** ** What a computation may log *)

(** The GET that [session_get url l] issues in state [st]. *)
Definition request_of (url : string) (l : loc) (st : state) : request :=
  {| req_url := url; req_params := deref st l |}.

(** [traced url l n k m]: running [m] leaves the heap alone, issues at most
    [n] GETs, each of them for [url] with the dictionary at [l] as
    parameters, and sleeps at most [k] times. *)
Definition traced {A} (url : string) (l : loc) (n k : nat) (m : M A) : Prop :=
  ∀ st,
    heap (final (m st)) = heap st
    ∧ ∃ new sl,
        sent (final (m st)) = sent st ++ new
        ∧ length new ≤ n
        ∧ Forall (λ rq, rq = request_of url l st) new
        ∧ slept (final (m st)) = slept st ++ sl
        ∧ length sl ≤ k.

(** The content of the [params] argument when the call starts. *)
Definition params_content (params : option loc) (st : state) : gmap string pyval :=
  match params with
  | Some l => deref st l
  | None => ∅
  end.

(** A server whose first two attempts are rate limited, with waits of 7 and
    then 0 seconds, and whose third attempt is answered with [v]. *)
Definition too_many_wait_0 : response :=
  reply 429 [("retry-after", "0")] "Too Many Requests".

Definition limited_twice (v : json) : nat -> get_outcome :=
  fun i =>
    if (i <? 2)%nat then Resp too_many_wait_7
    else if (i <? 4)%nat then Resp too_many_wait_0
    else Resp (reply_ok v).

Definition waits_7_0 (i : nat) : Z :=
  match i with O => 7%Z | _ => 0%Z end.

(** ** [class StreamingService] of [streaming_utils.py] *)

Module Streaming.

(** What [requests.get] returns: the status line, the final URL and the
    outcome of [response.json()]. *)
Record http_response : Type := {
  status_code : Z;
  reason : string;
  url : string;
  body : result json
}.

(** [response.raise_for_status()] *)
Definition raise_for_status (r : http_response) : result unit :=
  if (400 <=? status_code r)%Z && (status_code r <? 500)%Z then
    Raise (OtherException "requests.exceptions.HTTPError"
             (pretty (status_code r) +:+ " Client Error: " +:+ reason r
                +:+ " for url: " +:+ url r))
  else if (500 <=? status_code r)%Z && (status_code r <? 600)%Z then
    Raise (OtherException "requests.exceptions.HTTPError"
             (pretty (status_code r) +:+ " Server Error: " +:+ reason r
                +:+ " for url: " +:+ url r))
  else Ok tt.

Record StreamingService : Type := {
  tmdb_api_key : string;
  base_url : string
}.

(** [StreamingService.__init__] *)
Definition StreamingService_init (key : string) : StreamingService :=
  {| tmdb_api_key := key; base_url := "https://api.themoviedb.org/3" |}.

Definition bindR {A B} (r : result A) (k : A -> result B) : result B :=
  match r with
  | Ok a => k a
  | Raise e => Raise e
  end.

Notation "'do' x <- r ; k" := (bindR r (fun x => k))
  (at level 10, x pattern, r at level 100, k at level 200).

(** [try: r except Exception as e: h e] *)
Definition except_all {A} (r : result A) (h : exn -> A) : result A :=
  match r with
  | Ok a => Ok a
  | Raise e => Ok (h e)
  end.

(** [template.format(name=value, ...)] for templates whose fields are plain
    names;
    [field] is the name being read, if any. *)
Fixpoint format_go (args : list (string * string)) (s : string)
    (field : option string) : result string :=
  match s with
  | EmptyString =>
      match field with
      | None => Ok EmptyString
      | Some _ => Raise (ValueError "expected '}' before end of string")
      end
  | String c s' =>
      match field with
      | Some name =>
          if PyStr.is_char c "}" then
            match List.find (λ kv, String.eqb (fst kv) name) args with
            | Some kv => do rest <- format_go args s' None; Ok (snd kv +:+ rest)
            | None => Raise (KeyError name)
            end
          else format_go args s' (Some (name +:+ String c EmptyString))
      | None =>
          if PyStr.is_char c "{" then
            match s' with
            | String "{" s'' => do rest <- format_go args s'' None; Ok (String c rest)
            | _ => format_go args s' (Some EmptyString)
            end
          else if PyStr.is_char c "}" then
            match s' with
            | String "}" s'' => do rest <- format_go args s'' None; Ok (String c rest)
            | _ => Raise (ValueError "Single '}' encountered in format string")
            end
          else do rest <- format_go args s' None; Ok (String c rest)
      end
  end.

Definition format (template : string) (args : list (string * string)) : result string :=
  format_go args template None.

(** The dictionary [provider_urls] of lines 99-120. *)
Definition provider_urls : list (Z * string) :=
  [ (8%Z, "https://www.netflix.com/title/{tmdb_id}");
    (119%Z, "https://www.primevideo.com/detail/{tmdb_id}");
    (337%Z, "https://www.disneyplus.com/movies/{tmdb_id}");
    (15%Z, "https://www.hulu.com/movie/{tmdb_id}");
    (384%Z, "https://play.hbomax.com/feature/{tmdb_id}");
    (350%Z, "https://tv.apple.com/movie/{tmdb_id}");
    (192%Z, "https://www.youtube.com/results?search_query={title}");
    (3%Z, "https://play.google.com/store/movies/details?id={tmdb_id}");
    (7%Z, "https://www.vudu.com/content/movies/details/{title}/{tmdb_id}");
    (68%Z, "https://www.microsoft.com/en-us/p/{title}/{tmdb_id}") ].

(** The integer a decoded value is equal to, if any, as a key of a dict
    with integer keys: [8.0] and [8] are the same key, [True] is [1]; a list
    or a dict cannot be hashed. *)
Definition int_key (v : json) : result (option Z) :=
  match v with
  | JInt n => Ok (Some n)
  | JBool b => Ok (Some (if b then 1 else 0)%Z)
  | JReal q =>
      Ok (if (Qnum q mod Zpos (Qden q) =? 0)%Z then Some (Qnum q / Zpos (Qden q))%Z
          else None)
  | JStr _ | JNull => Ok None
  | JArr _ | JObj _ =>
      Raise (TypeError ("unhashable type: '" +:+ PyJson.type_name v +:+ "'"))
  end.

Definition lookup_url (key : option Z) : option string :=
  match key with
  | Some n => snd <$> List.find (λ kv, (fst kv =? n)%Z) provider_urls
  | None => None
  end.

(** [StreamingService._get_streaming_url] (lines 93-128) *)
Definition _get_streaming_url (content_id : Z) (content_type : string)
    (provider_id : json) : result string :=
  let base_url :=
    "https://www.themoviedb.org/" +:+ content_type +:+ "/" +:+ pretty content_id
      +:+ "/watch" in
  do key <- int_key provider_id;
  match lookup_url key with
  | Some template =>
      format template
        [("tmdb_id", pretty content_id);
         ("title", content_type +:+ "_" +:+ pretty content_id)]
  | None => Ok base_url
  end.

Section Service.

(** [repr] of floats, lists and dicts, for the f-strings. *)
Variable repr : json -> string.

(** [requests.get(url, headers={"Authorization": authorization})] *)
Variable requests_get : string -> string -> result http_response.

Variable self : StreamingService.

Definition authorization : string := "Bearer " +:+ tmdb_api_key self.

(** The dictionary appended for one YouTube video (lines 143-148). *)
Definition embed_of (video : json) : result json :=
  do name <- PyJson.get video "name" (JStr "Video");
  do key <- PyJson.get video "key" JNull;
  do type <- PyJson.get video "type" (JStr "Trailer");
  do key' <- PyJson.get video "key" JNull;
  Ok (JObj [("name", name); ("key", key); ("type", type);
            ("url", JStr ("https://www.youtube.com/embed/" +:+ PyJson.str repr key'))]).

(** The loop of lines 141-148 on the videos left to visit. *)
Fixpoint collect_embeds (videos : list json) (embeds : list json) : result (list json) :=
  match videos with
  | [] => Ok embeds
  | video :: rest =>
      do site <- PyJson.get video "site" JNull;
      if PyJson.is_str "YouTube" site then
        do e <- embed_of video;
        collect_embeds rest (embeds ++ [e])
      else collect_embeds rest embeds
  end.

(** [StreamingService.get_video_embeds] (lines 130-154) *)
Definition get_video_embeds (content_id : Z) (content_type : string) : result json :=
  except_all
    (do response <-
       requests_get
         (base_url self +:+ "/" +:+ content_type +:+ "/" +:+ pretty content_id +:+ "/videos")
         authorization;
     do _ <- raise_for_status response;
     do data <- body response;
     do videos <- PyJson.get data "results" (JArr []);
     do items <- PyJson.iter videos;
     do embeds <- collect_embeds items [];
     Ok (JArr embeds))
    (λ _, JArr []).

(** [os.getenv('OPENAI_API_KEY')] *)
Variable openai_api_key : option string.

(** [openai_client.chat.completions.create(model=..., messages=[system,
    user], temperature=0.7, max_tokens=150)], by model, system text and user
    text; the result is the list of [choice.message.content] of its
    choices, each a string or [None]. *)
Variable chat_create : string -> string -> string -> result (list (option string)).

(** [link_type if link_type != 'flatrate' else 'stream'] *)
Definition link_key (link_type : string) : string :=
  if negb (String.eqb link_type "flatrate") then link_type else "stream".

(** [links[key].append(x)] on a dictionary of lists. *)
Fixpoint append_at (key : string) (x : json) (links : list (string * json))
    : result (list (string * json)) :=
  match links with
  | [] => Raise (KeyError key)
  | (k, v) :: rest =>
      if String.eqb k key then
        match v with
        | JArr items => Ok ((k, JArr (items ++ [x])) :: rest)
        | _ => Raise (PyJson.no_attribute v "append")
        end
      else do rest' <- append_at key x rest; Ok ((k, v) :: rest')
  end.

(** Lines 58-65: [for provider in region_data[link_type]]. *)
Fixpoint add_providers (content_id : Z) (content_type link_type : string)
    (providers : list json) (links : list (string * json))
    : result (list (string * json)) :=
  match providers with
  | [] => Ok links
  | provider :: rest =>
      do name <- PyJson.get provider "provider_name" (JStr "Unknown");
      do logo <- PyJson.get provider "logo_path" (JStr EmptyString);
      do provider_id <- PyJson.get provider "provider_id" JNull;
      do provider_id' <- PyJson.get provider "provider_id" JNull;
      do target <- _get_streaming_url content_id content_type provider_id';
      do links' <-
        append_at (link_key link_type)
          (JObj [("provider_name", name);
                 ("logo_path", JStr ("https://image.tmdb.org/t/p/w92" +:+ PyJson.str repr logo));
                 ("provider_id", provider_id);
                 ("type", JStr (link_key link_type));
                 ("url", JStr target)])
          links;
      add_providers content_id content_type link_type rest links'
  end.

(** Lines 56-65: [for link_type in ['flatrate', 'rent', 'buy']]. *)
Fixpoint add_link_types (content_id : Z) (content_type : string)
    (link_types : list string) (region_data : json) (links : list (string * json))
    : result (list (string * json)) :=
  match link_types with
  | [] => Ok links
  | link_type :: rest =>
      do present <- PyJson.contains region_data link_type;
      if (present : bool) then
        do providers <- PyJson.getitem region_data link_type;
        do items <- PyJson.iter providers;
        do links' <- add_providers content_id content_type link_type items links;
        add_link_types content_id content_type rest region_data links'
      else add_link_types content_id content_type rest region_data links
  end.

(** Lines 53-65: [for region in ['US', 'GB', 'CA', 'IN']]. *)
Fixpoint add_regions (content_id : Z) (content_type : string)
    (regions : list string) (providers : json) (links : list (string * json))
    : result (list (string * json)) :=
  match regions with
  | [] => Ok links
  | region :: rest =>
      do present <- PyJson.contains providers region;
      if (present : bool) then
        do region_data <- PyJson.getitem providers region;
        do links' <-
          add_link_types content_id content_type ["flatrate"; "rent"; "buy"]
            region_data links;
        add_regions content_id content_type rest providers links'
      else add_regions content_id content_type rest providers links
  end.

Definition nonempty (s : option string) : bool :=
  match s with
  | Some (String _ _) => true
  | _ => false
  end.

(** The user message of line 75. *)
Definition recommendation_prompt (title : string) (year : option string) : string :=
  "Provide a brief recommendation for watching '" +:+ title +:+ "' "
    +:+ (match year with
         | Some (String c y) => "(" +:+ String c y +:+ ") "
         | _ => EmptyString
         end)
    +:+ "based on its availability on streaming platforms. Keep it under 100 words.".

(** Lines 69-85: the recommendation, or the fixed text when anything in the
    [try] block raises. *)
Definition ai_recommendation (title : string) (year : option string) : string :=
  match
    (do contents <-
       chat_create "gpt-3.5-turbo"
         "You are a helpful assistant that provides streaming recommendations."
         (recommendation_prompt title year);
     match contents with
     | [] => Raise (IndexError "list index out of range")
     | Some text :: _ => Ok (PyStr.strip text)
     | None :: _ => Raise (AttributeError "'NoneType' object has no attribute 'strip'")
     end)
  with
  | Ok text => text
  | Raise _ => "AI recommendations are currently unavailable."
  end.

(** [StreamingService.get_streaming_links] (lines 23-91) *)
Definition get_streaming_links (content_id : Z) (content_type : string)
    (title year : option string) : result json :=
  except_all
    (do response <-
       requests_get
         (base_url self +:+ "/" +:+ content_type +:+ "/" +:+ pretty content_id
            +:+ "/watch/providers")
         authorization;
     do _ <- raise_for_status response;
     do data <- body response;
     do providers <- PyJson.get data "results" (JObj []);
     do links <-
       add_regions content_id content_type ["US"; "GB"; "CA"; "IN"] providers
         [("stream", JArr []); ("rent", JArr []); ("buy", JArr [])];
     match title with
     | Some (String c t) =>
         if nonempty openai_api_key then
           Ok (JObj (links ++ [("ai_recommendation",
                                JStr (ai_recommendation (String c t) year))]))
         else Ok (JObj links)
     | _ => Ok (JObj links)
     end)
    (λ e, JObj [("error", JStr (exn_str e))]).

End Service.

(** The dictionary built for a YouTube video whose fields are [video]. *)
Definition youtube_embed (repr : json -> string) (video : list (string * json)) : json :=
  JObj [("name", fields_get video "name" (JStr "Video"));
        ("key", fields_get video "key" JNull);
        ("type", fields_get video "type" (JStr "Trailer"));
        ("url", JStr ("https://www.youtube.com/embed/"
                        +:+ PyJson.str repr (fields_get video "key" JNull)))].

Definition on_youtube (video : list (string * json)) : bool :=
  PyJson.is_str "YouTube" (fields_get video "site" JNull).

(** The link's [type] entry is [key]. *)
Definition has_type (key : string) (link : json) : Prop :=
  PyJson.get link "type" JNull = Ok (JStr key).

(** The three lists of a result, each holding links of its own type. *)
Definition typed_links (links : list (string * json)) : Prop :=
  ∃ s r b,
    links = [("stream", JArr s); ("rent", JArr r); ("buy", JArr b)]
    ∧ Forall (has_type "stream") s ∧ Forall (has_type "rent") r
    ∧ Forall (has_type "buy") b.

(** Fixtures: a service, an answer with three videos, an answer with
    providers in two regions. *)
Definition demo_service : StreamingService := StreamingService_init "t0ken".

Definition plain_repr : json -> string := λ _, "<repr>".

Definition three_videos : list (list (string * json)) :=
  [ [("site", JStr "YouTube"); ("key", JStr "abc"); ("name", JStr "Official Trailer");
     ("type", JStr "Trailer")];
    [("site", JStr "Vimeo"); ("key", JStr "xyz")];
    [("site", JStr "YouTube"); ("key", JStr "def")] ].

Definition answers (data : json) : string -> string -> result http_response :=
  λ url _, Ok {| status_code := 200; reason := "OK"; url := url; body := Ok data |}.

Definition answers_status (code : Z) (text : string)
    : string -> string -> result http_response :=
  λ url _, Ok {| status_code := code; reason := text; url := url;
                 body := Raise (JSONDecodeError "Expecting value") |}.

Definition two_regions : json :=
  JObj [("results",
         JObj [("GB", JObj [("rent", JArr [JObj [("provider_name", JStr "Apple TV");
                                                  ("provider_id", JInt 350)]])]);
               ("FR", JObj [("flatrate", JArr [JObj [("provider_id", JInt 8)]])]);
               ("US", JObj [("flatrate", JArr [JObj [("provider_name", JStr "Netflix");
                                                      ("logo_path", JStr "/n.png");
                                                      ("provider_id", JInt 8)]])])])].

Definition chat_fails : string -> string -> string -> result (list (option string)) :=
  λ _ _ _, Raise (OtherException "openai.RateLimitError" "quota").

End Streaming.

(** ** The other methods of [OpenAIService] *)

Module Recommendations.
Import OpenAIService.

(** [message.content]: on the objects of this library an attribute is a key,
    and a missing one is an [AttributeError]. *)
Definition content_of (m : message) : result field :=
  match getitem m "content" with
  | Ok v => Ok v
  | Raise _ => Raise (AttributeError "content")
  end.

(** [json.loads(content)] on a string or [None]. *)
Definition loads_field (json_loads : string -> result json) (content : field)
    : result json :=
  match content with
  | FStr s => json_loads s
  | FNone =>
      Raise (TypeError "the JSON object must be str, bytes or bytearray, not NoneType")
  end.

Definition field_json (content : field) : json :=
  match content with
  | FStr s => JStr s
  | FNone => JNull
  end.

Definition is_decode_error (e : exn) : bool :=
  match e with
  | JSONDecodeError _ => true
  | _ => false
  end.

(** The f-string of lines 95-105. *)
Definition recommendations_prompt (title content_type : string) (year : option Z)
    : string :=
  "
            Provide streaming recommendations for this "
    +:+ (if String.eqb content_type "movie" then "movie" else "TV show") +:+ ":
            
            Title: " +:+ title +:+ "
            Year: " +:+ (match year with
                         | Some y => if (y =? 0)%Z then "N/A" else pretty y
                         | None => "N/A"
                         end) +:+ "
            
            Please provide:
            1. Where to watch it (streaming platforms)
            2. Similar content recommendations
            3. Why someone might enjoy it
            ".

Definition recommendations_system : string :=
  "You are a helpful assistant that provides detailed information about movies and TV shows.".

Definition description_system : string :=
  "You are a creative writer who creates engaging descriptions for movies and TV shows.".

(** [', '.join(names)]: every item has to be a string. *)
Fixpoint join_names (index : nat) (names : list json) : result string :=
  match names with
  | [] => Ok EmptyString
  | JStr s :: rest =>
      match rest with
      | [] => Ok s
      | _ =>
          match join_names (S index) rest with
          | Ok tail => Ok (s +:+ ", " +:+ tail)
          | Raise e => Raise e
          end
      end
  | v :: _ =>
      Raise (TypeError ("sequence item " +:+ pretty index +:+ ": expected str instance, "
                          +:+ PyJson.type_name v +:+ " found"))
  end.

(** [[g['name'] for g in genres]] *)
Fixpoint genre_names (genres : list json) : result (list json) :=
  match genres with
  | [] => Ok []
  | g :: rest =>
      match PyJson.getitem g "name" with
      | Ok name =>
          match genre_names rest with
          | Ok names => Ok (name :: names)
          | Raise e => Raise e
          end
      | Raise e => Raise e
      end
  end.

Section Service.

Variable repr : json -> string.
Variable json_loads : string -> result json.
Variable ChatCompletion_create : string -> string -> string -> result completion.
Variable model : string.

(** [OpenAIService.get_streaming_recommendations] (lines 81-129) *)
Definition get_streaming_recommendations (title content_type : string)
    (year : option Z) : result json :=
  match
    bindR (ChatCompletion_create model recommendations_system
             (recommendations_prompt title content_type year)) (λ response,
    bindR (first_choice response) (λ choice,
    bindR (content_of choice) (λ content,
    try_result (loads_field json_loads content) is_decode_error
      (λ _, Ok (JObj [("response", field_json content)])))))
  with
  | Ok v => Ok v
  | Raise e => Ok (JObj [("error", JStr (exn_str e))])
  end.

(** The f-string of lines 134-143; it calls [details.get] twice, indexes
    every genre and joins the names. *)
Definition description_prompt (title content_type : string) (details : json)
    : result string :=
  bindR (PyJson.get details "overview" (JStr "No overview available.")) (λ overview,
  bindR (PyJson.get details "genres" (JArr [])) (λ genres,
  bindR (PyJson.iter genres) (λ items,
  bindR (genre_names items) (λ names,
  bindR (join_names 0 names) (λ joined,
  Ok ("
            Write an engaging and concise description for this "
        +:+ (if String.eqb content_type "movie" then "movie" else "TV show") +:+ ":
            
            Title: " +:+ title +:+ "
            Overview: " +:+ PyJson.str repr overview +:+ "
            Genres: " +:+ joined +:+ "
            
            Make it engaging and highlight what makes this content special.
            Keep it under 200 characters.
            ")))))).

(** [OpenAIService.generate_content_description] (lines 131-158).  The
    handler calls [details.get] again, outside any [try]. *)
Definition generate_content_description (title content_type : string)
    (details : json) : result json :=
  match
    bindR (description_prompt title content_type details) (λ prompt,
    bindR (ChatCompletion_create model description_system prompt) (λ response,
    bindR (first_choice response) (λ choice,
    bindR (content_of choice) (λ content,
    bindR (field_strip content) (λ text, Ok (JStr text))))))
  with
  | Ok v => Ok v
  | Raise _ => PyJson.get details "overview" (JStr "No description available.")
  end.

End Service.

(** Fixtures. *)
Definition inception : json :=
  JObj [("overview", JStr "A thief who steals corporate secrets.");
        ("genres", JArr [JObj [("id", JInt 28); ("name", JStr "Action")];
                         JObj [("id", JInt 878); ("name", JStr "Science Fiction")]])].

Definition create_fails : string -> string -> string -> result completion :=
  λ _ _ _, Raise (OtherException "openai.error.APIConnectionError" "connection reset").

End Recommendations.

(** ** The HTML routes of [main.py] *)

(** The names bound at module level in [main.py]: its imports, its
    assignments, its class and its functions. *)
Definition main_module_names : list string :=
  [ "aiohttp"; "asyncio"; "logging"; "traceback"; "FastAPI"; "Request";
    "HTTPException"; "JSONResponse"; "logger"; "StaticFiles"; "Jinja2Templates";
    "HTMLResponse"; "requests"; "os"; "Path"; "List"; "Dict"; "Optional"; "Any";
    "datetime"; "app"; "add_process_time_header"; "BASE_DIR"; "templates";
    "TMDB_API_KEY"; "TMDB_IMAGE_BASE_URL"; "TMDBClient"; "tmdb_client"; "test";
    "health_check"; "get_trending"; "search"; "get_movie"; "get_popular_movies";
    "get_top_rated_movies"; "favicon"; "read_root"; "read_movie"; "search_movies";
    "watch_media" ].

(** Evaluating a global name that is not a builtin. *)
Definition resolve (name : string) : result unit :=
  if existsb (String.eqb name) main_module_names then Ok tt
  else Raise (NameError name).

Definition TMDB_IMAGE_BASE_URL : string := "https://image.tmdb.org/t/p/".

Module Pages.

(** A value of a template context: the request object, or data. *)
Inductive ctx : Type :=
| CRequest
| CJson (v : json).

Definition any_exception (e : exn) : bool := true.

(** The literal [{"results": []}]. *)
Definition no_results : json := JObj [("results", JArr [])].

(** [x.get("results", [])[:10]] *)
Definition first_ten (x : json) : result json :=
  match PyJson.get x "results" (JArr []) with
  | Ok results => PyJson.slice_to 10 results
  | Raise e => Raise e
  end.

(** [len(x.get('results', []))] *)
Definition count_results (x : json) : result Z :=
  match PyJson.get x "results" (JArr []) with
  | Ok results => PyJson.len results
  | Raise e => Raise e
  end.

Section Pages.

Variable G : Globals.
Variable net : nat -> get_outcome.
Variable tmdb_client : TMDBClient.

(** The rendered response. *)
Variable page : Type.

(** [templates.TemplateResponse(name, context, status_code=...)]; rendering
    may raise. *)
Variable TemplateResponse : string -> list (string * ctx) -> Z -> result page.

(** [RedirectResponse(url=...)], for a namespace in which the name is
    bound. *)
Variable RedirectResponse : string -> result page.

(** Lines 381-399: [try: x = await lookup or {"results": []}], the handler
    leaving [x] at its initial [{"results": []}]. *)
Definition lookup_or_no_results (lookup : M json) : M json :=
  try_except
    (let* v := lookup in ret (if truthy v then v else no_results))
    any_exception
    (λ _, ret no_results).

(** The handler of [read_root] (lines 413-425).  The [import traceback] of
    line 423, dead as it is, makes [traceback] a local name of the whole
    function, so the f-string of line 414 reads a local that has no value:
    the handler raises before it builds its error page (message of CPython
    3.11). *)
Definition unbound_traceback : exn :=
  OtherException "UnboundLocalError"
    "cannot access local variable 'traceback' where it is not associated with a value".

(** [read_root] (lines 369-425) *)
Definition read_root : M page :=
  try_except
    (let* trending_movies :=
       lookup_or_no_results (get_trending G net tmdb_client [VStr "movie"; VStr "day"]) in
     let* trending_tv :=
       lookup_or_no_results (get_trending G net tmdb_client [VStr "tv"; VStr "day"]) in
     let* popular_movies :=
       lookup_or_no_results (get_popular_movies G net tmdb_client (VInt 1)) in
     let* top_rated_movies :=
       lookup_or_no_results (get_top_rated_movies G net tmdb_client (VInt 1)) in
     (* logger.info(f"... {len(trending_movies.get('results', []))} ...") *)
     let* _ := lift (count_results trending_movies) in
     let* _ := lift (count_results trending_tv) in
     let* shown_trending_movies := lift (first_ten trending_movies) in
     let* shown_trending_tv := lift (first_ten trending_tv) in
     let* shown_popular_movies := lift (first_ten popular_movies) in
     let* shown_top_rated_movies := lift (first_ten top_rated_movies) in
     lift (TemplateResponse "index.html"
             [("request", CRequest);
              ("trending_movies", CJson shown_trending_movies);
              ("trending_tv", CJson shown_trending_tv);
              ("popular_movies", CJson shown_popular_movies);
              ("top_rated_movies", CJson shown_top_rated_movies);
              ("title", CJson (JStr "Movie Rockstar - Discover Movies & TV Shows"))]
             200))
    any_exception
    (λ _, raise unbound_traceback).

(** [search_movies] (lines 537-558) *)
Definition search_movies (q : string) (page_number : Z) : M page :=
  try_except
    (if String.eqb q EmptyString then   (* not q *)
       let* _ := lift (resolve "RedirectResponse") in
       lift (RedirectResponse "/")
     else
       let* results := search G net tmdb_client (VStr q) (VStr "multi") (VInt page_number) in
       lift (TemplateResponse "search.html"
               [("request", CRequest);
                ("query", CJson (JStr q));
                ("results", CJson results);
                ("current_page", CJson (JInt page_number));
                ("config", CJson (JObj [("TMDB_IMAGE_BASE", JStr TMDB_IMAGE_BASE_URL)]))]
               200))
    any_exception
    (λ _, raise (HTTPException 500 "Search failed")).

End Pages.

(** The context of a homepage with nothing to show. *)
Definition empty_homepage : list (string * ctx) :=
  [("request", CRequest);
   ("trending_movies", CJson (JArr []));
   ("trending_tv", CJson (JArr []));
   ("popular_movies", CJson (JArr []));
   ("top_rated_movies", CJson (JArr []));
   ("title", CJson (JStr "Movie Rockstar - Discover Movies & TV Shows"))].

(** A template engine that renders a page as its name, context and status. *)
Definition rendered : Type := (string * list (string * ctx) * Z)%type.

Definition renders : string -> list (string * ctx) -> Z -> result rendered :=
  λ name context status, Ok (name, context, status).

Definition redirects : string -> result rendered :=
  λ url, Ok ("redirect:" +:+ url, [], 307%Z).

End Pages.

(** ** The movie page *)

Module MoviePage.
Import Pages.

(** [x.keys()] is evaluated for a message only: it needs a dict. *)
Definition keys (v : json) : result unit :=
  match v with
  | JObj _ => Ok tt
  | _ => Raise (PyJson.no_attribute v "keys")
  end.

Definition seq_result {A B} (r : result A) (k : A -> result B) : result B :=
  match r with
  | Ok a => k a
  | Raise e => Raise e
  end.

Notation "'do' x <- r ; k" := (seq_result r (fun x => k))
  (at level 10, x pattern, r at level 100, k at level 200).

(** Lines 452-453: [next((v for v in results if v.get('type') == 'Trailer'
    and v.get('site') == 'YouTube'), None)] *)
Fixpoint first_trailer (items : list json) : result json :=
  match items with
  | [] => Ok JNull
  | v :: rest =>
      do type <- PyJson.get v "type" JNull;
      if PyJson.is_str "Trailer" type then
        do site <- PyJson.get v "site" JNull;
        if PyJson.is_str "YouTube" site then Ok v else first_trailer rest
      else first_trailer rest
  end.

Definition find_trailer (videos : json) : result json :=
  do results <- PyJson.get videos "results" (JArr []);
  do items <- PyJson.iter results;
  first_trailer items.

Section Links.

Variable repr : json -> string.

(** The value of [TMDB_IMAGE_BASE], for a namespace in which the name is
    bound. *)
Variable TMDB_IMAGE_BASE : string.

Variable movie_id : Z.

(** Lines 474-478: the list comprehension over the providers of one kind.
    The logo is an f-string over the global [TMDB_IMAGE_BASE], evaluated
    only for a provider that has a [logo_path]. *)
Fixpoint provider_links (providers : list json) : result (list json) :=
  match providers with
  | [] => Ok []
  | p :: rest =>
      do name <- PyJson.get p "provider_name" (JStr "Unknown");
      do has_logo <- PyJson.get p "logo_path" JNull;
      do logo <-
        (if truthy has_logo then
           do _ <- resolve "TMDB_IMAGE_BASE";
           do path <- PyJson.get p "logo_path" (JStr EmptyString);
           Ok (JStr (TMDB_IMAGE_BASE +:+ "w92" +:+ PyJson.str repr path))
         else Ok (JStr EmptyString));
      do links <- provider_links rest;
      Ok (JObj [("provider_name", name);
                ("logo_path", logo);
                ("link", JStr ("https://www.themoviedb.org/movie/" +:+ pretty movie_id
                                 +:+ "/watch?locale=US"))]
            :: links)
  end.

(** One of the three [if us_providers.get(kind): streaming_links[key] = ...]
    statements: the dictionary so far, and whether the statement raised. *)
Definition add_kind (kind key : string) (us_providers : json)
    (links : list (string * json)) : list (string * json) * result unit :=
  match
    (do offered <- PyJson.get us_providers kind JNull;
     if truthy offered then
       do providers <- PyJson.get us_providers kind (JArr []);
       do items <- PyJson.iter providers;
       do built <- provider_links items;
       Ok (Some built)
     else Ok None)
  with
  | Ok (Some built) => (links ++ [(key, JArr built)], Ok tt)
  | Ok None => (links, Ok tt)
  | Raise e => (links, Raise e)
  end.

(** Lines 467-499: [streaming_links] after the [try] block, whose handler
    only prints. *)
Definition movie_streaming_links (providers : json) : list (string * json) :=
  match
    (do results <- PyJson.get providers "results" (JObj []);
     do us <- PyJson.get results "US" JNull;
     if truthy us then
       do results' <- PyJson.getitem providers "results";
       do us_providers <- PyJson.getitem results' "US";
       do _ <- keys us_providers;
       Ok (Some us_providers)
     else Ok None)
  with
  | Ok (Some us_providers) =>
      match add_kind "flatrate" "stream" us_providers [] with
      | (links, Raise _) => links
      | (links, Ok _) =>
          match add_kind "rent" "rent" us_providers links with
          | (links, Raise _) => links
          | (links, Ok _) => fst (add_kind "buy" "buy" us_providers links)
          end
      end
  | _ => []
  end.

End Links.

Section Page.

Variable G : Globals.
Variable net : nat -> get_outcome.
Variable tmdb_client : TMDBClient.
Variable repr : json -> string.
Variable TMDB_IMAGE_BASE : string.
Variable page : Type.
Variable TemplateResponse : string -> list (string * ctx) -> Z -> result page.

(** Lines 444-450 and 458-464: [x = {}], then [try: x = await
    _make_request(endpoint) or {}; print(... check x ...)] with a handler
    that sets [x = {}] again. *)
Definition fetch_or_empty (endpoint : string) (check : json -> result unit) : M json :=
  try_except
    (let* data := _make_request G net tmdb_client endpoint None 3 in
     let x := PyJson.or_empty_dict data in
     let* _ := lift (check x) in
     ret x)
    any_exception
    (λ _, ret (JObj [])).

(** Lines 503-511: [credits] and [similar] after the [try] block.  The
    second request is not made when the first one raises; the two [print]
    statements come after both assignments and their exceptions are
    swallowed. *)
Definition credits_and_similar (movie_id : Z) : M (json * json) :=
  fun st =>
    match _make_request G net tmdb_client ("movie/" +:+ pretty movie_id +:+ "/credits")
            None 3 st with
    | (Raise _, st1) => (Ok (JObj [], JObj []), st1)
    | (Ok c, st1) =>
        match _make_request G net tmdb_client
                ("movie/" +:+ pretty movie_id +:+ "/similar") None 3 st1 with
        | (Raise _, st2) => (Ok (PyJson.or_empty_dict c, JObj []), st2)
        | (Ok s, st2) => (Ok (PyJson.or_empty_dict c, PyJson.or_empty_dict s), st2)
        end
    end.

(** [read_movie] (lines 427-535) *)
Definition read_movie (movie_id : Z) : M page :=
  try_except
    (let* movie := get_movie_details G net tmdb_client (VInt movie_id) in
     let* known_error :=
       (if negb (truthy movie) then ret true
        else lift (PyJson.contains movie "status_code")) in
     if (known_error : bool) then
       raise (HTTPException 404
                ("Movie not found. TMDB Response: " +:+ PyJson.str repr movie))
     else
       let* videos :=
         fetch_or_empty ("movie/" +:+ pretty movie_id +:+ "/videos")
           (λ x, seq_result (count_results x) (λ _, Ok tt)) in
       let* trailer := lift (find_trailer videos) in
       let* providers :=
         fetch_or_empty ("movie/" +:+ pretty movie_id +:+ "/watch/providers")
           (λ x, seq_result (PyJson.get x "results" JNull) (λ _, Ok tt)) in
       let streaming_links :=
         movie_streaming_links repr TMDB_IMAGE_BASE movie_id providers in
       let* (credits, similar) := credits_and_similar movie_id in
       lift (TemplateResponse "movie.html"
               [("request", CRequest);
                ("movie", CJson movie);
                ("credits", CJson credits);
                ("similar", CJson similar);
                ("trailer", CJson trailer);
                ("providers", CJson providers);
                ("streaming_links", CJson (JObj streaming_links));
                ("config",
                 CJson (JObj [("TMDB_IMAGE_BASE", JStr TMDB_IMAGE_BASE_URL);
                              ("YOUTUBE_EMBED_URL", JStr "https://www.youtube.com/embed/")]))]
               200))
    any_exception
    (λ e,
       match e with
       | HTTPException _ _ => raise e
       | _ => raise (HTTPException 500 "Internal Server Error")
       end).

End Page.

(** A link of the movie page as the code can build it in this module: no
    logo, and the TMDB watch page as target. *)
Definition plain_link (movie_id : Z) (link : json) : Prop :=
  ∃ name,
    link = JObj [("provider_name", name);
                 ("logo_path", JStr EmptyString);
                 ("link", JStr ("https://www.themoviedb.org/movie/" +:+ pretty movie_id
                                  +:+ "/watch?locale=US"))].

Definition plain_links (movie_id : Z) (v : json) : Prop :=
  ∃ links, v = JArr links ∧ Forall (plain_link movie_id) links.

(** An entry of [streaming_links] as the code can build it: one of the three
    keys, with plain links. *)
Definition filed (movie_id : Z) (kv : string * json) : Prop :=
  (kv.1 = "stream" ∨ kv.1 = "rent" ∨ kv.1 = "buy") ∧ plain_links movie_id kv.2.

(** Fixtures: providers with and without a logo. *)
Definition us_without_logo : json :=
  JObj [("results",
         JObj [("US", JObj [("flatrate", JArr [JObj [("provider_name", JStr "Netflix")]]);
                            ("buy", JArr [JObj [("provider_id", JInt 3)]])])])].

Definition us_with_logo : json :=
  JObj [("results",
         JObj [("US", JObj [("flatrate", JArr [JObj [("provider_name", JStr "Netflix");
                                                      ("logo_path", JStr "/n.png")]]);
                            ("buy", JArr [JObj [("provider_id", JInt 3)]])])])].

End MoviePage.

(** [n] slashes, as a base URL may end with and an endpoint may start with. *)
Fixpoint slashes (n : nat) : string :=
  match n with
  | O => EmptyString
  | S k => String "/" (slashes k)
  end.

(** * Proofs *)

(** ** The string functions on examples *)

Module PyStrExamples.
Import PyStr.

Example strip_spaces : strip "  a b
 " = "a b".
Proof. reflexivity. Qed.

Example lstrip_slashes : lstrip_char "/" "//movie/popular/" = "movie/popular/".
Proof. reflexivity. Qed.

Example rstrip_slashes : rstrip_char "/" "https://api.themoviedb.org/3//" = "https://api.themoviedb.org/3".
Proof. reflexivity. Qed.

Example replace_leftmost : replace "aa" "b" "aaaaa" = "bba".
Proof. reflexivity. Qed.

Example int_plain : int_of_str " 12 " = IntValue 12.
Proof. reflexivity. Qed.

Example int_signed_underscore : int_of_str "-1_000" = IntValue (-1000).
Proof. reflexivity. Qed.

Example int_leading_zeros : int_of_str "007" = IntValue 7.
Proof. reflexivity. Qed.

Example int_rejects :
  int_of_str EmptyString = IntInvalid ∧ int_of_str "5_" = IntInvalid
  ∧ int_of_str "_5" = IntInvalid ∧ int_of_str "5__0" = IntInvalid
  ∧ int_of_str "1.5" = IntInvalid ∧ int_of_str "+ 5" = IntInvalid
  ∧ int_of_str "0x10" = IntInvalid.
Proof. repeat split; reflexivity. Qed.

(** A no-break space (160) counts as white space around the number, a
    file separator (28) does not, although [str.isspace] holds of both. *)
Example int_white_space :
  int_of_str (String (ascii_of_nat 160) "5") = IntValue 5
  ∧ int_of_str (String (ascii_of_nat 28) "5") = IntInvalid.
Proof. split; reflexivity. Qed.

Example repr_quotes :
  repr "it's" = String double_quote ("it's" +:+ String double_quote EmptyString)
  ∧ repr "Wed, 21 Oct" = "'Wed, 21 Oct'"
  ∧ repr (String (ascii_of_nat 9) "x") = "'\tx'".
Proof. repeat split; reflexivity. Qed.

Example header_names_ignore_case :
  headers_get [("content-type", "text/html"); ("retry-after", "30")] "Retry-After"
  = Some "30".
Proof. reflexivity. Qed.

Example url_of_endpoint :
  build_url (TMDBClient_init "k3y") "/movie/popular" = "https://api.themoviedb.org/3/movie/popular".
Proof. reflexivity. Qed.

End PyStrExamples.

(** ** Floats *)

Module Float64Facts.
Import Float64.

Lemma round_shift_bounds m s :
  (m / 2 ^ s ≤ round_shift m s ≤ m / 2 ^ s + 1)%Z.
Proof.
  unfold round_shift.
  destruct (m mod 2 ^ s <? 2 ^ (s - 1))%Z; [lia|].
  destruct (2 ^ (s - 1) <? m mod 2 ^ s)%Z; [lia|].
  destruct (Z.even (m / 2 ^ s)); lia.
Qed.

Lemma shift_amount m :
  (0 < m)%Z → (0 < Z.log2 m - 52)%Z →
  (0 < 2 ^ (Z.log2 m - 52) ≤ m)%Z.
Proof.
  intros Hm Hs. split; [apply Z.pow_pos_nonneg; lia|].
  transitivity (2 ^ Z.log2 m)%Z.
  - apply Z.pow_le_mono_r; lia.
  - apply Z.log2_spec. exact Hm.
Qed.

Lemma round53_positive m e : (0 < m)%Z → (0 < mant (round53 m e))%Z.
Proof.
  intros Hm. unfold round53. rewrite Z.abs_eq by lia.
  destruct (Z.leb_spec (Z.log2 m - 52) 0) as [_|Hs]; simpl; [exact Hm|].
  destruct (shift_amount m Hm Hs) as [Hpos Hle].
  pose proof (round_shift_bounds m (Z.log2 m - 52)) as [Hlow _].
  assert (0 < m / 2 ^ (Z.log2 m - 52))%Z by (apply Z.div_str_pos; lia).
  lia.
Qed.

Lemma round53_nonnegative m e : (0 ≤ m)%Z → (0 ≤ mant (round53 m e))%Z.
Proof.
  intros Hm. destruct (Z.eq_dec m 0%Z) as [->|Hne]; [reflexivity|].
  pose proof (round53_positive m e). lia.
Qed.

(** A power of two is a [float] up to [2 ** 1023]. *)
Lemma round53_power a :
  (0 ≤ a)%Z →
  (mant (round53 (2 ^ a) 0) * 2 ^ expo (round53 (2 ^ a) 0) = 2 ^ a)%Z
  ∧ (0 < mant (round53 (2 ^ a) 0))%Z.
Proof.
  intros Ha. assert (Hpos : (0 < 2 ^ a)%Z) by (apply Z.pow_pos_nonneg; lia).
  split; [|by apply round53_positive].
  unfold round53. rewrite Z.abs_eq by lia. rewrite Z.log2_pow2 by exact Ha.
  destruct (Z.leb_spec (a - 52) 0) as [_|Hs]; simpl; [lia|].
  unfold round_shift.
  assert (Hsplit : (2 ^ a = 2 ^ 52 * 2 ^ (a - 52))%Z).
  { rewrite <- Z.pow_add_r by lia. f_equal. lia. }
  assert (Hs' : (0 < 2 ^ (a - 52))%Z) by (apply Z.pow_pos_nonneg; lia).
  assert (Hq : (2 ^ a / 2 ^ (a - 52) = 2 ^ 52)%Z).
  { rewrite Hsplit. apply Z.div_mul. lia. }
  assert (Hr : (2 ^ a mod 2 ^ (a - 52) = 0)%Z).
  { rewrite Hsplit. apply Z.mod_mul. lia. }
  rewrite Hq, Hr.
  assert (Hhalf : (0 < 2 ^ (a - 52 - 1))%Z) by (apply Z.pow_pos_nonneg; lia).
  destruct (Z.ltb_spec 0 (2 ^ (a - 52 - 1))) as [_|?]; [|lia].
  rewrite Z.add_0_l. symmetry. exact Hsplit.
Qed.

Lemma of_int_power (a : nat) :
  of_int (2 ^ Z.of_nat a) = None ↔ (1024 ≤ a)%nat.
Proof.
  unfold of_int, overflows.
  destruct (round53_power (Z.of_nat a)) as [Hval Hpos]; [lia|].
  rewrite Z.abs_eq by lia. rewrite Hval.
  destruct (Z.leb_spec (2 ^ 1024) (2 ^ Z.of_nat a)) as [Hle|Hlt].
  - split; [|done]. intros _.
    destruct (le_lt_dec 1024 a) as [?|Hsmall]; [done|].
    assert (2 ^ Z.of_nat a < 2 ^ 1024)%Z by (apply Z.pow_lt_mono_r; lia). lia.
  - split; [done|]. intros Hbig.
    assert (2 ^ 1024 ≤ 2 ^ Z.of_nat a)%Z by (apply Z.pow_le_mono_r; lia). lia.
Qed.

Lemma of_int_power_positive (a : nat) p :
  of_int (2 ^ Z.of_nat a) = Some p → (0 < mant p)%Z.
Proof.
  unfold of_int. destruct (overflows _); [done|]. intros [= <-].
  apply round53_positive. apply Z.pow_pos_nonneg; lia.
Qed.

(** An [int] below [2 ** 1023] is in the range of [float]. *)
Lemma of_int_in_range n :
  (0 < n < 2 ^ 1023)%Z → is_Some (of_int n).
Proof.
  intros [Hn Hlt]. unfold of_int.
  assert (Hsmall : overflows (round53 n 0) = false); [|by rewrite Hsmall].
  unfold overflows. apply Z.leb_gt.
  pose proof (round53_positive n 0 Hn) as Hpos. rewrite Z.abs_eq by lia.
  assert (Hdouble : (2 ^ 1024 = 2 * 2 ^ 1023)%Z) by (by rewrite <- Z.pow_succ_r).
  unfold round53 in *. rewrite Z.abs_eq in * by lia.
  destruct (Z.leb_spec (Z.log2 n - 52) 0) as [_|Hs]; simpl in *; [lia|].
  destruct (shift_amount n Hn Hs) as [Hspos Hsle].
  rewrite Z.add_0_l.
  pose proof (round_shift_bounds n (Z.log2 n - 52)) as [_ Hup].
  pose proof (Z.mul_div_le n (2 ^ (Z.log2 n - 52)) Hspos) as Hfloor.
  nia.
Qed.

(** From [2 ** 1024] on an [int] is not: the conversion overflows. *)
Lemma of_int_beyond_range n :
  (2 ^ 1024 ≤ n)%Z → of_int n = None.
Proof.
  intros Hn. unfold of_int.
  assert (Hn0 : (0 < n)%Z).
  { assert (0 < 2 ^ 1024)%Z by (by apply Z.pow_pos_nonneg). lia. }
  assert (Hbig : overflows (round53 n 0) = true); [|by rewrite Hbig].
  unfold overflows. apply Z.leb_le.
  pose proof (round53_positive n 0 Hn0) as Hpos. rewrite Z.abs_eq by lia.
  assert (Hlog : (1024 ≤ Z.log2 n)%Z).
  { apply Z.log2_le_pow2; [lia|exact Hn]. }
  unfold round53 in *. rewrite Z.abs_eq in * by lia.
  destruct (Z.leb_spec (Z.log2 n - 52) 0) as [?|Hs]; [lia|]. simpl in *.
  rewrite Z.add_0_l.
  destruct (shift_amount n Hn0 Hs) as [Hspos Hsle].
  pose proof (round_shift_bounds n (Z.log2 n - 52)) as [Hlow _].
  assert (Hq : (2 ^ 52 ≤ n / 2 ^ (Z.log2 n - 52))%Z).
  { apply Z.div_le_lower_bound; [lia|].
    rewrite <- Z.pow_add_r by lia.
    replace (Z.log2 n - 52 + 52)%Z with (Z.log2 n) by lia.
    apply Z.log2_spec. lia. }
  assert (Hexp : (2 ^ 972 ≤ 2 ^ (Z.log2 n - 52))%Z) by (apply Z.pow_le_mono_r; lia).
  assert (Hprod : (2 ^ 1024 = 2 ^ 52 * 2 ^ 972)%Z) by (by rewrite <- Z.pow_add_r).
  rewrite Hprod.
  apply Z.mul_le_mono_nonneg; lia.
Qed.

(** The first [int] that is not: [2 ** 1024 - 2 ** 970], which rounds to
    [2 ** 1024]. *)
Lemma of_int_overflow n :
  (0 < n)%Z → of_int n = None ↔ (2 ^ 1024 - 2 ^ 970 ≤ n)%Z.
Proof.
  intros Hn.
  destruct (Z_lt_le_dec n (2 ^ 1023)) as [Hlow|Hmid].
  { split.
    - intros Hnone. destruct (of_int_in_range n) as [x Hx]; [lia|congruence].
    - intros Hbig. exfalso.
      assert (2 ^ 1023 ≤ 2 ^ 1024 - 2 ^ 970)%Z by (vm_compute; discriminate). lia. }
  destruct (Z_lt_le_dec n (2 ^ 1024)) as [Hhigh|Hbeyond].
  2:{ split; [|intros _; by apply of_int_beyond_range].
      intros _. assert (0 < 2 ^ 970)%Z by (by apply Z.pow_pos_nonneg). lia. }
  assert (Hlog : Z.log2 n = 1023%Z).
  { apply Z.log2_unique; [lia|]. split; [exact Hmid|exact Hhigh]. }
  unfold of_int, overflows, round53. rewrite (Z.abs_eq n) by lia. rewrite Hlog.
  change (1023 - 52 <=? 0)%Z with false. cbv iota. cbn [mant expo].
  change (1023 - 52)%Z with 971%Z. change (0 + 971)%Z with 971%Z.
  unfold round_shift. change (971 - 1)%Z with 970%Z.
  pose proof (Z.div_mod n (2 ^ 971)) as Hdiv.
  pose proof (Z.mod_pos_bound n (2 ^ 971)) as Hmod.
  set (q := (n / 2 ^ 971)%Z) in *. set (r := (n mod 2 ^ 971)%Z) in *.
  assert (HA : (2 ^ 971 = 2 * 2 ^ 970)%Z) by (by rewrite <- Z.pow_succ_r).
  assert (HB : (2 ^ 1024 = 2 ^ 53 * 2 ^ 971)%Z) by (by rewrite <- Z.pow_add_r).
  assert (HC : (2 ^ 1023 = 2 ^ 52 * 2 ^ 971)%Z) by (by rewrite <- Z.pow_add_r).
  assert (HH : (0 < 2 ^ 970)%Z) by (by apply Z.pow_pos_nonneg).
  assert (H53 : (2 ^ 53 = 9007199254740992)%Z) by reflexivity.
  assert (H52 : (2 ^ 52 = 4503599627370496)%Z) by reflexivity.
  rewrite HB in *. rewrite HC in *. rewrite HA in *. rewrite H53 in *. rewrite H52 in *.
  set (H := (2 ^ 970)%Z) in *. clearbody H q r. clear Hlog.
  assert (Hmod' : (0 ≤ r < 2 * H)%Z) by lia. clear Hmod.
  assert (Hdiv' : (n = 2 * H * q + r)%Z) by lia. clear Hdiv. subst n.
  assert (Hq : (4503599627370496 ≤ q ≤ 9007199254740991)%Z).
  { assert (H1 : (2 * H * 4503599627370496 < 2 * H * (q + 1))%Z) by lia.
    assert (H2 : (2 * H * q < 2 * H * 9007199254740992)%Z) by lia.
    apply Z.mul_lt_mono_pos_l in H1; [|lia].
    apply Z.mul_lt_mono_pos_l in H2; [|lia]. lia. }
  destruct (Z.eq_dec q 9007199254740991%Z) as [->|Hne].
  - change (Z.even 9007199254740991) with false.
    change (9007199254740991 + 1)%Z with 9007199254740992%Z.
    destruct (Z.ltb_spec r H) as [Hr|Hr].
    + rewrite Z.abs_eq by lia.
      destruct (Z.leb_spec (9007199254740992 * (2 * H)) (9007199254740991 * (2 * H)));
        split; try done; intros; exfalso; lia.
    + destruct (Z.ltb_spec H r) as [Hr'|Hr']; rewrite Z.abs_eq by lia;
        (destruct (Z.leb_spec (9007199254740992 * (2 * H)) (9007199254740992 * (2 * H)));
         split; try done; intros; try lia; exfalso; lia).
  - assert (Hup : ((q + 1) * (2 * H) ≤ 9007199254740991 * (2 * H))%Z)
      by (apply Z.mul_le_mono_nonneg_r; lia).
    assert (Hrounded : ∀ m, (q ≤ m ≤ q + 1)%Z →
              (if (9007199254740992 * (2 * H) <=? Z.abs m * (2 * H))%Z
               then None else Some {| mant := m; expo := 971 |}) = None
              ↔ (9007199254740992 * (2 * H) - H ≤ 2 * H * q + r)%Z).
    { intros m Hm. rewrite Z.abs_eq by lia.
      assert (m * (2 * H) ≤ (q + 1) * (2 * H))%Z
        by (apply Z.mul_le_mono_nonneg_r; lia).
      destruct (Z.leb_spec (9007199254740992 * (2 * H)) (m * (2 * H)));
        split; try done; intros; exfalso; lia. }
    destruct (Z.ltb_spec r H); [apply Hrounded; lia|].
    destruct (Z.ltb_spec H r); [apply Hrounded; lia|].
    destruct (Z.even q); apply Hrounded; lia.
Qed.

(** The conversion of an [int] against the library's specification of
    binary64, on both sides of the overflow. *)
Example of_int_agrees_with_binary64 :
  Forall (λ n, agrees (of_int n) (reference_of_int n) = true)
    [ 0; 1; 7; 2 ^ 53; 2 ^ 53 + 1; 2 ^ 53 + 3; 2 ^ 54 + 2; 10 ^ 22; 10 ^ 23; 10 ^ 308;
      2 ^ 1023; 2 ^ 1024 - 2 ^ 970 - 1; 2 ^ 1024 - 2 ^ 970; 2 ^ 1024; 10 ^ 309 ]%Z.
Proof. repeat constructor; vm_compute; reflexivity. Qed.

End Float64Facts.

(** ** Frame: what the monad's operations leave alone *)

Lemma keeps_heap_ret {A} (a : A) : keeps_heap (ret a).
Proof. intros st. reflexivity. Qed.

Lemma keeps_heap_raise {A} (e : exn) : keeps_heap (@raise A e).
Proof. intros st. reflexivity. Qed.

Lemma keeps_heap_lift {A} (r : result A) : keeps_heap (lift r).
Proof. intros st. reflexivity. Qed.

Lemma keeps_heap_bind {A B} (m : M A) (k : A -> M B) :
  keeps_heap m → (∀ a, keeps_heap (k a)) → keeps_heap (bind m k).
Proof.
  intros Hm Hk st. unfold keeps_heap, bind, final in *. specialize (Hm st).
  destruct (m st) as [[a|e] st1]; simpl in *.
  - rewrite Hk. exact Hm.
  - exact Hm.
Qed.

Lemma keeps_heap_try_except {A} (m : M A) catches (h : exn -> M A) :
  keeps_heap m → (∀ e, keeps_heap (h e)) → keeps_heap (try_except m catches h).
Proof.
  intros Hm Hh st. unfold keeps_heap, try_except, final in *. specialize (Hm st).
  destruct (m st) as [[a|e] st1]; simpl in *; [exact Hm|].
  destruct (catches e); simpl; [rewrite Hh|]; exact Hm.
Qed.

(** What [asyncio.sleep] leaves behind: nothing, the delay in the log, or
    the [OverflowError]. *)
Lemma asyncio_sleep_cases d st :
  asyncio_sleep d st = (Ok tt, st) ∧ waits d = false
  ∨ asyncio_sleep d st = (Ok tt, log_slept d st) ∧ waits d = true
  ∨ asyncio_sleep d st = (Raise too_large_for_float, st)
    ∧ ∃ n, d = SecInt n ∧ Float64.of_int n = None.
Proof.
  unfold asyncio_sleep. destruct (waits d) eqn:Hw; simpl; [|by left].
  destruct d as [n|x]; [|by right; left].
  destruct (Float64.of_int n) eqn:Hn; [by right; left|].
  right; right. split; [done|]. by exists n.
Qed.

Lemma keeps_heap_sleep d : keeps_heap (asyncio_sleep d).
Proof.
  intros st.
  destruct (asyncio_sleep_cases d st) as [[-> _]|[[-> _]|[-> _]]]; reflexivity.
Qed.

Section Steps.

Variable G : Globals.
Variable net : nat -> get_outcome.
Variable self : TMDBClient.

Lemma keeps_heap_get_session : keeps_heap get_session.
Proof. intros st. unfold get_session. by destruct (session st) as [[|]|]. Qed.

Lemma keeps_heap_session_get url p : keeps_heap (session_get net url p).
Proof. intros st. unfold session_get. by destruct (net _). Qed.

Lemma keeps_heap_random : keeps_heap (random_random G).
Proof. intros st. unfold random_random. by destruct (g_random G). Qed.

Lemma keeps_heap_backoff a : keeps_heap (backoff_and_continue G a).
Proof.
  unfold backoff_and_continue.
  apply keeps_heap_bind; [apply keeps_heap_random|]. intros r.
  apply keeps_heap_bind; [apply keeps_heap_lift|]. intros delay.
  apply keeps_heap_bind; [apply keeps_heap_sleep|]. intros _.
  apply keeps_heap_ret.
Qed.

Lemma keeps_heap_attempt url p mr a : keeps_heap (attempt_body G net url p mr a).
Proof.
  unfold attempt_body. apply keeps_heap_try_except.
  - apply keeps_heap_bind.
    + unfold fetch_response.
      apply keeps_heap_bind; [apply keeps_heap_get_session|]. intros _.
      apply keeps_heap_bind; intros; apply keeps_heap_session_get.
    + intros r. unfold handle_response.
      destruct (resp_status r =? 200)%Z.
      { apply keeps_heap_bind; [apply keeps_heap_lift|]. intros; apply keeps_heap_ret. }
      destruct (resp_status r =? 429)%Z.
      { apply keeps_heap_bind; [apply keeps_heap_lift|]. intros n.
        apply keeps_heap_bind; [apply keeps_heap_sleep|]. intros; apply keeps_heap_ret. }
      destruct (Z.of_nat a =? mr - 1)%Z;
        [apply keeps_heap_raise | apply keeps_heap_backoff].
  - intros e. unfold handle_transport.
    destruct (Z.of_nat a =? mr - 1)%Z;
      [apply keeps_heap_raise | apply keeps_heap_backoff].
Qed.

Lemma keeps_heap_loop url p mr attempts :
  keeps_heap (retry_loop G net url p mr attempts).
Proof.
  induction attempts as [|a rest IH]; simpl.
  - apply keeps_heap_raise.
  - apply keeps_heap_bind; [apply keeps_heap_attempt|].
    intros [v|]; [apply keeps_heap_ret | exact IH].
Qed.

(** *** The two GETs *)

Lemma fetch_response_sees url p st :
  ∃ st1, fetch_response net url p st =
           (match attempt_sees net (length (sent st)) with
            | Resp r => Ok r
            | Err e => Raise e
            end, st1)
         ∧ quiet st st1
         ∧ length (sent st1)
           = length (sent st) + attempt_gets net (length (sent st)).
Proof.
  unfold fetch_response, bind, get_session, session_get, attempt_sees, attempt_gets,
    quiet.
  destruct (session st) as [[|]|]; simpl;
    destruct (net (length (sent st))) as [r0|e0]; simpl;
    rewrite ?length_app, ?Nat.add_1_r; simpl;
    try (eexists; split; [reflexivity|]; simpl; rewrite ?length_app; simpl;
         split; [done|lia]);
    destruct (net (S (length (sent st)))) as [r1|e1]; simpl;
    eexists; (split; [reflexivity|]); simpl; rewrite ?length_app; simpl;
    rewrite ?length_app; simpl; (split; [done|lia]).
Qed.

(** The backoff: [NameError] when [random] is unbound, [OverflowError] when
    the power of two is beyond the range of [float], and otherwise one draw
    and one sleep. *)
Lemma backoff_delay k a :
  (a < 1024)%nat →
  ∃ x, backoff (Float64.of_random_bits k) a = Ok x ∧ waits (SecFloat x) = true.
Proof.
  intros Ha. unfold backoff.
  destruct (Float64.of_int (2 ^ Z.of_nat a)) as [power|] eqn:Hp.
  2:{ apply Float64Facts.of_int_power in Hp. lia. }
  eexists. split; [reflexivity|].
  apply Float64Facts.of_int_power_positive in Hp.
  unfold waits, Float64.nonpositive. apply negb_true_iff, Z.leb_gt.
  unfold Float64.add. apply Float64Facts.round53_positive.
  assert (Hmul : (0 ≤ Float64.mant (Float64.mul (Float64.of_random_bits k) power))%Z).
  { unfold Float64.mul. apply Float64Facts.round53_nonnegative.
    apply Z.mul_nonneg_nonneg; [|lia]. simpl.
    apply Z.mod_pos_bound. by apply Z.pow_pos_nonneg. }
  set (y := Float64.mul _ _) in *.
  assert (0 < Float64.mant Float64.one
              * 2 ^ (Float64.expo Float64.one
                     - Z.min (Float64.expo Float64.one) (Float64.expo y)))%Z.
  { apply Z.mul_pos_pos; [done|]. apply Z.pow_pos_nonneg; lia. }
  assert (0 ≤ Float64.mant y
              * 2 ^ (Float64.expo y
                     - Z.min (Float64.expo Float64.one) (Float64.expo y)))%Z.
  { apply Z.mul_nonneg_nonneg; [done|]. apply Z.pow_nonneg. lia. }
  lia.
Qed.

Lemma backoff_overflow r a :
  (1024 ≤ a)%nat → backoff r a = Raise too_large_for_float.
Proof.
  intros Ha. unfold backoff.
  by rewrite (proj2 (Float64Facts.of_int_power a) Ha).
Qed.

Lemma backoff_and_continue_eq a st :
  backoff_and_continue G a st =
    match g_random G with
    | None => (Raise (NameError "random"), st)
    | Some rng =>
        match backoff (Float64.of_random_bits (rng (drawn st))) a with
        | Ok x => (Ok None, log_slept (SecFloat x) (log_drawn st))
        | Raise e => (Raise e, log_drawn st)
        end
    end.
Proof.
  unfold backoff_and_continue, bind, random_random, lift.
  destruct (g_random G) as [rng|]; [|done].
  destruct (le_lt_dec 1024 a) as [Hbig|Hsmall].
  - by rewrite backoff_overflow.
  - destruct (backoff_delay (rng (drawn st)) a Hsmall) as (x & -> & Hw).
    unfold asyncio_sleep. by rewrite Hw.
Qed.

(** What the backoff raises is not caught by the [except] clause. *)
Lemma backoff_error a st e st' :
  backoff_and_continue G a st = (Raise e, st') →
  e = NameError "random" ∨ e = too_large_for_float.
Proof.
  rewrite backoff_and_continue_eq.
  destruct (g_random G) as [rng|]; [|intros [= <- _]; by left].
  unfold backoff. destruct (Float64.of_int _); [done|].
  intros [= <- _]. by right.
Qed.

Lemma backoff_never_returns a st v st' :
  backoff_and_continue G a st ≠ (Ok (Some v), st').
Proof.
  rewrite backoff_and_continue_eq.
  destruct (g_random G) as [rng|]; [|done]. by destruct (backoff _ _).
Qed.

(** An attempt that sees a response runs [handle_response] on it; what
    that raises goes through the [except] clause. *)
Lemma attempt_body_resp url p mr a st r :
  attempt_sees net (length (sent st)) = Resp r →
  ∃ st1, quiet st st1 ∧ length (sent st1) = 2 + length (sent st) ∧
    attempt_body G net url p mr a st =
      try_except (handle_response G mr a r) is_transport (handle_transport G mr a) st1.
Proof.
  intros Hsee. destruct (fetch_response_sees url p st) as (st1 & Hf & Hq & Hn).
  rewrite Hsee in Hf. exists st1. split; [exact Hq|].
  split.
  { rewrite Hn. unfold attempt_sees, attempt_gets in *.
    destruct (net (length (sent st))); [lia|done]. }
  unfold attempt_body, try_except, bind. by rewrite Hf.
Qed.

Lemma attempt_body_fail url p mr a st e :
  attempt_sees net (length (sent st)) = Err e →
  ∃ st1, quiet st st1 ∧
    attempt_body G net url p mr a st =
      if is_transport e then handle_transport G mr a e st1 else (Raise e, st1).
Proof.
  intros Hsee. destruct (fetch_response_sees url p st) as (st1 & Hf & Hq & _).
  rewrite Hsee in Hf. exists st1. split; [exact Hq|].
  unfold attempt_body, try_except, bind. by rewrite Hf.
Qed.

(** The number of GETs of an attempt. *)
Lemma attempt_body_gets url p mr a st :
  length (sent (final (attempt_body G net url p mr a st)))
  = length (sent st) + attempt_gets net (length (sent st)).
Proof.
  destruct (fetch_response_sees url p st) as (st1 & Hf & Hq & Hn).
  assert (Hsame : ∀ (m : M (option json)),
            (∀ s, sent (final (m s)) = sent s) →
            sent (final (m st1)) = sent st1) by (intros m Hm; apply Hm).
  assert (Hsleep : ∀ d s, sent (final (asyncio_sleep d s)) = sent s).
  { intros d s.
    destruct (asyncio_sleep_cases d s) as [[-> _]|[[-> _]|[-> _]]]; reflexivity. }
  assert (Hback : ∀ s, sent (final (backoff_and_continue G a s)) = sent s).
  { intros s. rewrite backoff_and_continue_eq.
    destruct (g_random G); [|done]. by destruct (backoff _ _). }
  assert (Htransport : ∀ e s, sent (final (handle_transport G mr a e s)) = sent s).
  { intros e s. unfold handle_transport.
    destruct (Z.of_nat a =? mr - 1)%Z; [done|apply Hback]. }
  rewrite <- Hn. f_equal.
  unfold attempt_body, try_except, bind. rewrite Hf.
  destruct (attempt_sees net (length (sent st))) as [r|e].
  - unfold handle_response.
    destruct (resp_status r =? 200)%Z.
    { unfold bind, lift, ret. destruct (resp_json r) as [v|e]; [done|].
      destruct (is_transport e); [apply Htransport|done]. }
    destruct (resp_status r =? 429)%Z.
    { unfold bind, lift, ret. destruct (retry_after r) as [n|e].
      - destruct (asyncio_sleep_cases (SecInt n) st1) as [[-> _]|[[-> _]|[-> _]]];
          reflexivity.
      - destruct (is_transport e); [apply Htransport|done]. }
    destruct (Z.of_nat a =? mr - 1)%Z; [done|].
    destruct (backoff_and_continue G a st1) as [[o|e] s] eqn:Hb.
    + pose proof (Hback st1) as H. by rewrite Hb in H.
    + pose proof (Hback st1) as H. rewrite Hb in H.
      destruct (backoff_error a st1 e s Hb) as [->| ->]; exact H.
  - destruct (is_transport e); [apply Htransport|done].
Qed.

End Steps.

Section Branches.

Variable G : Globals.
Variable net : nat -> get_outcome.

Lemma transient_backoff_case o : transient o = true → backoff_case o = true.
Proof.
  destruct o as [r|e]; simpl; [|done]. intros H%Z.leb_le.
  destruct (Z.eqb_spec (resp_status r) 200), (Z.eqb_spec (resp_status r) 429);
    simpl; try done; lia.
Qed.

Lemma backoff_passes_except mr a st :
  try_except (backoff_and_continue G a) is_transport (handle_transport G mr a) st
  = backoff_and_continue G a st.
Proof.
  unfold try_except.
  destruct (backoff_and_continue G a st) as [[o|e] s] eqn:Hb; [done|].
  by destruct (backoff_error G a st e s Hb) as [->| ->].
Qed.

(** An attempt of one of the backoff cases: the last of the budget raises,
    an earlier one goes to the backoff. *)
Lemma attempt_body_backoff_case url p mr a st :
  backoff_case (attempt_sees net (length (sent st))) = true →
  ∃ st1, quiet st st1
    ∧ length (sent st1) = length (sent st) + attempt_gets net (length (sent st))
    ∧ attempt_body G net url p mr a st =
      if (Z.of_nat a =? mr - 1)%Z
      then (Raise (exhausted_error mr (attempt_sees net (length (sent st)))), st1)
      else backoff_and_continue G a st1.
Proof.
  intros Hcase. destruct (attempt_sees net (length (sent st))) as [r|e] eqn:Hsee.
  - destruct (attempt_body_resp G net url p mr a st r Hsee) as (st1 & Hq & Hn & ->).
    exists st1. split; [exact Hq|]. split.
    { rewrite Hn. unfold attempt_sees, attempt_gets in *.
      destruct (net (length (sent st))); [lia|done]. }
    simpl in Hcase.
    apply andb_true_iff in Hcase as [H200 H429].
    apply negb_true_iff in H200, H429.
    destruct (Z.of_nat a =? mr - 1)%Z eqn:Hlast.
    + unfold try_except, handle_response. by rewrite H200, H429, Hlast.
    + rewrite <- (backoff_passes_except mr a st1).
      unfold try_except, handle_response. by rewrite H200, H429, Hlast.
  - destruct (fetch_response_sees net url p st) as (st1 & Hf & Hq & Hn).
    rewrite Hsee in Hf. exists st1. split; [exact Hq|]. split; [exact Hn|].
    unfold attempt_body, try_except, bind. rewrite Hf.
    simpl in Hcase. rewrite Hcase.
    unfold handle_transport. by destruct (Z.of_nat a =? mr - 1)%Z.
Qed.

Lemma attempt_body_ok url p mr a st r v :
  attempt_sees net (length (sent st)) = Resp r →
  resp_status r = 200%Z → resp_json r = Ok v →
  ∃ st1, quiet st st1 ∧ length (sent st1) = 2 + length (sent st)
    ∧ attempt_body G net url p mr a st = (Ok (Some v), st1).
Proof.
  intros Hsee Hst Hjs.
  destruct (attempt_body_resp G net url p mr a st r Hsee) as (st1 & Hq & Hn & ->).
  exists st1. split; [exact Hq|]. split; [exact Hn|].
  unfold try_except, handle_response, bind, lift, ret. by rewrite Hst, Hjs.
Qed.

Lemma attempt_body_json_raises url p mr a st r e :
  attempt_sees net (length (sent st)) = Resp r →
  resp_status r = 200%Z → resp_json r = Raise e →
  ∃ st1, quiet st st1 ∧ length (sent st1) = 2 + length (sent st) ∧
    attempt_body G net url p mr a st =
      if is_transport e then handle_transport G mr a e st1 else (Raise e, st1).
Proof.
  intros Hsee Hst Hjs.
  destruct (attempt_body_resp G net url p mr a st r Hsee) as (st1 & Hq & Hn & ->).
  exists st1. split; [exact Hq|]. split; [exact Hn|].
  unfold try_except, handle_response, bind, lift, ret.
  by rewrite Hst, Hjs.
Qed.

(** A rate-limited attempt: the header is read, and the delay goes to
    [asyncio.sleep]. *)
Lemma attempt_body_rate_limited url p mr a st r :
  attempt_sees net (length (sent st)) = Resp r →
  resp_status r = 429%Z →
  ∃ st1, quiet st st1 ∧ length (sent st1) = 2 + length (sent st) ∧
    attempt_body G net url p mr a st =
      match retry_after r with
      | Ok n =>
          if (n <=? 0)%Z then (Ok None, st1)
          else if (n <? 2 ^ 1024 - 2 ^ 970)%Z
               then (Ok None, log_slept (SecInt n) st1)
               else (Raise too_large_for_float, st1)
      | Raise e => (Raise e, st1)
      end.
Proof.
  intros Hsee Hst.
  destruct (attempt_body_resp G net url p mr a st r Hsee) as (st1 & Hq & Hn & ->).
  exists st1. split; [exact Hq|]. split; [exact Hn|].
  unfold try_except, handle_response, bind, lift, ret. rewrite Hst. simpl.
  unfold retry_after.
  destruct (headers_get (resp_headers r) "Retry-After") as [s|].
  - unfold py_int. destruct (PyStr.int_of_str s) as [n| |count]; try reflexivity.
    unfold asyncio_sleep, waits.
    destruct (Z.leb_spec n 0) as [Hle|Hpos].
    + destruct (Z.ltb_spec 0 n); [lia|done].
    + destruct (Z.ltb_spec 0 n); [|lia]. simpl.
      destruct (Z.ltb_spec n (2 ^ 1024 - 2 ^ 970)) as [Hin|Hout].
      * destruct (Float64.of_int n) eqn:Hf; [done|].
        apply Float64Facts.of_int_overflow in Hf; [lia|done].
      * by rewrite (proj2 (Float64Facts.of_int_overflow n Hpos) Hout).
  - reflexivity.
Qed.

(** [_make_request] up to the loop: the [params] dictionary [l] the loop
    uses, and the state it starts in. *)
Lemma make_request_start self endpoint params mr st :
  ∃ l st0,
    _make_request G net self endpoint params mr st =
      retry_loop G net (build_url self endpoint) l mr (seq 0 (Z.to_nat mr)) st0
    ∧ sent st0 = sent st ∧ slept st0 = slept st ∧ drawn st0 = drawn st.
Proof.
  unfold _make_request, bind, params_or_new, setitem.
  destruct params as [l|]; [destruct (decide (deref st l = ∅))|]; simpl;
    eexists _, _; (split; [reflexivity|done]).
Qed.

End Branches.

(** ** The loop when every attempt fails *)

Section Exhaustion.

Variable G : Globals.
Variable net : nat -> get_outcome.
Variable url : string.
Variable p : loc.
Variable mr : Z.
Hypothesis all_fail : ∀ i, transient (attempt_sees net i) = true.

Lemma loop_transient_raises attempts st :
  ∃ e st', retry_loop G net url p mr attempts st = (Raise e, st').
Proof.
  revert st. induction attempts as [|a rest IH]; intros st; simpl.
  - unfold raise. eauto.
  - unfold bind.
    destruct (attempt_body_backoff_case G net url p mr a st) as (st1 & _ & _ & ->);
      [by apply transient_backoff_case|].
    destruct (Z.of_nat a =? mr - 1)%Z; [eauto|].
    rewrite backoff_and_continue_eq. destruct (g_random G); [|eauto].
    destruct (backoff _ _); [apply IH | eauto].
Qed.

End Exhaustion.

Section Budget.

Variable G : Globals.
Variable net : nat -> get_outcome.
Variable url : string.
Variable p : loc.
Variable mr : Z.

(** When the attempts of the budget that are left all fail, and the backoff
    can be evaluated wherever it is needed, they are all made and the last
    one raises. *)
Lemma loop_exhausts m k st :
  m = 0 ∨ is_Some (g_random G) →
  k + S m = Z.to_nat mr → (mr ≤ 1025)%Z →
  (∀ j, j ≤ m →
     transient (attempt_sees net (attempt_start net (length (sent st)) j)) = true) →
  ∃ st',
    retry_loop G net url p mr (seq k (S m)) st
    = (Raise (exhausted_error mr
                (attempt_sees net (attempt_start net (length (sent st)) m))), st')
    ∧ length (sent st') = attempt_start net (length (sent st)) (S m)
    ∧ length (slept st') = length (slept st) + m.
Proof.
  revert k st. induction m as [|m IH]; intros k st Hrng Hkm Hmr Hfail.
  - cbn [seq retry_loop]. unfold bind.
    destruct (attempt_body_backoff_case G net url p mr k st) as (st1 & Hq & Hn & ->).
    { apply transient_backoff_case. apply (Hfail 0). lia. }
    destruct (Z.eqb_spec (Z.of_nat k) (mr - 1)) as [_|Hne]; [|lia].
    exists st1. split; [reflexivity|]. split; [exact Hn|].
    destruct Hq as (_ & -> & _). lia.
  - destruct Hrng as [?|[rng Hrng]]; [lia|].
    cbn [seq retry_loop]. unfold bind.
    destruct (attempt_body_backoff_case G net url p mr k st) as (st1 & Hq & Hn & ->).
    { apply transient_backoff_case. apply (Hfail 0). lia. }
    destruct (Z.eqb_spec (Z.of_nat k) (mr - 1)) as [?|_]; [lia|].
    rewrite backoff_and_continue_eq, Hrng.
    destruct (backoff_delay (rng (drawn st1)) k) as (x & -> & _); [lia|].
    set (st2 := log_slept (SecFloat x) (log_drawn st1)).
    destruct (IH (S k) st2) as (st' & Hloop & Hsent & Hslept).
    + right. by exists rng.
    + lia.
    + exact Hmr.
    + intros j Hj. change (sent st2) with (sent st1). rewrite Hn.
      apply (Hfail (S j)). lia.
    + exists st'. change (sent st2) with (sent st1) in *. rewrite Hn in *.
      split; [exact Hloop|]. split; [exact Hsent|].
      rewrite Hslept. subst st2. simpl. rewrite length_app. simpl.
      destruct Hq as (_ & -> & _). lia.
Qed.

(** With [random] unbound, a first failure with attempts left ends the
    loop. *)
Lemma loop_first_failure k rest st :
  g_random G = None →
  (Z.of_nat k < mr - 1)%Z →
  backoff_case (attempt_sees net (length (sent st))) = true →
  ∃ st',
    retry_loop G net url p mr (k :: rest) st = (Raise (NameError "random"), st')
    ∧ quiet st st'
    ∧ length (sent st') = length (sent st) + attempt_gets net (length (sent st)).
Proof.
  intros Hrng Hk Hfail. cbn [retry_loop]. unfold bind.
  destruct (attempt_body_backoff_case G net url p mr k st Hfail)
    as (st1 & Hq & Hn & ->).
  destruct (Z.eqb_spec (Z.of_nat k) (mr - 1)) as [?|_]; [lia|].
  rewrite backoff_and_continue_eq, Hrng. by exists st1.
Qed.

End Budget.

Lemma seq_budget (mr : Z) :
  (1 ≤ mr)%Z → seq 0 (Z.to_nat mr) = 0 :: seq 1 (Z.to_nat mr - 1).
Proof.
  intros H. destruct (Z.to_nat mr) as [|n] eqn:Hn; [lia|].
  simpl. by rewrite Nat.sub_0_r.
Qed.

(** C1, as the code has it.  When every attempt of the budget ends in a
    status of 500 or more or in a connection error or timeout,
    [_make_request] returns no result: the call ends by raising to its
    caller.  With a budget of one attempt, or whenever the name [random]
    resolves, the attempts of the budget are all made, with one backoff sleep
    before each retry, and the exception is the [HTTPException] of the last
    attempt: the status and text of its response, or 500 and the text of its
    transport error.  In the program as it is ([random] unbound) a budget of
    two or more attempts ends at the first failure, with [NameError].  The
    budget is of 1025 attempts at most: the backoff after attempt 1024 needs
    [2 ** 1024] as a [float]. *)
Theorem make_request_exhausted_raises :
  ∀ G net self endpoint params max_retries st,
    (1 ≤ max_retries ≤ 1025)%Z →
    (∀ k, k < Z.to_nat max_retries →
       transient (attempt_sees net (attempt_start net (length (sent st)) k)) = true) →
    ∃ e st',
      _make_request G net self endpoint params max_retries st = (Raise e, st')
      ∧ (max_retries = 1%Z ∨ is_Some (g_random G) →
           e = exhausted_error max_retries
                 (attempt_sees net
                    (attempt_start net (length (sent st)) (Z.to_nat max_retries - 1)))
           ∧ length (sent st')
             = attempt_start net (length (sent st)) (Z.to_nat max_retries)
           ∧ length (slept st') = length (slept st) + (Z.to_nat max_retries - 1))
      ∧ ((1 < max_retries)%Z → g_random G = None →
           e = NameError "random"
           ∧ length (sent st') = attempt_start net (length (sent st)) 1
           ∧ slept st' = slept st).
Proof.
  intros G net self endpoint params mr st Hmr Hfail.
  destruct (make_request_start G net self endpoint params mr st)
    as (l & st0 & -> & Hsent & Hslept & _).
  rewrite <- Hsent, <- Hslept in *.
  destruct (decide (mr = 1%Z ∨ is_Some (g_random G))) as [Hrun|Hstop].
  - destruct (loop_exhausts G net (build_url self endpoint) l mr
                (Z.to_nat mr - 1) 0 st0) as (st' & Hloop & Hn & Hs).
    + destruct Hrun as [->|?]; [by left|by right].
    + lia.
    + lia.
    + intros j Hj. apply Hfail. lia.
    + replace (S (Z.to_nat mr - 1)) with (Z.to_nat mr) in * by lia.
      eexists _, st'. split; [exact Hloop|]. split; [done|].
      intros Hmore Hnone. destruct Hrun as [?|[? ?]]; [lia|congruence].
  - assert (Hnone : g_random G = None).
    { destruct (g_random G) eqn:E; [|done]. destruct Hstop. right. by eexists. }
    assert (Hmore : (1 < mr)%Z) by (destruct (decide (mr = 1%Z)); [tauto|lia]).
    rewrite seq_budget by lia.
    destruct (loop_first_failure G net (build_url self endpoint) l mr 0
                (seq 1 (Z.to_nat mr - 1)) st0 Hnone) as (st' & Hloop & Hq & Hn).
    + lia.
    + apply transient_backoff_case. apply (Hfail 0). lia.
    + eexists _, st'. split; [exact Hloop|]. split; [tauto|].
      intros _ _. split; [done|]. split; [exact Hn|]. by destruct Hq as (_ & ? & _).
Qed.

Lemma make_request_exhausted_raises_witness :
  (∃ e st',
     _make_request main_globals (always unavailable) demo_client "movie/popular" None 3
       fresh_state = (Raise e, st')
     ∧ (3%Z = 1%Z ∨ is_Some (g_random main_globals) →
          e = exhausted_error 3
                (attempt_sees (always unavailable)
                   (attempt_start (always unavailable) (length (sent fresh_state))
                      (Z.to_nat 3 - 1)))
          ∧ length (sent st')
            = attempt_start (always unavailable) (length (sent fresh_state)) (Z.to_nat 3)
          ∧ length (slept st') = length (slept fresh_state) + (Z.to_nat 3 - 1))
     ∧ ((1 < 3)%Z → g_random main_globals = None →
          e = NameError "random"
          ∧ length (sent st')
            = attempt_start (always unavailable) (length (sent fresh_state)) 1
          ∧ slept st' = slept fresh_state))
  ∧
  (∃ e st',
     _make_request globals_with_random worsening demo_client "movie/popular" None 3
       fresh_state = (Raise e, st')
     ∧ (3%Z = 1%Z ∨ is_Some (g_random globals_with_random) →
          e = exhausted_error 3
                (attempt_sees worsening
                   (attempt_start worsening (length (sent fresh_state)) (Z.to_nat 3 - 1)))
          ∧ length (sent st')
            = attempt_start worsening (length (sent fresh_state)) (Z.to_nat 3)
          ∧ length (slept st') = length (slept fresh_state) + (Z.to_nat 3 - 1))
     ∧ ((1 < 3)%Z → g_random globals_with_random = None →
          e = NameError "random"
          ∧ length (sent st') = attempt_start worsening (length (sent fresh_state)) 1
          ∧ slept st' = slept fresh_state)).
Proof.
  split.
  - apply (make_request_exhausted_raises main_globals (always unavailable) demo_client
             "movie/popular" None 3 fresh_state); [lia|].
    intros k Hk. reflexivity.
  - apply (make_request_exhausted_raises globals_with_random worsening demo_client
             "movie/popular" None 3 fresh_state); [lia|].
    intros [|[|[|k]]] Hk; [reflexivity..|simpl in Hk; lia].
Defined.

(** An outage, in the program as it is.  With the default budget the call
    raises [NameError] after the two GETs of its first attempt; with a
    budget of one attempt it raises the [HTTPException] of that attempt.
    Nothing is returned in either case. *)
Example outage_in_the_program :
  run_unavailable = (Raise (NameError "random"), final run_unavailable)
  ∧ length (sent (final run_unavailable)) = 2
  ∧ slept (final run_unavailable) = []
  ∧ outcome (_make_request main_globals (always unavailable) demo_client
               "movie/popular" None 1 fresh_state)
    = Raise (HTTPException 503 "TMDB API error: 503 - Service Unavailable").
Proof. repeat split; vm_compute; reflexivity. Qed.

(** With [random] bound and three answers that get worse: two backoff
    sleeps, six GETs, then the [HTTPException] of the last answer. *)
Example exhausted_with_random :
  outcome run_worsening
  = Raise (HTTPException 503 "TMDB API error: 503 - Service Unavailable")
  ∧ length (slept (final run_worsening)) = 2
  ∧ length (sent (final run_worsening)) = 6.
Proof. repeat split; vm_compute; reflexivity. Qed.

(** A connection that fails at the first GET of every attempt: one GET per
    attempt, and the text of the last error in the exception. *)
Example exhausted_by_transport_errors :
  outcome (_make_request globals_with_random (λ _, Err (ClientError "Cannot connect"))
             demo_client "movie/popular" None 3 fresh_state)
  = Raise (HTTPException 500
             "Failed to fetch data from TMDB after 3 attempts: Cannot connect")
  ∧ length (sent (final (_make_request globals_with_random
                           (λ _, Err (ClientError "Cannot connect"))
                           demo_client "movie/popular" None 3 fresh_state))) = 3.
Proof. split; vm_compute; reflexivity. Qed.

(** Beyond 1025 attempts the loop is not exhausted: the backoff of attempt
    1024 raises [OverflowError]. *)
Example budget_beyond_float :
  outcome (retry_loop globals_with_random (always unavailable) "u" 0 1026
             [1023; 1024; 1025] fresh_state)
  = Raise too_large_for_float
  ∧ length (slept (final (retry_loop globals_with_random (always unavailable) "u" 0
                            1026 [1023; 1024; 1025] fresh_state))) = 1.
Proof. split; vm_compute; reflexivity. Qed.

(** ** Rate limiting *)

(** C2, as the code has it.  An attempt that receives status 429 reads the
    [Retry-After] header, taking 1 second when the header is absent, and
    converts the value with [int].  A value from 1 up to the range of
    [float] is slept, exactly, and the loop goes on to its next attempt; a
    value of zero or less is not slept at all; a larger one makes
    [asyncio.sleep] raise [OverflowError]; and a value that [int] refuses (an
    HTTP date, say) makes the call raise [ValueError].  In no case is the
    backoff expression evaluated: there is no random draw, whatever the name
    [random] is bound to. *)
Theorem rate_limited_attempt_sleeps_retry_after :
  ∀ G net url p max_retries attempt rest st r,
    attempt_sees net (length (sent st)) = Resp r →
    resp_status r = 429%Z →
    ∃ st1,
      quiet st st1 ∧ length (sent st1) = 2 + length (sent st)
      ∧ (headers_get (resp_headers r) "Retry-After" = None → retry_after r = Ok 1%Z)
      ∧ (∀ n, retry_after r = Ok n → (0 < n < 2 ^ 1024 - 2 ^ 970)%Z →
           ∃ st', attempt_body G net url p max_retries attempt st = (Ok None, st')
             ∧ slept st' = slept st ++ [SecInt n]
             ∧ sent st' = sent st1 ∧ drawn st' = drawn st
             ∧ retry_loop G net url p max_retries (attempt :: rest) st
               = retry_loop G net url p max_retries rest st')
      ∧ (∀ n, retry_after r = Ok n → (n ≤ 0)%Z →
           attempt_body G net url p max_retries attempt st = (Ok None, st1)
           ∧ retry_loop G net url p max_retries (attempt :: rest) st
             = retry_loop G net url p max_retries rest st1)
      ∧ (∀ n, retry_after r = Ok n → (2 ^ 1024 - 2 ^ 970 ≤ n)%Z →
           retry_loop G net url p max_retries (attempt :: rest) st
           = (Raise too_large_for_float, st1))
      ∧ (∀ e, retry_after r = Raise e →
           retry_loop G net url p max_retries (attempt :: rest) st = (Raise e, st1)).
Proof.
  intros G net url p mr a rest st r Hsee Hst.
  destruct (attempt_body_rate_limited G net url p mr a st r Hsee Hst)
    as (st1 & Hq & Hn & Hbody).
  exists st1. split; [exact Hq|]. split; [exact Hn|].
  destruct Hq as (_ & Hslept & Hdrawn).
  split; [|split; [|split; [|split]]].
  - intros Habsent. unfold retry_after. by rewrite Habsent.
  - intros n Hra [Hpos Hfit]. rewrite Hra in Hbody.
    destruct (Z.leb_spec n 0); [lia|]. destruct (Z.ltb_spec n (2 ^ 1024 - 2 ^ 970)); [|lia].
    exists (log_slept (SecInt n) st1). split; [exact Hbody|].
    split; [simpl; by rewrite Hslept|]. split; [done|]. split; [exact Hdrawn|].
    cbn [retry_loop]. unfold bind. by rewrite Hbody.
  - intros n Hra Hle. rewrite Hra in Hbody.
    destruct (Z.leb_spec n 0); [|lia]. split; [exact Hbody|].
    cbn [retry_loop]. unfold bind. by rewrite Hbody.
  - intros n Hra Hbig. rewrite Hra in Hbody.
    assert (0 < 2 ^ 1024 - 2 ^ 970)%Z by (vm_compute; reflexivity).
    destruct (Z.leb_spec n 0); [lia|]. destruct (Z.ltb_spec n (2 ^ 1024 - 2 ^ 970)); [lia|].
    cbn [retry_loop]. unfold bind. by rewrite Hbody.
  - intros e Hra. rewrite Hra in Hbody.
    cbn [retry_loop]. unfold bind. by rewrite Hbody.
Qed.

Lemma rate_limited_attempt_sleeps_retry_after_witness :
  ∃ st1,
    quiet fresh_state st1 ∧ length (sent st1) = 2 + length (sent fresh_state)
    ∧ (headers_get (resp_headers too_many) "Retry-After" = None
       → retry_after too_many = Ok 1%Z)
    ∧ (∀ n, retry_after too_many = Ok n → (0 < n < 2 ^ 1024 - 2 ^ 970)%Z →
         ∃ st', attempt_body main_globals (first_then too_many (reply_ok results_id_1))
                  "u" 0 3 0 fresh_state = (Ok None, st')
           ∧ slept st' = slept fresh_state ++ [SecInt n]
           ∧ sent st' = sent st1 ∧ drawn st' = drawn fresh_state
           ∧ retry_loop main_globals (first_then too_many (reply_ok results_id_1))
               "u" 0 3 [0; 1; 2] fresh_state
             = retry_loop main_globals (first_then too_many (reply_ok results_id_1))
                 "u" 0 3 [1; 2] st')
    ∧ (∀ n, retry_after too_many = Ok n → (n ≤ 0)%Z →
         attempt_body main_globals (first_then too_many (reply_ok results_id_1))
           "u" 0 3 0 fresh_state = (Ok None, st1)
         ∧ retry_loop main_globals (first_then too_many (reply_ok results_id_1))
             "u" 0 3 [0; 1; 2] fresh_state
           = retry_loop main_globals (first_then too_many (reply_ok results_id_1))
               "u" 0 3 [1; 2] st1)
    ∧ (∀ n, retry_after too_many = Ok n → (2 ^ 1024 - 2 ^ 970 ≤ n)%Z →
         retry_loop main_globals (first_then too_many (reply_ok results_id_1))
           "u" 0 3 [0; 1; 2] fresh_state
         = (Raise too_large_for_float, st1))
    ∧ (∀ e, retry_after too_many = Raise e →
         retry_loop main_globals (first_then too_many (reply_ok results_id_1))
           "u" 0 3 [0; 1; 2] fresh_state = (Raise e, st1)).
Proof.
  apply (rate_limited_attempt_sleeps_retry_after main_globals
           (first_then too_many (reply_ok results_id_1)) "u" 0 3 0 [1; 2]
           fresh_state too_many);
    reflexivity.
Defined.

(** What the header gives. *)
Example retry_after_values :
  retry_after too_many = Ok 1%Z
  ∧ retry_after too_many_wait_7 = Ok 7%Z
  ∧ retry_after (reply 429 [("retry-after", " 0_5 ")] EmptyString) = Ok 5%Z
  ∧ retry_after (reply 429 [("Retry-After", "-3")] EmptyString) = Ok (-3)%Z
  ∧ retry_after too_many_http_date
    = Raise (ValueError
               "invalid literal for int() with base 10: 'Wed, 21 Oct 2015 07:28:00 GMT'")
  ∧ retry_after (reply 429 [("Retry-After", "1.5")] EmptyString)
    = Raise (ValueError "invalid literal for int() with base 10: '1.5'").
Proof. repeat split; reflexivity. Qed.

(** Rate limiting in the program.  Without a [Retry-After] header the
    client sleeps 1 second, not 5; with an HTTP date the call raises
    [ValueError]; with a delay of zero it does not sleep; with a delay of
    400 digits it raises [OverflowError]. *)
Example rate_limits_in_the_program :
  (outcome run_rate_limited_no_header = Ok results_id_1
   ∧ slept (final run_rate_limited_no_header) = [SecInt 1])
  ∧ (outcome run_rate_limited_http_date
     = Raise (ValueError
                "invalid literal for int() with base 10: 'Wed, 21 Oct 2015 07:28:00 GMT'")
     ∧ slept (final run_rate_limited_http_date) = [])
  ∧ (outcome (run_rate_limited "0") = Ok results_id_1
     ∧ slept (final (run_rate_limited "0")) = [])
  ∧ (outcome (run_rate_limited ("1" +:+ zeros 399)) = Raise too_large_for_float
     ∧ slept (final (run_rate_limited ("1" +:+ zeros 399))) = []).
Proof. repeat split; vm_compute; reflexivity. Qed.

(** More than 4300 digits are refused by [int] itself. *)
Example retry_after_too_long :
  outcome (run_rate_limited ("1" +:+ zeros 4300))
  = Raise (ValueError
             "Exceeds the limit (4300 digits) for integer string conversion: value has 4301 digits; use sys.set_int_max_str_digits() to increase the limit").
Proof. vm_compute. reflexivity. Qed.

(** When every attempt is rate limited, each one sleeps and the statement
    after the loop raises. *)
Example rate_limited_throughout :
  outcome run_rate_limited_throughout
  = Raise (HTTPException 500 "Failed to fetch data from TMDB after 3 attempts")
  ∧ slept (final run_rate_limited_throughout) = [SecInt 7; SecInt 7; SecInt 7]
  ∧ length (sent (final run_rate_limited_throughout)) = 6.
Proof. repeat split; vm_compute; reflexivity. Qed.

(** ** A 200 answer *)

Lemma loop_returns G net url p mr a rest st r v :
  attempt_sees net (length (sent st)) = Resp r →
  resp_status r = 200%Z → resp_json r = Ok v →
  ∃ st1, quiet st st1 ∧ length (sent st1) = 2 + length (sent st) ∧
    retry_loop G net url p mr (a :: rest) st = (Ok v, st1).
Proof.
  intros Hsee Hst Hjs.
  destruct (attempt_body_ok G net url p mr a st r v Hsee Hst Hjs)
    as (st1 & Hq & Hn & Hbody).
  exists st1. split; [exact Hq|]. split; [exact Hn|].
  simpl. unfold bind. by rewrite Hbody.
Qed.

(** What [response.json()] gives. *)
Example json_of_answers :
  resp_json (reply_ok results_id_1) = Ok results_id_1
  ∧ resp_json cut_short
    = Raise (JSONDecodeError
               "Expecting property name enclosed in double quotes: line 1 column 2 (char 1)")
  ∧ resp_json not_json
    = Raise (ClientError "Attempt to decode JSON with unexpected mimetype").
Proof. repeat split; reflexivity. Qed.

Example json_content_types :
  expects_json "application/json" = true
  ∧ expects_json "application/json;charset=utf-8" = true
  ∧ expects_json "application/ld+json" = true
  ∧ expects_json "application/a+b+json" = true
  ∧ expects_json "application/+json" = false
  ∧ expects_json "text/html" = false
  ∧ expects_json EmptyString = false.
Proof. repeat split; reflexivity. Qed.

(** C3, as the code has it.  An attempt that receives status 200 with a
    body that [response.json()] fails on returns no result.  When the
    failure is the decoder's (a [JSONDecodeError]) it is raised to the caller
    at once: after the two GETs of the attempt nothing is slept and no
    further request is issued.  When it is a refusal of the Content-Type (a
    [ContentTypeError], which is an [aiohttp.ClientError]) the attempt is
    handled as a transport failure. *)
Theorem malformed_body_raises_to_caller :
  ∀ G net url p max_retries attempt rest st r e,
    attempt_sees net (length (sent st)) = Resp r →
    resp_status r = 200%Z →
    resp_json r = Raise e →
    ∃ st1,
      quiet st st1 ∧ length (sent st1) = 2 + length (sent st)
      ∧ (is_transport e = false →
           retry_loop G net url p max_retries (attempt :: rest) st = (Raise e, st1))
      ∧ (is_transport e = true →
           attempt_body G net url p max_retries attempt st
           = handle_transport G max_retries attempt e st1)
      ∧ ∀ v st', attempt_body G net url p max_retries attempt st ≠ (Ok (Some v), st').
Proof.
  intros G net url p mr a rest st r e Hsee Hst Hjs.
  destruct (attempt_body_json_raises G net url p mr a st r e Hsee Hst Hjs)
    as (st1 & Hq & Hn & Hbody).
  exists st1. split; [exact Hq|]. split; [exact Hn|].
  rewrite Hbody. split; [|split].
  - intros He. cbn [retry_loop]. unfold bind. by rewrite Hbody, He.
  - by intros ->.
  - intros v st'. destruct (is_transport e); [|done].
    unfold handle_transport. destruct (Z.of_nat a =? mr - 1)%Z; [done|].
    apply backoff_never_returns.
Qed.

Lemma malformed_body_raises_to_caller_witness :
  ∃ st1,
    quiet fresh_state st1 ∧ length (sent st1) = 2 + length (sent fresh_state)
    ∧ (is_transport
         (JSONDecodeError
            "Expecting property name enclosed in double quotes: line 1 column 2 (char 1)")
       = false →
         retry_loop main_globals (always cut_short) "u" 0 3 [0; 1; 2] fresh_state
         = (Raise (JSONDecodeError
                     "Expecting property name enclosed in double quotes: line 1 column 2 (char 1)"),
            st1))
    ∧ (is_transport
         (JSONDecodeError
            "Expecting property name enclosed in double quotes: line 1 column 2 (char 1)")
       = true →
         attempt_body main_globals (always cut_short) "u" 0 3 0 fresh_state
         = handle_transport main_globals 3 0
             (JSONDecodeError
                "Expecting property name enclosed in double quotes: line 1 column 2 (char 1)")
             st1)
    ∧ ∀ v st',
        attempt_body main_globals (always cut_short) "u" 0 3 0 fresh_state
        ≠ (Ok (Some v), st').
Proof.
  apply (malformed_body_raises_to_caller main_globals (always cut_short) "u" 0 3 0
           [1; 2] fresh_state cut_short
           (JSONDecodeError
              "Expecting property name enclosed in double quotes: line 1 column 2 (char 1)"));
    reflexivity.
Defined.

(** Malformed bodies in the program.  A JSON answer that is cut short ends
    the call with [JSONDecodeError] after two GETs.  A page of HTML is
    refused for its Content-Type and handled like a connection error: with
    the default budget the backoff raises [NameError]. *)
Example malformed_bodies_in_the_program :
  (outcome run_cut_short
   = Raise (JSONDecodeError
              "Expecting property name enclosed in double quotes: line 1 column 2 (char 1)")
   ∧ length (sent (final run_cut_short)) = 2
   ∧ slept (final run_cut_short) = [])
  ∧ (outcome run_malformed_body = Raise (NameError "random")
     ∧ length (sent (final run_malformed_body)) = 2
     ∧ slept (final run_malformed_body) = []).
Proof. repeat split; vm_compute; reflexivity. Qed.

(** C7.  When the first attempt receives status 200, the call returns the
    object that the body decodes to, whatever it is ([{"results":[{"id":1}]}]
    for one), after the two GETs of that attempt and nothing else. *)
Theorem make_request_returns_body :
  ∀ G net self endpoint params max_retries st r v,
    (1 ≤ max_retries)%Z →
    attempt_sees net (length (sent st)) = Resp r →
    resp_status r = 200%Z →
    resp_json r = Ok v →
    ∃ st',
      _make_request G net self endpoint params max_retries st = (Ok v, st')
      ∧ length (sent st') = 2 + length (sent st)
      ∧ slept st' = slept st
      ∧ drawn st' = drawn st.
Proof.
  intros G net self endpoint params mr st r v Hmr Hsee Hst Hjs.
  destruct (make_request_start G net self endpoint params mr st)
    as (l & st0 & -> & Hsent & Hslept & Hdrawn).
  rewrite seq_budget by done. rewrite <- Hsent in Hsee.
  destruct (loop_returns G net (build_url self endpoint) l mr 0
              (seq 1 (Z.to_nat mr - 1)) st0 r v Hsee Hst Hjs)
    as (st1 & (_ & Hs & Hd) & Hn & ->).
  exists st1. split; [reflexivity|]. rewrite <- Hsent, <- Hslept, <- Hdrawn. done.
Qed.

Lemma make_request_returns_body_witness :
  ∃ st',
    _make_request main_globals (always (reply_ok results_id_1)) demo_client
      "movie/popular" None 3 fresh_state = (Ok results_id_1, st')
    ∧ length (sent st') = 2 + length (sent fresh_state)
    ∧ slept st' = slept fresh_state
    ∧ drawn st' = drawn fresh_state.
Proof.
  apply (make_request_returns_body main_globals (always (reply_ok results_id_1))
           demo_client "movie/popular" None 3 fresh_state (reply_ok results_id_1));
    [lia | reflexivity | reflexivity | reflexivity].
Defined.

(** The object is returned when an earlier attempt was rate limited, too. *)
Example body_after_rate_limit :
  outcome run_rate_limited_no_header = Ok results_id_1
  ∧ length (sent (final run_rate_limited_no_header)) = 4.
Proof. split; vm_compute; reflexivity. Qed.

Section StatusErrors.

Variable G : Globals.
Variable net : nat -> get_outcome.

(** A status other than 200 and 429: two GETs were issued, and the last
    attempt of the budget raises while an earlier one goes to the backoff. *)
Lemma attempt_body_status_error url p mr a st r :
  attempt_sees net (length (sent st)) = Resp r →
  resp_status r ≠ 200%Z → resp_status r ≠ 429%Z →
  ∃ st1, quiet st st1 ∧ length (sent st1) = 2 + length (sent st) ∧
    attempt_body G net url p mr a st =
      if (Z.of_nat a =? mr - 1)%Z
      then (Raise (exhausted_error mr (Resp r)), st1)
      else backoff_and_continue G a st1.
Proof.
  intros Hsee H200%Z.eqb_neq H429%Z.eqb_neq.
  destruct (attempt_body_resp G net url p mr a st r Hsee) as (st1 & Hq & Hn & ->).
  exists st1. split; [exact Hq|]. split; [exact Hn|].
  destruct (Z.of_nat a =? mr - 1)%Z eqn:Hlast.
  - unfold try_except, handle_response. by rewrite H200, H429, Hlast.
  - rewrite <- (backoff_passes_except G mr a st1).
    unfold try_except, handle_response. by rewrite H200, H429, Hlast.
Qed.

End StatusErrors.

(** C4, as the code has it.  An attempt that receives a 4xx status other
    than 429 has issued its two GETs and returns no result.  When it is the
    last attempt of the budget, the call raises [HTTPException] with that
    status code and the message [TMDB API error: <status> - <body>].  On an
    earlier attempt the status is treated like every other status that is
    neither 200 nor 429: the attempt does what the backoff branch does, which
    in the program as it is raises [NameError]. *)
Theorem client_error_attempt :
  ∀ G net url p max_retries attempt rest st r,
    attempt_sees net (length (sent st)) = Resp r →
    (400 ≤ resp_status r < 500)%Z →
    resp_status r ≠ 429%Z →
    ∃ st1,
      quiet st st1 ∧ length (sent st1) = 2 + length (sent st)
      ∧ (Z.of_nat attempt = (max_retries - 1)%Z →
           retry_loop G net url p max_retries (attempt :: rest) st
           = (Raise (HTTPException (resp_status r)
                       ("TMDB API error: " +:+ pretty (resp_status r)
                          +:+ " - " +:+ resp_text r)), st1))
      ∧ (Z.of_nat attempt ≠ (max_retries - 1)%Z →
           attempt_body G net url p max_retries attempt st
           = backoff_and_continue G attempt st1
           ∧ (g_random G = None →
              retry_loop G net url p max_retries (attempt :: rest) st
              = (Raise (NameError "random"), st1)))
      ∧ ∀ v st', attempt_body G net url p max_retries attempt st ≠ (Ok (Some v), st').
Proof.
  intros G net url p mr a rest st r Hsee Hrange H429.
  destruct (attempt_body_status_error G net url p mr a st r Hsee)
    as (st1 & Hq & Hn & Hbody); [lia | exact H429 |].
  exists st1. split; [exact Hq|]. split; [exact Hn|]. split; [|split].
  - intros Hlast%Z.eqb_eq. cbn [retry_loop]. unfold bind. by rewrite Hbody, Hlast.
  - intros Hmore%Z.eqb_neq. rewrite Hbody, Hmore. split; [done|].
    intros Hnone. cbn [retry_loop]. unfold bind. rewrite Hbody, Hmore.
    by rewrite backoff_and_continue_eq, Hnone.
  - intros v st'. rewrite Hbody. destruct (Z.of_nat a =? mr - 1)%Z; [done|].
    apply backoff_never_returns.
Qed.

Lemma client_error_attempt_witness :
  ∃ st1,
    quiet fresh_state st1 ∧ length (sent st1) = 2 + length (sent fresh_state)
    ∧ (Z.of_nat 0 = (3 - 1)%Z →
         retry_loop main_globals (always not_found) "u" 0 3 [0; 1; 2] fresh_state
         = (Raise (HTTPException (resp_status not_found)
                     ("TMDB API error: " +:+ pretty (resp_status not_found)
                        +:+ " - " +:+ resp_text not_found)), st1))
    ∧ (Z.of_nat 0 ≠ (3 - 1)%Z →
         attempt_body main_globals (always not_found) "u" 0 3 0 fresh_state
         = backoff_and_continue main_globals 0 st1
         ∧ (g_random main_globals = None →
            retry_loop main_globals (always not_found) "u" 0 3 [0; 1; 2] fresh_state
            = (Raise (NameError "random"), st1)))
    ∧ ∀ v st',
        attempt_body main_globals (always not_found) "u" 0 3 0 fresh_state
        ≠ (Ok (Some v), st').
Proof.
  apply (client_error_attempt main_globals (always not_found) "u" 0 3 0 [1; 2]
           fresh_state not_found);
    [reflexivity | simpl; lia | simpl; lia].
Defined.

(** A 404 in the program: [NameError] with the default budget, the
    [HTTPException] with a budget of one attempt, and with [random] bound a
    404 is asked for again until the budget is spent. *)
Example not_found_in_the_program :
  outcome (_make_request main_globals (always not_found) demo_client
             "movie/0" None 3 fresh_state)
  = Raise (NameError "random")
  ∧ outcome (_make_request main_globals (always not_found) demo_client
               "movie/0" None 1 fresh_state)
    = Raise (HTTPException 404 "TMDB API error: 404 - Not Found")
  ∧ length (sent (final (_make_request globals_with_random (always not_found)
                           demo_client "movie/0" None 3 fresh_state))) = 6.
Proof. repeat split; vm_compute; reflexivity. Qed.

(** ** The backoff *)

(** The value of the expression of lines 158 and 173 when [random] is
    bound: [1 + 0.5 * 2 ** 3] is 5, and with the largest draw there is,
    [1 - 2 ** -53], the sum at attempt 0 rounds to 2. *)
Example backoff_values :
  backoff (Float64.of_random_bits (2 ^ 52)) 3
  = Ok {| Float64.mant := 5 * 2 ^ 50; Float64.expo := -50 |}
  ∧ backoff (Float64.of_random_bits (2 ^ 53 - 1)) 0
    = Ok {| Float64.mant := 2 ^ 53; Float64.expo := -52 |}
  ∧ backoff (Float64.of_random_bits 0) 1023
    = Ok {| Float64.mant := 1; Float64.expo := 0 |}
  ∧ backoff (Float64.of_random_bits 0) 1024 = Raise too_large_for_float.
Proof. repeat split; vm_compute; reflexivity. Qed.

(** The backoff against the library's specification of binary64: sums
    that are exact and sums that round (up at a tie, to [2.0], for the
    largest draw). *)
Example backoff_agrees_with_binary64 :
  Forall (λ '(k, a),
            Float64.agrees
              (match backoff (Float64.of_random_bits k) (Z.to_nat a) with
               | Ok x => Some x
               | Raise _ => None
               end)
              (Float64.reference_backoff k (Z.to_nat a)) = true)
    [ (0, 0); (1, 0); (2 ^ 52, 3); (2 ^ 53 - 1, 0); (2 ^ 53 - 1, 1); (2 ^ 53 - 2, 0);
      (12345678901, 40); (6004799503160661, 2); (3, 52); (3, 53); (1, 54);
      (2 ^ 52 + 1, 1); (0, 1023); (2 ^ 53 - 1, 1023); (987654321987654, 700) ]%Z.
Proof. repeat constructor; vm_compute; reflexivity. Qed.

(** C5, in the program as it is.  A call whose first attempt receives a
    status of 500 or more, or fails with a connection error or timeout, while
    attempts remain, sleeps nothing: after the GETs of that attempt the
    backoff expression raises [NameError], which ends the call. *)
Theorem backoff_sleeps_nothing :
  ∀ net self endpoint params max_retries st,
    (2 ≤ max_retries)%Z →
    transient (attempt_sees net (length (sent st))) = true →
    ∃ st',
      _make_request main_globals net self endpoint params max_retries st
      = (Raise (NameError "random"), st')
      ∧ slept st' = slept st
      ∧ drawn st' = drawn st
      ∧ length (sent st') = length (sent st) + attempt_gets net (length (sent st)).
Proof.
  intros net self endpoint params mr st Hmr Hfail.
  destruct (make_request_start main_globals net self endpoint params mr st)
    as (l & st0 & -> & Hsent & Hslept & Hdrawn).
  rewrite seq_budget by lia. rewrite <- Hsent in *.
  destruct (loop_first_failure main_globals net (build_url self endpoint) l mr 0
              (seq 1 (Z.to_nat mr - 1)) st0 eq_refl) as (st' & Hloop & Hq & Hn).
  - lia.
  - by apply transient_backoff_case.
  - exists st'. split; [exact Hloop|]. destruct Hq as (_ & Hs & Hd).
    rewrite Hs, Hd, Hslept, Hdrawn. done.
Qed.

Lemma backoff_sleeps_nothing_witness :
  ∃ st',
    _make_request main_globals (always unavailable) demo_client "movie/popular"
      None 3 fresh_state
    = (Raise (NameError "random"), st')
    ∧ slept st' = slept fresh_state
    ∧ drawn st' = drawn fresh_state
    ∧ length (sent st')
      = length (sent fresh_state)
        + attempt_gets (always unavailable) (length (sent fresh_state)).
Proof.
  apply (backoff_sleeps_nothing (always unavailable) demo_client "movie/popular"
           None 3 fresh_state); [lia | reflexivity].
Defined.

(** C6.  In the program as it is ([random] unbound), an attempt that reaches
    one of the two backoff branches (a status other than 200 and 429, or a
    connection error or timeout, with attempts remaining) raises [NameError]
    for the name [random]: nothing is slept, no further attempt is made, and
    the exception leaves the loop. *)
Theorem backoff_branch_raises_name_error :
  ∀ net url p max_retries attempt rest st,
    backoff_case (attempt_sees net (length (sent st))) = true →
    (Z.of_nat attempt < max_retries - 1)%Z →
    ∃ st',
      attempt_body main_globals net url p max_retries attempt st
      = (Raise (NameError "random"), st')
      ∧ slept st' = slept st
      ∧ drawn st' = drawn st
      ∧ retry_loop main_globals net url p max_retries (attempt :: rest) st
        = (Raise (NameError "random"), st').
Proof.
  intros net url p mr a rest st Hcase Hmore.
  destruct (attempt_body_backoff_case main_globals net url p mr a st Hcase)
    as (st1 & (_ & Hslept & Hdrawn) & _ & Hbody).
  destruct (Z.eqb_spec (Z.of_nat a) (mr - 1)) as [?|_]; [lia|].
  rewrite backoff_and_continue_eq in Hbody. simpl in Hbody.
  exists st1. split; [exact Hbody|]. split; [exact Hslept|]. split; [exact Hdrawn|].
  simpl. unfold bind. by rewrite Hbody.
Qed.

Lemma backoff_branch_raises_name_error_witness :
  ∃ st',
    attempt_body main_globals (always unavailable) "u" 0 3 0 fresh_state
    = (Raise (NameError "random"), st')
    ∧ slept st' = slept fresh_state
    ∧ drawn st' = drawn fresh_state
    ∧ retry_loop main_globals (always unavailable) "u" 0 3 [0; 1; 2] fresh_state
      = (Raise (NameError "random"), st').
Proof.
  apply (backoff_branch_raises_name_error (always unavailable) "u" 0 3 0 [1; 2]
           fresh_state); [reflexivity | simpl; lia].
Defined.


(** ** The caller's [params] dictionary *)

(** C9, as the code has it.  After a call with the dictionary at [l] as
    [params], that dictionary is unchanged when it was empty, and otherwise
    has [api_key] set to the client's key and its other entries unchanged;
    every other dictionary is unchanged. *)
Theorem make_request_params_after_call :
  ∀ G net self endpoint l d max_retries st,
    heap st !! l = Some d →
    heap (final (_make_request G net self endpoint (Some l) max_retries st)) !! l
    = Some (if decide (d = ∅) then d else <["api_key" := VStr (api_key self)]> d)
    ∧ ∀ l' d', l' ≠ l → heap st !! l' = Some d' →
        heap (final (_make_request G net self endpoint (Some l) max_retries st)) !! l'
        = Some d'.
Proof.
  intros G net self endpoint l d mr st Hl.
  assert (Hd : deref st l = d) by (unfold deref; by rewrite Hl).
  unfold _make_request, bind, params_or_new, setitem, final. rewrite Hd.
  destruct (decide (d = ∅)) as [Hempty|Hfull]; simpl.
  - set (l0 := fresh (dom (heap st))).
    assert (Hfresh : heap st !! l0 = None).
    { apply not_elem_of_dom. apply is_fresh. }
    match goal with
    | |- context [retry_loop ?G ?n ?u ?q ?m ?a ?s] =>
        pose proof (keeps_heap_loop G n u q m a s) as Hkeep
    end.
    unfold final in Hkeep. rewrite Hkeep. simpl. split.
    + rewrite !lookup_insert_ne by congruence. exact Hl.
    + intros l' d' _ Hl'. rewrite !lookup_insert_ne by congruence. exact Hl'.
  - match goal with
    | |- context [retry_loop ?G ?n ?u ?q ?m ?a ?s] =>
        pose proof (keeps_heap_loop G n u q m a s) as Hkeep
    end.
    unfold final in Hkeep. rewrite Hkeep. simpl. rewrite Hd. split.
    + by rewrite lookup_insert_eq.
    + intros l' d' Hne Hl'. by rewrite lookup_insert_ne.
Qed.

Lemma make_request_params_after_call_witness :
  heap (final run_with_page) !! 0
  = Some (if decide (({[ "page" := VInt 1 ]} : gmap string pyval) = ∅)
          then {[ "page" := VInt 1 ]}
          else <["api_key" := VStr (api_key demo_client)]> {[ "page" := VInt 1 ]})
  ∧ ∀ l' d', l' ≠ 0 → heap caller_state !! l' = Some d' →
      heap (final run_with_page) !! l' = Some d'.
Proof.
  apply (make_request_params_after_call main_globals (always (reply_ok results_id_1))
           demo_client "movie/popular" 0 {[ "page" := VInt 1 ]} 3 caller_state).
  reflexivity.
Defined.

(** C9 as stated fails: the caller's [{"page": 1}] comes back with an
    [api_key] entry. *)
Lemma make_request_params_counterexample :
  outcome run_with_page = Ok results_id_1
  ∧ deref caller_state 0 !! "api_key" = None
  ∧ deref (final run_with_page) 0 !! "api_key" = Some (VStr "k3y")
  ∧ deref (final run_with_page) 0 ≠ deref caller_state 0.
Proof.
  split; [vm_compute; reflexivity|]. split; [vm_compute; reflexivity|].
  assert (H : deref (final run_with_page) 0 !! "api_key" = Some (VStr "k3y"))
    by (vm_compute; reflexivity).
  split; [exact H|]. intros Heq. rewrite Heq in H. vm_compute in H. discriminate H.
Qed.

(** ** The trending route *)

(** C10.  The handler of [GET /api/trending] passes three positional
    arguments to [TMDBClient.get_trending], which takes two: the call raises
    [TypeError] for every input, before any request is issued, and the
    handler returns nothing. *)
Theorem trending_route_raises_type_error :
  ∀ G net tmdb_client media_type time_window page st,
    Routes.get_trending G net tmdb_client media_type time_window page st
    = (Raise (TypeError
                "TMDBClient.get_trending() takes from 1 to 3 positional arguments but 4 were given"),
       st).
Proof. intros. reflexivity. Qed.

(** The same method called with two arguments does issue its request. *)
Example trending_method_two_arguments :
  outcome (get_trending main_globals (always (reply_ok results_id_1)) demo_client
             [VStr "movie"; VStr "day"] fresh_state)
  = Ok (JArr [JObj [("id", JInt 1)]]).
Proof. vm_compute. reflexivity. Qed.

(** ** The link lookup *)

Module LinkLookup.
Import OpenAIService LinkSpec LinkFixtures.

(** *** The code's string operations do what the specification says *)

Lemma replace_go_skip old k s :
  PyStr.replace_go old EmptyString k s
  = PyStr.replace_go old EmptyString 0 (without_first k s).
Proof.
  revert s. induction k as [|k IH]; intros s; [by destruct s|].
  destruct s as [|c s]; [reflexivity|]. simpl. apply IH.
Qed.

Lemma without_first_length n s :
  String.length (without_first n s) ≤ String.length s.
Proof.
  revert s. induction n as [|n IH]; intros [|c s]; simpl; try lia.
  specialize (IH s). lia.
Qed.

(** [s.replace(marker, '')] takes the occurrences of the marker out. *)
Lemma replace_erases marker s :
  marker ≠ EmptyString →
  PyStr.replace marker EmptyString s = erase marker s.
Proof.
  intros Hne. unfold PyStr.replace, erase.
  assert (H : ∀ fuel t, String.length t ≤ fuel →
            PyStr.replace_go marker EmptyString 0 t = erase_steps fuel marker t);
    [|by apply H].
  induction fuel as [|fuel IH]; intros t Hlen.
  - destruct t; [reflexivity | simpl in Hlen; lia].
  - destruct t as [|c t]; [reflexivity|]. cbn [PyStr.replace_go erase_steps].
    destruct (String.prefix marker (String c t)) eqn:Hp.
    + change (EmptyString +:+ ?x) with x.
      rewrite replace_go_skip.
      destruct marker as [|m marker]; [done|].
      cbn [String.length without_first].
      replace (S (String.length marker) - 1) with (String.length marker) by lia.
      apply IH. pose proof (without_first_length (String.length marker) t).
      simpl in Hlen. lia.
    + f_equal. apply IH. simpl in Hlen. lia.
Qed.

Lemma rstrip_blank s :
  PyStr.rstrip_by PyStr.isspace s = EmptyString ↔ blank s = true.
Proof.
  induction s as [|c s IH]; simpl; [done|].
  destruct (PyStr.rstrip_by PyStr.isspace s) as [|d r].
  - destruct (PyStr.isspace c); simpl; [|split; discriminate].
    split; [intros _; by apply IH|done].
  - split; [discriminate|]. intros [_ Hb]%andb_true_iff.
    apply IH in Hb. discriminate Hb.
Qed.

(** [s.strip()] takes the white space off both ends. *)
Lemma strip_trims s : PyStr.strip s = trim s.
Proof.
  unfold PyStr.strip, trim.
  assert (Hl : PyStr.lstrip_by PyStr.isspace s = trim_left s).
  { induction s as [|c s IH]; simpl; [done|]. by destruct (PyStr.isspace c). }
  rewrite Hl. generalize (trim_left s) as t. clear.
  induction t as [|c t IH]; [reflexivity|].
  cbn [PyStr.rstrip_by trim_right]. rewrite IH.
  destruct (blank (String c t)) eqn:Hb.
  - apply andb_true_iff in Hb as [Hc Ht].
    apply rstrip_blank in Ht. rewrite IH in Ht. by rewrite Ht, Hc.
  - destruct (trim_right t) as [|d r] eqn:Hr; [|done].
    assert (Ht : blank t = true) by (apply rstrip_blank; by rewrite IH).
    simpl in Hb. rewrite Ht, andb_true_r in Hb. by rewrite Hb.
Qed.

(** [message[key]] is the first entry under the key. *)
Lemma getitem_entry m key :
  getitem m key = match entry key m with
                  | Some v => Ok v
                  | None => Raise (KeyError key)
                  end.
Proof.
  unfold entry. induction m as [|[k v] m IH]; simpl; [done|].
  by destruct (String.eqb k key).
Qed.

(** The cleaning of line 70, after the [strip] of line 68, is the
    stripping of the fences. *)
Lemma clean_unfences text : clean (PyStr.strip text) = unfenced text.
Proof.
  unfold clean, unfenced, json_fence, bare_fence.
  by rewrite !replace_erases, !strip_trims.
Qed.

(** *** The stripped text has no fence left *)

Lemma prefix_cons a marker s :
  String.prefix (String a marker) s = true
  ↔ ∃ t, s = String a t ∧ String.prefix marker t = true.
Proof.
  destruct s as [|c t]; simpl.
  - split; [discriminate|]. by intros (? & ? & _).
  - destruct (Ascii.ascii_dec a c) as [->|Hne].
    + split; [by exists t|]. by intros (? & [= <-] & ?).
    + split; [discriminate|]. intros (? & [= ? _] & _). by destruct Hne.
Qed.

Lemma prefix_fence s :
  String.prefix bare_fence s = true
  ↔ ∃ t, s = String backtick (String backtick (String backtick t)).
Proof.
  unfold bare_fence, backtick. split.
  - intros (t1 & -> & (t2 & -> & (t3 & -> & _)%prefix_cons)%prefix_cons)%prefix_cons.
    by exists t3.
  - intros [t ->]. simpl. by destruct t.
Qed.

Lemma fence_in_json_fence s :
  String.prefix json_fence s = true → String.prefix bare_fence s = true.
Proof.
  unfold json_fence.
  intros (t1 & -> & (t2 & -> & (t3 & -> & _)%prefix_cons)%prefix_cons)%prefix_cons.
  apply prefix_fence. by exists t3.
Qed.

Lemma erase_steps_head fuel c s :
  String.prefix bare_fence (String c s) = false →
  erase_steps (S fuel) bare_fence (String c s)
  = String c (erase_steps fuel bare_fence s).
Proof. intros H. cbn [erase_steps]. by rewrite H. Qed.

(** Text that does not start with a backtick keeps its first character. *)
Lemma erase_steps_no_backtick fuel s :
  (∀ t, s ≠ String backtick t) →
  ∀ t, erase_steps fuel bare_fence s ≠ String backtick t.
Proof.
  intros Hs t. destruct fuel as [|fuel]; [apply Hs|].
  destruct s as [|c s]; [done|].
  rewrite erase_steps_head.
  - intros [= -> _]. by apply (Hs s).
  - destruct (String.prefix bare_fence (String c s)) eqn:Hp; [|done].
    apply prefix_fence in Hp as [u [= -> _]]. by destruct (Hs s).
Qed.

(** Text that does not start with two backticks does not after the
    erasure. *)
Lemma erase_steps_no_two_backticks fuel s :
  (∀ t, s ≠ String backtick (String backtick t)) →
  ∀ t, erase_steps fuel bare_fence s ≠ String backtick (String backtick t).
Proof.
  intros Hs t. destruct fuel as [|fuel]; [apply Hs|].
  destruct s as [|c s]; [done|].
  rewrite erase_steps_head.
  - intros [= -> Hrest].
    apply (erase_steps_no_backtick fuel s) in Hrest; [done|].
    intros u ->. by apply (Hs u).
  - destruct (String.prefix bare_fence (String c s)) eqn:Hp; [|done].
    apply prefix_fence in Hp as [u [= -> ->]]. by destruct (Hs (String backtick u)).
Qed.

Lemma erase_steps_no_fence fuel s :
  String.length s ≤ fuel →
  occurs bare_fence (erase_steps fuel bare_fence s) = false.
Proof.
  revert s. induction fuel as [|fuel IH]; intros s Hlen.
  - destruct s; [reflexivity|simpl in Hlen; lia].
  - destruct s as [|c s]; [reflexivity|].
    destruct (String.prefix bare_fence (String c s)) eqn:Hp.
    + cbn [erase_steps]. rewrite Hp. apply IH.
      apply prefix_fence in Hp as [u [= -> ->]]. simpl in *. lia.
    + rewrite erase_steps_head by exact Hp.
      cbn [occurs]. rewrite IH by (simpl in Hlen; lia). rewrite orb_false_r.
      destruct (String.prefix bare_fence (String c (erase_steps fuel bare_fence s)))
        eqn:Hq; [|done].
      apply prefix_fence in Hq as [u [= -> Hrest]].
      apply (erase_steps_no_two_backticks fuel s) in Hrest; [done|].
      intros v ->. assert (String.prefix bare_fence
                              (String backtick (String backtick (String backtick v)))
                            = true) by (apply prefix_fence; by eexists).
      congruence.
Qed.

Lemma occurs_trim_left marker s :
  occurs marker (trim_left s) = true → occurs marker s = true.
Proof.
  induction s as [|c s IH]; simpl; [done|].
  destruct (PyStr.isspace c); [|done].
  intros H. rewrite (IH H). apply orb_true_r.
Qed.

Lemma prefix_trim_right marker s :
  String.prefix marker (trim_right s) = true → String.prefix marker s = true.
Proof.
  revert marker. induction s as [|c s IH]; intros marker; [done|].
  cbn [trim_right]. destruct (blank (String c s)).
  - destruct marker; [done|discriminate].
  - destruct marker as [|m marker]; [done|]. simpl.
    destruct (Ascii.ascii_dec m c); [apply IH|done].
Qed.

Lemma occurs_trim_right marker s :
  occurs marker (trim_right s) = true → occurs marker s = true.
Proof.
  induction s as [|c s IH]; [done|].
  cbn [trim_right]. destruct (blank (String c s)) eqn:Hb.
  - simpl. destruct marker; [done|discriminate].
  - cbn [occurs]. intros [Hp|Ho]%orb_true_iff.
    + apply orb_true_iff. left.
      apply (prefix_trim_right marker (String c s)).
      cbn [trim_right]. by rewrite Hb.
    + apply orb_true_iff. right. by apply IH.
Qed.

(** No code-fence marker is left in the stripped text. *)
Lemma unfenced_has_no_fence text :
  occurs bare_fence (unfenced text) = false
  ∧ occurs json_fence (unfenced text) = false.
Proof.
  assert (H : occurs bare_fence (unfenced text) = false).
  { unfold unfenced, trim.
    destruct (occurs bare_fence _) eqn:Ho; [|done].
    apply occurs_trim_right, occurs_trim_left in Ho.
    unfold erase at 1 in Ho. by rewrite erase_steps_no_fence in Ho. }
  split; [exact H|].
  destruct (occurs json_fence (unfenced text)) eqn:Ho; [|done].
  assert (Hsub : ∀ s, occurs json_fence s = true → occurs bare_fence s = true).
  { induction s as [|c s IH]; [done|]. cbn [occurs].
    intros [Hp|Hs]%orb_true_iff; apply orb_true_iff; [left|right; by apply IH].
    by apply fence_in_json_fence. }
  apply Hsub in Ho. congruence.
Qed.

(** C8.  Whatever the completion call does (return any object, raise any
    exception) and whatever the JSON decoder does,
    [get_direct_streaming_links] does not raise, and what it returns is what
    the specification says: the text the model returned, stripped of its
    code-fence markers and parsed as JSON, when that is an array, and the
    empty sequence in every other case.  The text that goes to the decoder
    has no marker left in it. *)
Theorem get_direct_streaming_links_contract :
  ∀ json_loads ChatCompletion_create model title content_type year,
    get_direct_streaming_links json_loads ChatCompletion_create model
      title content_type year
    = Ok (LinkSpec.links json_loads
            (ChatCompletion_create model system_message
               (prompt title content_type year)))
    ∧ ∀ text,
        occurs bare_fence (unfenced text) = false
        ∧ occurs json_fence (unfenced text) = false.
Proof.
  intros json_loads create model title content_type year.
  split; [|apply unfenced_has_no_fence].
  unfold get_direct_streaming_links, links, returned_text.
  destruct (create model system_message (prompt title content_type year))
    as [[chs]|e]; simpl; [|reflexivity].
  destruct chs as [|m chs]; simpl; [reflexivity|].
  rewrite getitem_entry.
  destruct (entry "content" m) as [[text|]|]; simpl; [|reflexivity..].
  rewrite clean_unfences.
  destruct (json_loads (unfenced text)) as [v|e]; simpl.
  - by destruct v.
  - by destruct (is_decode_or_key e).
Qed.

Example unfenced_block : unfenced fenced = "[1, 2]".
Proof. vm_compute. reflexivity. Qed.

(** Backticks that only meet when the first marker is taken out are a
    marker for the second pass. *)
Example unfenced_nested : unfenced "`````json`x" = "x".
Proof. vm_compute. reflexivity. Qed.

Example links_of_fenced_text :
  get_direct_streaming_links loads_one_two (completes_with fenced)
    "gpt-3.5-turbo" "Inception" "movie" (Some 2010%Z)
  = Ok [JInt 1; JInt 2].
Proof. vm_compute. reflexivity. Qed.

Example links_of_other_text :
  get_direct_streaming_links loads_one_two (completes_with "Sorry, I cannot help.")
    "gpt-3.5-turbo" "Inception" "movie" None
  = Ok [].
Proof. vm_compute. reflexivity. Qed.

Example links_when_the_call_raises :
  get_direct_streaming_links loads_one_two
    (fun _ _ _ => Raise (OtherException "openai.error.RateLimitError" "quota"))
    "gpt-3.5-turbo" "Inception" "movie" None
  = Ok [].
Proof. reflexivity. Qed.

End LinkLookup.

(** * More of the client *)

(** ** Logs of the request loop *)

Lemma request_of_heap url l st st1 :
  heap st1 = heap st → request_of url l st1 = request_of url l st.
Proof. intros H. unfold request_of, deref. by rewrite H. Qed.

Lemma traced_quiet {A} url l (m : M A) :
  (∀ st, heap (final (m st)) = heap st ∧ sent (final (m st)) = sent st
         ∧ slept (final (m st)) = slept st) →
  traced url l 0 0 m.
Proof.
  intros H st. destruct (H st) as (Hh & Hs & Hz). split; [exact Hh|].
  exists [], []. rewrite !app_nil_r. repeat split; auto.
Qed.

Lemma traced_ret {A} url l (a : A) : traced url l 0 0 (ret a).
Proof. by apply traced_quiet. Qed.

Lemma traced_raise {A} url l (e : exn) : traced url l 0 0 (@raise A e).
Proof. by apply traced_quiet. Qed.

Lemma traced_lift {A} url l (r : result A) : traced url l 0 0 (lift r).
Proof. by apply traced_quiet. Qed.

Lemma traced_weaken {A} url l n k n' k' (m : M A) :
  n ≤ n' → k ≤ k' → traced url l n k m → traced url l n' k' m.
Proof.
  intros Hn Hk H st. destruct (H st) as (Hh & new & sl & Hs & Hln & Hall & Hz & Hlk).
  split; [exact Hh|]. exists new, sl. repeat split; auto; lia.
Qed.

Lemma traced_bind {A B} url l n1 k1 n2 k2 (m : M A) (f : A → M B) :
  traced url l n1 k1 m → (∀ a, traced url l n2 k2 (f a)) →
  traced url l (n1 + n2) (k1 + k2) (bind m f).
Proof.
  intros Hm Hf st. unfold bind, final in *.
  destruct (Hm st) as (Hh & new & sl & Hs & Hln & Hall & Hz & Hlk).
  destruct (m st) as [[a|e] st1]; simpl in *.
  - destruct (Hf a st1) as (Hh' & new' & sl' & Hs' & Hln' & Hall' & Hz' & Hlk').
    unfold final in *. split; [by rewrite Hh'|].
    exists (new ++ new'), (sl ++ sl'). rewrite Hs', Hs, Hz', Hz, !app_assoc.
    repeat split; auto.
    + rewrite length_app. lia.
    + apply Forall_app. split; [exact Hall|].
      eapply Forall_impl; [exact Hall'|]. intros rq ->. by apply request_of_heap.
    + rewrite length_app. lia.
  - split; [exact Hh|]. exists new, sl. repeat split; auto; lia.
Qed.

Lemma traced_try_except {A} url l n1 k1 n2 k2 (m : M A) catches (h : exn → M A) :
  traced url l n1 k1 m → (∀ e, traced url l n2 k2 (h e)) →
  traced url l (n1 + n2) (k1 + k2) (try_except m catches h).
Proof.
  intros Hm Hh0 st. unfold try_except, final in *.
  destruct (Hm st) as (Hh & new & sl & Hs & Hln & Hall & Hz & Hlk).
  destruct (m st) as [[a|e] st1]; simpl in *.
  - split; [exact Hh|]. exists new, sl. repeat split; auto; lia.
  - destruct (catches e).
    + destruct (Hh0 e st1) as (Hh' & new' & sl' & Hs' & Hln' & Hall' & Hz' & Hlk').
      unfold final in *. split; [by rewrite Hh'|].
      exists (new ++ new'), (sl ++ sl'). rewrite Hs', Hs, Hz', Hz, !app_assoc.
      repeat split; auto.
      * rewrite length_app. lia.
      * apply Forall_app. split; [exact Hall|].
        eapply Forall_impl; [exact Hall'|]. intros rq ->. by apply request_of_heap.
      * rewrite length_app. lia.
    + split; [exact Hh|]. exists new, sl. repeat split; auto; lia.
Qed.

Section Traces.

Variable G : Globals.
Variable net : nat -> get_outcome.

Lemma traced_get_session url l : traced url l 0 0 get_session.
Proof.
  apply traced_quiet. intros st. unfold get_session.
  by destruct (session st) as [[|]|].
Qed.

Lemma traced_session_get url l : traced url l 1 0 (session_get net url l).
Proof.
  intros st. unfold session_get, final.
  destruct (net (length (sent st))); simpl; (split; [done|]);
    exists [request_of url l st], []; rewrite app_nil_r;
    repeat split; auto; repeat constructor.
Qed.

Lemma traced_sleep url l d : traced url l 0 1 (asyncio_sleep d).
Proof.
  intros st.
  destruct (asyncio_sleep_cases d st) as [[-> _]|[[-> _]|[-> _]]];
    (split; [done|]); [exists [], [] | exists [], [d] | exists [], []];
    rewrite ?app_nil_r; repeat split; auto; simpl; lia.
Qed.

Lemma traced_random url l : traced url l 0 0 (random_random G).
Proof.
  apply traced_quiet. intros st. unfold random_random. by destruct (g_random G).
Qed.

Lemma traced_backoff url l a : traced url l 0 1 (backoff_and_continue G a).
Proof.
  unfold backoff_and_continue.
  apply (traced_bind url l 0 0 0 1); [apply traced_random|]. intros r.
  apply (traced_bind url l 0 0 0 1); [apply traced_lift|]. intros delay.
  apply (traced_bind url l 0 1 0 0); [apply traced_sleep|]. intros _.
  apply traced_ret.
Qed.

Lemma traced_handle_response url l mr a r :
  traced url l 0 1 (handle_response G mr a r).
Proof.
  unfold handle_response.
  destruct (resp_status r =? 200)%Z.
  { apply (traced_weaken url l 0 0); [lia | lia |].
    apply (traced_bind url l 0 0 0 0); [apply traced_lift|].
    intros; apply traced_ret. }
  destruct (resp_status r =? 429)%Z.
  { apply (traced_bind url l 0 0 0 1); [apply traced_lift|]. intros n.
    apply (traced_bind url l 0 1 0 0); [apply traced_sleep|].
    intros; apply traced_ret. }
  destruct (Z.of_nat a =? mr - 1)%Z; [|apply traced_backoff].
  apply (traced_weaken url l 0 0); [lia | lia | apply traced_raise].
Qed.

Lemma traced_handle_transport url l mr a e :
  traced url l 0 1 (handle_transport G mr a e).
Proof.
  unfold handle_transport.
  destruct (Z.of_nat a =? mr - 1)%Z; [|apply traced_backoff].
  apply (traced_weaken url l 0 0); [lia | lia | apply traced_raise].
Qed.

Lemma traced_fetch_response url l : traced url l 2 0 (fetch_response net url l).
Proof.
  unfold fetch_response.
  apply (traced_bind url l 0 0 2 0); [apply traced_get_session|]. intros _.
  apply (traced_bind url l 1 0 1 0); intros; apply traced_session_get.
Qed.

(** An attempt issues at most two GETs and sleeps at most once: a sleep in
    the body is followed by no exception, so the handler's sleep never adds
    to it. *)
Lemma traced_attempt url l mr a : traced url l 2 1 (attempt_body G net url l mr a).
Proof.
  intros st. unfold attempt_body, try_except, bind, final.
  destruct (traced_fetch_response url l st)
    as (Hh & new & sl & Hs & Hln & Hall & Hz & Hlk). unfold final in *.
  destruct (fetch_response net url l st) as [[r|e] st1]; simpl in *.
  - destruct (traced_handle_response url l mr a r st1)
      as (Hh' & new' & sl' & Hs' & Hln' & Hall' & Hz' & Hlk'). unfold final in *.
    assert (Hnew' : new' = []) by (destruct new'; [done | simpl in Hln'; lia]).
    assert (Hsl : sl = []) by (destruct sl; [done | simpl in Hlk; lia]).
    subst new' sl. rewrite app_nil_r in *.
    destruct (handle_response G mr a r st1) as [[o|e] st2] eqn:Hhr; simpl in *.
    + split; [congruence|]. exists new, sl'. rewrite Hs', Hs, Hz', Hz.
      repeat split; auto.
    + (* the exceptions of [handle_response] are never caught here unless
         they come from [response.json()] *)
      destruct (is_transport e) eqn:He.
      * (* a transport exception can only come from the 200 branch, where
           nothing was slept *)
        assert (Hquiet : slept st2 = slept st1).
        { unfold handle_response in Hhr.
          destruct (resp_status r =? 200)%Z.
          - unfold bind, lift, ret in Hhr. destruct (resp_json r); by inversion Hhr.
          - destruct (resp_status r =? 429)%Z.
            + unfold bind, lift, ret in Hhr.
              destruct (retry_after r) as [n|e'] eqn:Hra.
              * destruct (asyncio_sleep_cases (SecInt n) st1) as [[H _]|[[H _]|[H _]]];
                  rewrite H in Hhr; inversion Hhr; subst; discriminate He.
              * unfold retry_after, py_int in Hra.
                destruct (headers_get (resp_headers r) "Retry-After"); [|done].
                destruct (PyStr.int_of_str _); inversion Hra; subst;
                  inversion Hhr; subst; discriminate He.
            + destruct (Z.of_nat a =? mr - 1)%Z.
              * unfold raise in Hhr. inversion Hhr; subst. discriminate He.
              * destruct (backoff_error G a st1 e st2 Hhr) as [->| ->];
                  discriminate He. }
        destruct (traced_handle_transport url l mr a e st2)
          as (Hh'' & new'' & sl'' & Hs'' & Hln'' & Hall'' & Hz'' & Hlk''). unfold final in *.
        assert (new'' = []) by (destruct new''; [done | simpl in Hln''; lia]).
        subst new''. rewrite app_nil_r in *.
        split; [congruence|]. exists new, sl''.
        rewrite Hs'', Hs', Hs, Hz'', Hquiet, Hz. repeat split; auto.
      * simpl. split; [congruence|]. exists new, sl'. rewrite Hs', Hs, Hz', Hz.
        repeat split; auto.
  - assert (Hsl : sl = []) by (destruct sl; [done | simpl in Hlk; lia]).
    subst sl. rewrite app_nil_r in *.
    destruct (is_transport e).
    + destruct (traced_handle_transport url l mr a e st1)
        as (Hh'' & new'' & sl'' & Hs'' & Hln'' & Hall'' & Hz'' & Hlk''). unfold final in *.
      assert (new'' = []) by (destruct new''; [done | simpl in Hln''; lia]).
      subst new''. rewrite app_nil_r in *.
      split; [congruence|]. exists new, sl''. rewrite Hs'', Hs, Hz'', Hz.
      repeat split; auto.
    + split; [exact Hh|]. exists new, []. rewrite app_nil_r.
      repeat split; auto.
Qed.

Lemma traced_loop url l mr attempts :
  traced url l (2 * length attempts) (length attempts)
    (retry_loop G net url l mr attempts).
Proof.
  induction attempts as [|a rest IH]; simpl.
  - apply traced_raise.
  - replace (length rest + S (length rest + 0)) with (1 + 2 * length rest) by lia.
    change (S (1 + 2 * length rest)) with (2 + 2 * length rest).
    change (S (length rest)) with (1 + length rest).
    apply traced_bind; [apply traced_attempt|].
    intros [v|]; [|exact IH].
    apply (traced_weaken url l 0 0); [lia | lia | apply traced_ret].
Qed.

End Traces.

(** ** [_make_request] from its first statement to its last *)

Section Calls.

Variable G : Globals.
Variable net : nat -> get_outcome.
Variable self : TMDBClient.

(** The state in which the loop starts: the logs are those of the caller,
    the dictionary the loop uses holds the caller's entries and [api_key],
    and no other dictionary has changed. *)
Lemma make_request_entry endpoint params mr st :
  ∃ l st0,
    _make_request G net self endpoint params mr st
    = retry_loop G net (build_url self endpoint) l mr (seq 0 (Z.to_nat mr)) st0
    ∧ sent st0 = sent st ∧ slept st0 = slept st
    ∧ deref st0 l = <["api_key" := VStr (api_key self)]> (params_content params st)
    ∧ ∀ l' d', heap st !! l' = Some d' → params ≠ Some l' → heap st0 !! l' = Some d'.
Proof.
  unfold _make_request, bind, params_or_new, setitem.
  assert (Hfresh : heap st !! fresh (dom (heap st)) = None).
  { apply not_elem_of_dom. apply is_fresh. }
  assert (Hnew : ∀ d0, d0 = ∅ →
    let l0 := fresh (dom (heap st)) in
    let st1 := set_heap (<[l0 := ∅]> (heap st)) st in
    let st0 := set_heap (<[l0 := <["api_key" := VStr (api_key self)]> (deref st1 l0)]>
                           (heap st1)) st1 in
    deref st0 l0 = <["api_key" := VStr (api_key self)]> d0
    ∧ ∀ l' d', heap st !! l' = Some d' → heap st0 !! l' = Some d').
  { intros d0 -> l0 st1 st0. split.
    - unfold deref. simpl. rewrite !lookup_insert_eq. simpl.
      unfold deref. simpl. by rewrite lookup_insert_eq.
    - intros l' d' Hl'. simpl.
      assert (l' ≠ l0) by (intros ->; unfold l0 in Hl'; congruence).
      by rewrite !lookup_insert_ne. }
  destruct params as [l|]; simpl.
  - destruct (decide (deref st l = ∅)) as [Hempty|Hfull]; simpl.
    + destruct (Hnew (deref st l) Hempty) as [Hd Hframe].
      eexists _, _. split; [reflexivity|]. repeat split; auto.
    + eexists _, _. split; [reflexivity|]. repeat split; auto.
      * unfold deref at 1. simpl. by rewrite lookup_insert_eq.
      * intros l' d' Hl' Hne. simpl. rewrite lookup_insert_ne; [done|congruence].
  - destruct (Hnew ∅ eq_refl) as [Hd Hframe].
    eexists _, _. split; [reflexivity|]. repeat split; auto.
Qed.

(** An attempt that receives a decodable 200 answer, with the count of its
    GETs. *)
Lemma attempt_body_ok_count url p mr a st r v :
  attempt_sees net (length (sent st)) = Resp r →
  resp_status r = 200%Z → resp_json r = Ok v →
  ∃ st1, quiet st st1 ∧ length (sent st1) = 2 + length (sent st)
         ∧ attempt_body G net url p mr a st = (Ok (Some v), st1).
Proof.
  intros Hsee Hst Hjs.
  destruct (attempt_body_resp G net url p mr a st r Hsee) as (st1 & Hq & Hn & ->).
  exists st1. split; [exact Hq|]. split; [exact Hn|].
  unfold try_except, handle_response, bind, lift, ret. by rewrite Hst, Hjs.
Qed.

(** What a rate-limited attempt whose delay is in the range of [float]
    leaves behind. *)
Lemma attempt_body_rate_limited_count url p mr a st r n :
  attempt_sees net (length (sent st)) = Resp r →
  resp_status r = 429%Z → retry_after r = Ok n →
  (n < 2 ^ 1024 - 2 ^ 970)%Z →
  ∃ st2, attempt_body G net url p mr a st = (Ok None, st2)
         ∧ length (sent st2) = 2 + length (sent st)
         ∧ slept st2 = slept st ++ List.filter waits [SecInt n].
Proof.
  intros Hsee Hst Hra Hfit.
  destruct (attempt_body_rate_limited G net url p mr a st r Hsee Hst)
    as (st1 & (_ & Hslept & _) & Hn & ->).
  rewrite Hra. simpl.
  destruct (Z.leb_spec n 0) as [Hle|Hpos].
  - exists st1. split; [done|]. split; [exact Hn|].
    destruct (Z.ltb_spec 0 n); [lia|]. by rewrite app_nil_r.
  - destruct (Z.ltb_spec n (2 ^ 1024 - 2 ^ 970)); [|lia].
    exists (log_slept (SecInt n) st1). split; [done|]. split; [exact Hn|].
    destruct (Z.ltb_spec 0 n); [|lia]. simpl. by rewrite Hslept.
Qed.

(** [k] rate-limited attempts, then a decodable 200 answer, inside the
    budget. *)
Lemma loop_after_rate_limits url p mr r v :
  resp_status r = 200%Z → resp_json r = Ok v →
  ∀ k a m st (wait : nat → Z),
    k < m →
    (∀ i, i < k →
       ∃ ri, attempt_sees net (length (sent st) + 2 * i) = Resp ri
             ∧ resp_status ri = 429%Z ∧ retry_after ri = Ok (wait i)
             ∧ (wait i < 2 ^ 1024 - 2 ^ 970)%Z) →
    attempt_sees net (length (sent st) + 2 * k) = Resp r →
    ∃ st', retry_loop G net url p mr (seq a m) st = (Ok v, st')
           ∧ slept st'
             = slept st ++ List.filter waits (map (λ i, SecInt (wait i)) (seq 0 k))
           ∧ length (sent st') = length (sent st) + 2 * k + 2.
Proof.
  intros Hst Hjs. induction k as [|k IH]; intros a m st wait Hkm Hlim Hok.
  - destruct m as [|m]; [lia|]. simpl.
    rewrite Nat.add_0_r in Hok.
    destruct (attempt_body_ok_count url p mr a st r v Hok Hst Hjs)
      as (st1 & (_ & Hslept & _) & Hn & Hbody).
    exists st1. unfold bind. rewrite Hbody. simpl.
    split; [reflexivity|]. split; [by rewrite app_nil_r|]. lia.
  - destruct m as [|m]; [lia|]. cbn [seq retry_loop].
    destruct (Hlim 0) as (r0 & Hsee0 & Hst0 & Hra0 & Hfit0); [lia|].
    rewrite Nat.add_0_r in Hsee0.
    destruct (attempt_body_rate_limited_count url p mr a st r0 (wait 0)
                Hsee0 Hst0 Hra0 Hfit0) as (st2 & Hbody & Hn & Hslept).
    unfold bind. rewrite Hbody.
    destruct (IH (S a) m st2 (λ i, wait (S i)))
      as (st' & Hloop & Hslept' & Hn'); [lia | |  |].
    + intros i Hi. destruct (Hlim (S i)) as (ri & Hsee & Hsti & Hrai & Hfiti); [lia|].
      exists ri. rewrite Hn.
      replace (2 + length (sent st) + 2 * i)
        with (length (sent st) + 2 * S i) by lia.
      auto.
    + rewrite Hn.
      replace (2 + length (sent st) + 2 * k)
        with (length (sent st) + 2 * S k) by lia.
      exact Hok.
    + exists st'. split; [exact Hloop|]. split.
      * rewrite Hslept', Hslept, <- app_assoc. f_equal.
        cbn [seq map]. rewrite <- seq_shift, map_map.
        change (SecInt (wait 0) :: map (λ i, SecInt (wait (S i))) (seq 0 k))
          with ([SecInt (wait 0)] ++ map (λ i, SecInt (wait (S i))) (seq 0 k)).
        by rewrite List.filter_app.
      * rewrite Hn', Hn. lia.
Qed.

(** The first attempt receives a decodable 200 answer. *)
Lemma make_request_first_ok endpoint params mr st r v :
  (1 ≤ mr)%Z →
  attempt_sees net (length (sent st)) = Resp r →
  resp_status r = 200%Z → resp_json r = Ok v →
  ∃ st', _make_request G net self endpoint params mr st = (Ok v, st')
         ∧ slept st' = slept st
         ∧ length (sent st') = 2 + length (sent st).
Proof.
  intros Hmr Hsee Hst Hjs.
  destruct (make_request_entry endpoint params mr st)
    as (l & st0 & -> & Hsent & Hslept & _).
  rewrite <- Hsent, <- Hslept.
  destruct (loop_after_rate_limits (build_url self endpoint) l mr r v Hst Hjs
              0 0 (Z.to_nat mr) st0 (λ _, 0%Z)) as (st' & Hloop & Hs & Hn).
  - lia.
  - intros i Hi. lia.
  - by rewrite Hsent, Nat.add_0_r.
  - exists st'. split; [exact Hloop|]. split; [by rewrite Hs, app_nil_r|]. lia.
Qed.

(** The logs of a whole call. *)
Lemma make_request_traced endpoint params mr st :
  ∃ new sl,
    sent (final (_make_request G net self endpoint params mr st)) = sent st ++ new
    ∧ length new ≤ 2 * Z.to_nat mr
    ∧ Forall (λ rq, req_url rq = build_url self endpoint
                    ∧ req_params rq
                      = <["api_key" := VStr (api_key self)]> (params_content params st))
        new
    ∧ slept (final (_make_request G net self endpoint params mr st)) = slept st ++ sl
    ∧ length sl ≤ Z.to_nat mr.
Proof.
  destruct (make_request_entry endpoint params mr st)
    as (l & st0 & -> & Hsent & Hslept & Hd & _).
  destruct (traced_loop G net (build_url self endpoint) l mr (seq 0 (Z.to_nat mr)) st0)
    as (_ & new & sl & Hs & Hln & Hall & Hz & Hlk).
  rewrite length_seq in Hln, Hlk.
  exists new, sl. rewrite Hs, Hz, Hsent, Hslept. repeat split; auto.
  eapply Forall_impl; [exact Hall|]. intros rq ->. simpl. by rewrite Hd.
Qed.

End Calls.

(** X1.  Every GET that a call of [_make_request] issues goes to the URL
    built from the endpoint, with the caller's parameters and the client's
    [api_key] as query parameters; the requests logged before the call are
    kept. *)
Theorem make_request_every_get :
  ∀ G net self endpoint params max_retries st,
    ∃ new,
      sent (final (_make_request G net self endpoint params max_retries st))
      = sent st ++ new
      ∧ Forall (λ rq, req_url rq = build_url self endpoint
                      ∧ req_params rq
                        = <["api_key" := VStr (api_key self)]> (params_content params st))
          new.
Proof.
  intros G net self endpoint params mr st.
  destruct (make_request_traced G net self endpoint params mr st)
    as (new & sl & Hs & _ & Hall & _).
  by exists new.
Qed.

(** X2.  A call issues at most [2 * max_retries] GETs and sleeps at most
    [max_retries] times (none at all for a budget of zero or less). *)
Theorem make_request_bounded :
  ∀ G net self endpoint params max_retries st,
    ∃ new sl,
      sent (final (_make_request G net self endpoint params max_retries st))
      = sent st ++ new
      ∧ slept (final (_make_request G net self endpoint params max_retries st))
        = slept st ++ sl
      ∧ length new ≤ 2 * Z.to_nat max_retries
      ∧ length sl ≤ Z.to_nat max_retries.
Proof.
  intros G net self endpoint params mr st.
  destruct (make_request_traced G net self endpoint params mr st)
    as (new & sl & Hs & Hn & _ & Hz & Hk).
  by exists new, sl.
Qed.

(** X3.  Rate limiting composes with success: when the first [k] attempts
    each receive a 429 whose [Retry-After] is absent or converts to an [int]
    below [2 ** 1024 - 2 ** 970] (the first that [asyncio.sleep] cannot add
    to its clock), and the next attempt, still inside the budget, receives a
    200 whose body decodes to [v], the call returns [v], having slept
    exactly the waits that are positive, in order, and issued [2 * k + 2]
    GETs. *)
Theorem make_request_after_rate_limits :
  ∀ G net self endpoint params max_retries st (k : nat) (wait : nat → Z) r v,
    (Z.of_nat k < max_retries)%Z →
    (∀ i, i < k →
       ∃ ri, attempt_sees net (length (sent st) + 2 * i) = Resp ri
             ∧ resp_status ri = 429%Z ∧ retry_after ri = Ok (wait i)
             ∧ (wait i < 2 ^ 1024 - 2 ^ 970)%Z) →
    attempt_sees net (length (sent st) + 2 * k) = Resp r →
    resp_status r = 200%Z →
    resp_json r = Ok v →
    ∃ st',
      _make_request G net self endpoint params max_retries st = (Ok v, st')
      ∧ slept st'
        = slept st ++ List.filter waits (map (λ i, SecInt (wait i)) (seq 0 k))
      ∧ length (sent st') = length (sent st) + 2 * k + 2.
Proof.
  intros G net self endpoint params mr st k wait r v Hk Hlim Hok Hst Hjs.
  destruct (make_request_entry G net self endpoint params mr st)
    as (l & st0 & -> & Hsent & Hslept & _).
  rewrite <- Hsent, <- Hslept. rewrite <- Hsent in Hok.
  apply (loop_after_rate_limits G net (build_url self endpoint) l mr r v Hst Hjs
           k 0 (Z.to_nat mr) st0 wait); [lia | | exact Hok].
  intros i Hi. rewrite Hsent. by apply Hlim.
Qed.

Lemma make_request_after_rate_limits_witness :
  ∃ st',
    _make_request main_globals (limited_twice results_id_1) demo_client
      "movie/popular" None 3 fresh_state = (Ok results_id_1, st')
    ∧ slept st'
      = slept fresh_state
          ++ List.filter waits (map (λ i, SecInt (waits_7_0 i)) (seq 0 2))
    ∧ length (sent st') = length (sent fresh_state) + 2 * 2 + 2.
Proof.
  apply (make_request_after_rate_limits main_globals (limited_twice results_id_1)
           demo_client "movie/popular" None 3 fresh_state 2 waits_7_0
           (reply_ok results_id_1) results_id_1).
  - lia.
  - intros [|[|i]] Hi; [| |lia].
    + exists too_many_wait_7. repeat split; reflexivity.
    + exists too_many_wait_0. repeat split; reflexivity.
  - reflexivity.
  - reflexivity.
  - reflexivity.
Defined.

(** Two rate limits, of 7 and of 0 seconds: one sleep. *)
Example rate_limited_twice :
  outcome (_make_request main_globals (limited_twice results_id_1) demo_client
             "movie/popular" None 3 fresh_state) = Ok results_id_1
  ∧ slept (final (_make_request main_globals (limited_twice results_id_1) demo_client
                    "movie/popular" None 3 fresh_state)) = [SecInt 7].
Proof. split; vm_compute; reflexivity. Qed.

(** X4.  A call without [params] changes no dictionary that exists when it
    starts. *)
Theorem make_request_without_params_keeps_heap :
  ∀ G net self endpoint max_retries st l d,
    heap st !! l = Some d →
    heap (final (_make_request G net self endpoint None max_retries st)) !! l = Some d.
Proof.
  intros G net self endpoint mr st l d Hl.
  destruct (make_request_entry G net self endpoint None mr st)
    as (l0 & st0 & -> & _ & _ & _ & Hframe).
  rewrite keeps_heap_loop. by apply Hframe.
Qed.

Lemma make_request_without_params_keeps_heap_witness :
  heap (final (_make_request main_globals (always unavailable) demo_client
                 "movie/popular" None 3 caller_state)) !! 0
  = Some {[ "page" := VInt 1 ]}.
Proof.
  apply (make_request_without_params_keeps_heap main_globals (always unavailable)
           demo_client "movie/popular" 3 caller_state 0 {[ "page" := VInt 1 ]}).
  reflexivity.
Defined.

(** ** The accessors *)

Section Accessors.

Variable G : Globals.
Variable net : nat -> get_outcome.
Variable self : TMDBClient.

Lemma new_dict_spec d st :
  ∃ l st1, new_dict d st = (Ok l, st1)
           ∧ sent st1 = sent st ∧ slept st1 = slept st ∧ deref st1 l = d.
Proof.
  unfold new_dict. eexists _, _. split; [reflexivity|]. repeat split; auto.
  unfold deref. simpl. by rewrite lookup_insert_eq.
Qed.

(** The GETs of a call that passes a new dictionary [d]. *)
Lemma requests_with_new_dict {A} endpoint d (k : json → M A) st :
  (∀ v st1, sent (final (k v st1)) = sent st1) →
  ∃ new,
    sent (final ((let* params := new_dict d in
                  let* data := _make_request G net self endpoint (Some params) 3 in
                  k data) st))
    = sent st ++ new
    ∧ Forall (λ rq, req_url rq = build_url self endpoint
                    ∧ req_params rq = <["api_key" := VStr (api_key self)]> d) new.
Proof.
  intros Hk. unfold bind at 1.
  destruct (new_dict_spec d st) as (l & st1 & -> & Hsent & _ & Hd).
  destruct (make_request_traced G net self endpoint (Some l) 3 st1)
    as (new & sl & Hs & _ & Hall & _).
  exists new. unfold bind, final in *.
  destruct (_make_request G net self endpoint (Some l) 3 st1) as [[v|e] st2]; simpl in *.
  - rewrite Hk. simpl. rewrite Hs, Hsent. split; [done|].
    eapply Forall_impl; [exact Hall|]. intros rq [? ->]. by rewrite Hd.
  - rewrite Hs, Hsent. split; [done|].
    eapply Forall_impl; [exact Hall|]. intros rq [? ->]. by rewrite Hd.
Qed.

Lemma requests_without_params {A} endpoint (k : json → M A) st :
  (∀ v st1, sent (final (k v st1)) = sent st1) →
  ∃ new,
    sent (final ((let* data := _make_request G net self endpoint None 3 in
                  k data) st))
    = sent st ++ new
    ∧ Forall (λ rq, req_url rq = build_url self endpoint
                    ∧ req_params rq = {[ "api_key" := VStr (api_key self) ]}) new.
Proof.
  intros Hk.
  destruct (make_request_traced G net self endpoint None 3 st)
    as (new & sl & Hs & _ & Hall & _).
  exists new. unfold bind, final in *.
  destruct (_make_request G net self endpoint None 3 st) as [[v|e] st2]; simpl in *.
  - rewrite Hk. simpl. split; [exact Hs|]. exact Hall.
  - split; [exact Hs|]. exact Hall.
Qed.

(** The result of a call that passes a new dictionary, when the first
    attempt receives a decodable 200 answer. *)
Lemma result_with_new_dict {A} endpoint d (k : json → M A) st r v :
  attempt_sees net (length (sent st)) = Resp r →
  resp_status r = 200%Z → resp_json r = Ok v →
  ∃ st1,
    (let* params := new_dict d in
     let* data := _make_request G net self endpoint (Some params) 3 in
     k data) st = k v st1.
Proof.
  intros Hsee Hst Hjs. unfold bind at 1.
  destruct (new_dict_spec d st) as (l & st1 & -> & Hsent & _ & _).
  rewrite <- Hsent in Hsee.
  destruct (make_request_first_ok G net self endpoint (Some l) 3 st1 r v)
    as (st2 & Hrun & _); [lia | done | done | done |].
  exists st2. unfold bind. by rewrite Hrun.
Qed.

Lemma result_without_params {A} endpoint (k : json → M A) st r v :
  attempt_sees net (length (sent st)) = Resp r →
  resp_status r = 200%Z → resp_json r = Ok v →
  ∃ st1,
    (let* data := _make_request G net self endpoint None 3 in k data) st = k v st1.
Proof.
  intros Hsee Hst Hjs.
  destruct (make_request_first_ok G net self endpoint None 3 st r v)
    as (st2 & Hrun & _); [lia | done | done | done |].
  exists st2. unfold bind. by rewrite Hrun.
Qed.

End Accessors.

(** X5.  The requests of [get_movie_details] and [get_tv_details] carry
    [api_key] and nothing else: no [append_to_response] is sent. *)
Theorem details_requests_carry_only_the_key :
  ∀ G net self id st,
    (∃ new,
       sent (final (get_movie_details G net self id st)) = sent st ++ new
       ∧ Forall (λ rq, req_url rq = build_url self ("movie/" +:+ pyval_str id)
                       ∧ req_params rq = {[ "api_key" := VStr (api_key self) ]}) new)
    ∧ (∃ new,
         sent (final (get_tv_details G net self id st)) = sent st ++ new
         ∧ Forall (λ rq, req_url rq = build_url self ("tv/" +:+ pyval_str id)
                         ∧ req_params rq = {[ "api_key" := VStr (api_key self) ]}) new).
Proof.
  intros G net self id st. split.
  - apply (requests_without_params G net self ("movie/" +:+ pyval_str id)
             (λ data, ret (PyJson.or_empty_dict data))). done.
  - apply (requests_without_params G net self ("tv/" +:+ pyval_str id)
             (λ data, ret (PyJson.or_empty_dict data))). done.
Qed.

(** X6.  Every GET of the [/api/search] route goes to [search/<media_type>]
    with the query, the page, [include_adult=false] and the key as
    parameters. *)
Theorem search_route_requests :
  ∀ G net tmdb_client query media_type page st,
    ∃ new,
      sent (final (Api.search G net tmdb_client query media_type page st))
      = sent st ++ new
      ∧ Forall (λ rq,
                  req_url rq = build_url tmdb_client ("search/" +:+ media_type)
                  ∧ req_params rq
                    = <["api_key" := VStr (api_key tmdb_client)]>
                        {[ "query" := VStr query; "page" := VInt page;
                           "include_adult" := VStr "false" ]}) new.
Proof.
  intros G net c query mt page st.
  unfold Api.search, search.
  destruct (requests_with_new_dict G net c ("search/" +:+ mt)
              {[ "query" := VStr query; "page" := VInt page;
                 "include_adult" := VStr "false" ]}
              (λ data, ret (PyJson.or_empty_dict data)) st) as (new & Hs & Hall); [done|].
  exists new. split; [|exact Hall].
  rewrite <- Hs. unfold bind, final.
  destruct (new_dict _ st) as [[l|e] st1]; simpl; [|done].
  destruct (_make_request G net c _ (Some l) 3 st1) as [[v|e] st2]; done.
Qed.

(** X7.  [/api/movies/popular], when the first attempt receives a 200 whose
    body decodes to an object: the answer is [{"results": x}], [x] being the
    value of the body's [results] key, or the empty list when the body has
    no such key. *)
Theorem popular_route_unwraps_results :
  ∀ G net tmdb_client page st r fields,
    attempt_sees net (length (sent st)) = Resp r →
    resp_status r = 200%Z →
    resp_json r = Ok (JObj fields) →
    outcome (Api.get_popular_movies G net tmdb_client page st)
    = Ok (JObj [("results", fields_get fields "results" (JArr []))]).
Proof.
  intros G net c page st r fields Hsee Hst Hjs.
  unfold Api.get_popular_movies, get_popular_movies, paged_results.
  unfold bind at 1.
  destruct (result_with_new_dict G net c "movie/popular" {[ "page" := VInt page ]}
              (λ data, lift (PyJson.results_or_empty data)) st r (JObj fields)
              Hsee Hst Hjs) as (st1 & ->).
  unfold lift, PyJson.results_or_empty. simpl.
  by destruct fields.
Qed.

Lemma popular_route_unwraps_results_witness :
  outcome (Api.get_popular_movies main_globals (always (reply_ok results_id_1))
             demo_client 1 fresh_state)
  = Ok (JObj [("results",
               fields_get [("results", JArr [JObj [("id", JInt 1)]])] "results" (JArr []))]).
Proof.
  apply (popular_route_unwraps_results main_globals (always (reply_ok results_id_1))
           demo_client 1 fresh_state (reply_ok results_id_1)
           [("results", JArr [JObj [("id", JInt 1)]])]); reflexivity.
Defined.

(** X8.  The list accessors on a body that is not an object: a body with
    truth value false ([null], [[]], [0], the empty string, [false]) gives
    the empty list, any other body raises [AttributeError], there being no
    [get] on it. *)
Theorem list_accessor_on_other_bodies :
  ∀ G net self endpoint page st r v,
    attempt_sees net (length (sent st)) = Resp r →
    resp_status r = 200%Z →
    resp_json r = Ok v →
    (∀ fields, v ≠ JObj fields) →
    outcome (paged_results G net self endpoint page st)
    = if truthy v then Raise (PyJson.no_attribute v "get") else Ok (JArr []).
Proof.
  intros G net self endpoint page st r v Hsee Hst Hjs Hv.
  unfold paged_results.
  destruct (result_with_new_dict G net self endpoint {[ "page" := page ]}
              (λ data, lift (PyJson.results_or_empty data)) st r v
              Hsee Hst Hjs) as (st1 & ->).
  unfold lift, PyJson.results_or_empty, PyJson.get. simpl.
  destruct (truthy v); [|done].
  destruct v; try done. by destruct (Hv fields).
Qed.

Lemma list_accessor_on_other_bodies_witness :
  outcome (paged_results main_globals (always (reply_ok (JArr [JInt 1]))) demo_client
             "tv/popular" (VInt 1) fresh_state)
  = if truthy (JArr [JInt 1]) then Raise (PyJson.no_attribute (JArr [JInt 1]) "get")
    else Ok (JArr []).
Proof.
  apply (list_accessor_on_other_bodies main_globals (always (reply_ok (JArr [JInt 1])))
           demo_client "tv/popular" (VInt 1) fresh_state (reply_ok (JArr [JInt 1]))
           (JArr [JInt 1])); [reflexivity | reflexivity | reflexivity |].
  intros fields. discriminate.
Defined.

(** X9.  [/api/movie/{movie_id}], when the first attempt receives a
    decodable 200: a body with truth value false (the empty object, [null])
    makes the handler raise [HTTPException(404, "Movie not found")]; any
    other body is returned as it is. *)
Theorem movie_route_not_found :
  ∀ G net tmdb_client movie_id st r v,
    attempt_sees net (length (sent st)) = Resp r →
    resp_status r = 200%Z →
    resp_json r = Ok v →
    outcome (Api.get_movie G net tmdb_client movie_id st)
    = if truthy v then Ok v else Raise (HTTPException 404 "Movie not found").
Proof.
  intros G net c movie_id st r v Hsee Hst Hjs.
  unfold Api.get_movie, get_movie_details. unfold bind at 1.
  destruct (result_without_params G net c ("movie/" +:+ pyval_str (VInt movie_id))
              (λ data, ret (PyJson.or_empty_dict data)) st r v Hsee Hst Hjs)
    as (st1 & ->).
  unfold ret, PyJson.or_empty_dict. simpl.
  destruct (truthy v) eqn:Hv; simpl.
  - by rewrite Hv.
  - reflexivity.
Qed.

Lemma movie_route_not_found_witness :
  outcome (Api.get_movie main_globals (always (reply_ok (JObj []))) demo_client
             550 fresh_state)
  = if truthy (JObj []) then Ok (JObj [])
    else Raise (HTTPException 404 "Movie not found").
Proof.
  apply (movie_route_not_found main_globals (always (reply_ok (JObj []))) demo_client
           550 fresh_state (reply_ok (JObj [])) (JObj [])); reflexivity.
Defined.

(** * The streaming service *)

Module StreamingProofs.
Import Streaming.

Lemma append_assoc (a b c : string) : (a +:+ b) +:+ c = a +:+ (b +:+ c).
Proof.
  induction a as [|x a IH]; [done|].
  change (String x ((a +:+ b) +:+ c) = String x (a +:+ (b +:+ c))).
  by rewrite IH.
Qed.

(** X10.  [_get_streaming_url] for a provider that is not in the table (an
    integer other than the ten known ids, a missing id, a string): the
    TMDB watch page of the content. *)
Theorem streaming_url_fallback :
  ∀ content_id content_type provider_id,
    (provider_id = JNull ∨ (∃ s, provider_id = JStr s)
     ∨ ∃ n, provider_id = JInt n ∧ ¬ In n (map fst provider_urls)) →
    _get_streaming_url content_id content_type provider_id
    = Ok ("https://www.themoviedb.org/" +:+ content_type +:+ "/"
            +:+ pretty content_id +:+ "/watch").
Proof.
  intros content_id content_type pid [-> | [[s ->] | (n & -> & Hn)]]; try reflexivity.
  unfold _get_streaming_url, int_key, bindR, lookup_url.
  destruct (List.find (λ kv, (fst kv =? n)%Z) provider_urls) as [[k t]|] eqn:Hfind;
    [|reflexivity].
  apply find_some in Hfind as [Hin Hk]. simpl in Hk. apply Z.eqb_eq in Hk. subst k.
  destruct Hn. apply in_map_iff. by exists (n, t).
Qed.

Lemma streaming_url_fallback_witness :
  _get_streaming_url 299534 "movie" (JInt 2)
  = Ok ("https://www.themoviedb.org/" +:+ "movie" +:+ "/" +:+ pretty 299534%Z +:+ "/watch").
Proof.
  apply (streaming_url_fallback 299534 "movie" (JInt 2)).
  right. right. exists 2%Z. split; [reflexivity|].
  simpl. intros H. repeat (destruct H as [H|H]; [discriminate H|]). exact H.
Defined.

(** X11.  For every provider id that can be a dictionary key (anything but a
    list or a dict), [_get_streaming_url] returns a URL, and the URL
    contains the content id in decimal. *)
Theorem streaming_url_contains_id :
  ∀ content_id content_type provider_id,
    (∀ items, provider_id ≠ JArr items) →
    (∀ fields, provider_id ≠ JObj fields) →
    ∃ pre post,
      _get_streaming_url content_id content_type provider_id
      = Ok (pre +:+ pretty content_id +:+ post).
Proof.
  intros content_id content_type pid Harr Hobj.
  assert (Hkey : ∃ key, int_key pid = Ok key).
  { destruct pid; simpl; eauto; [by destruct (Harr items) | by destruct (Hobj fields)]. }
  destruct Hkey as [key Hkey]. unfold _get_streaming_url. rewrite Hkey.
  unfold bindR.
  destruct (lookup_url key) as [t|] eqn:Hurl.
  - destruct key as [n|]; [|discriminate Hurl]. unfold lookup_url in Hurl.
    destruct (List.find (λ kv, (fst kv =? n)%Z) provider_urls) as [[k t']|] eqn:Hfind;
      [|discriminate Hurl].
    injection Hurl as <-. apply find_some in Hfind as [Hin _].
    set (id := pretty content_id).
    simpl in Hin.
    repeat (destruct Hin as [[= <- <-]|Hin]); [..|destruct Hin]; unfold format; simpl.
    + exists "https://www.netflix.com/title/", EmptyString. reflexivity.
    + exists "https://www.primevideo.com/detail/", EmptyString. reflexivity.
    + exists "https://www.disneyplus.com/movies/", EmptyString. reflexivity.
    + exists "https://www.hulu.com/movie/", EmptyString. reflexivity.
    + exists "https://play.hbomax.com/feature/", EmptyString. reflexivity.
    + exists "https://tv.apple.com/movie/", EmptyString. reflexivity.
    + exists ("https://www.youtube.com/results?search_query=" +:+ content_type +:+ "_"),
        EmptyString.
      simpl. by rewrite !append_assoc.
    + exists "https://play.google.com/store/movies/details?id=", EmptyString. reflexivity.
    + exists ("https://www.vudu.com/content/movies/details/"
                +:+ (content_type +:+ "_" +:+ id) +:+ "/"), EmptyString.
      simpl. by rewrite !append_assoc.
    + exists ("https://www.microsoft.com/en-us/p/"
                +:+ (content_type +:+ "_" +:+ id) +:+ "/"), EmptyString.
      simpl. by rewrite !append_assoc.
  - exists ("https://www.themoviedb.org/" +:+ content_type +:+ "/"), "/watch".
    by rewrite !append_assoc.
Qed.

Lemma streaming_url_contains_id_witness :
  ∃ pre post,
    _get_streaming_url 299534 "movie" (JInt 192)
    = Ok (pre +:+ pretty 299534%Z +:+ post).
Proof.
  apply (streaming_url_contains_id 299534 "movie" (JInt 192)); discriminate.
Defined.

Example streaming_url_youtube :
  _get_streaming_url 299534 "movie" (JInt 192)
  = Ok "https://www.youtube.com/results?search_query=movie_299534".
Proof. vm_compute. reflexivity. Qed.

Example streaming_url_float_id :
  _get_streaming_url 299534 "movie" (JReal (8 # 1))
  = Ok "https://www.netflix.com/title/299534".
Proof. vm_compute. reflexivity. Qed.

Section Embeds.

Variable repr : json -> string.
Variable requests_get : string -> string -> result http_response.
Variable self : StreamingService.

Lemma collect_embeds_objects videos acc :
  collect_embeds repr (map JObj videos) acc
  = Ok (acc ++ map (youtube_embed repr) (filter (λ v, Is_true (on_youtube v)) videos)).
Proof.
  revert acc. induction videos as [|v videos IH]; intros acc; simpl.
  - by rewrite app_nil_r.
  - unfold on_youtube at 1. destruct (PyJson.is_str "YouTube" (fields_get v "site" JNull)) eqn:Hs.
    + rewrite IH. rewrite filter_cons_True by (unfold on_youtube; by rewrite Hs).
      simpl. by rewrite <- app_assoc.
    + rewrite IH. rewrite filter_cons_False; [done|].
      unfold on_youtube. rewrite Hs. simpl. tauto.
Qed.

Lemma embeds_never_raise content_id content_type :
  ∃ embeds, get_video_embeds repr requests_get self content_id content_type
            = Ok (JArr embeds).
Proof.
  unfold get_video_embeds, except_all, bindR.
  repeat match goal with
         | |- context [match ?x with _ => _ end] =>
             lazymatch x with
             | context [match _ with _ => _ end] => fail
             | _ => destruct x
             end
         end; eauto.
Qed.

End Embeds.

(** X12.  [get_video_embeds] on a well-formed answer (status below 400, a
    body whose [results] is a list of objects): the embeds are those of the
    videos whose [site] is [YouTube], in the order of the answer, each with
    the URL [https://www.youtube.com/embed/<key>]; the other videos are left
    out. *)
Theorem video_embeds_are_the_youtube_videos :
  ∀ repr requests_get self content_id content_type response fields videos,
    requests_get
      (base_url self +:+ "/" +:+ content_type +:+ "/" +:+ pretty content_id +:+ "/videos")
      ("Bearer " +:+ tmdb_api_key self) = Ok response →
    (status_code response < 400)%Z →
    body response = Ok (JObj fields) →
    fields_get fields "results" (JArr []) = JArr (map JObj videos) →
    get_video_embeds repr requests_get self content_id content_type
    = Ok (JArr (map (youtube_embed repr)
                  (filter (λ v, Is_true (on_youtube v)) videos))).
Proof.
  intros repr requests_get self content_id content_type response fields videos
    Hget Hstatus Hbody Hresults.
  unfold get_video_embeds, authorization. rewrite Hget. simpl.
  unfold raise_for_status.
  replace (400 <=? status_code response)%Z with false by (symmetry; apply Z.leb_gt; lia).
  replace (500 <=? status_code response)%Z with false by (symmetry; apply Z.leb_gt; lia).
  simpl. rewrite Hbody. simpl. rewrite Hresults. simpl.
  by rewrite collect_embeds_objects.
Qed.

Lemma video_embeds_are_the_youtube_videos_witness :
  get_video_embeds plain_repr (answers (JObj [("results", JArr (map JObj three_videos))]))
    demo_service 299534 "movie"
  = Ok (JArr (map (youtube_embed plain_repr)
                (filter (λ v, Is_true (on_youtube v)) three_videos))).
Proof.
  apply (video_embeds_are_the_youtube_videos plain_repr
           (answers (JObj [("results", JArr (map JObj three_videos))]))
           demo_service 299534 "movie"
           {| status_code := 200; reason := "OK";
              url := base_url demo_service +:+ "/" +:+ "movie" +:+ "/"
                       +:+ pretty 299534%Z +:+ "/videos";
              body := Ok (JObj [("results", JArr (map JObj three_videos))]) |}
           [("results", JArr (map JObj three_videos))] three_videos);
    [reflexivity | simpl; lia | reflexivity | reflexivity].
Defined.

Example video_embeds_of_three :
  get_video_embeds plain_repr (answers (JObj [("results", JArr (map JObj three_videos))]))
    demo_service 299534 "movie"
  = Ok (JArr [JObj [("name", JStr "Official Trailer"); ("key", JStr "abc");
                    ("type", JStr "Trailer");
                    ("url", JStr "https://www.youtube.com/embed/abc")];
              JObj [("name", JStr "Video"); ("key", JStr "def");
                    ("type", JStr "Trailer");
                    ("url", JStr "https://www.youtube.com/embed/def")]]).
Proof. vm_compute. reflexivity. Qed.

(** X13.  [get_video_embeds] never raises and always returns a list; the
    list is empty when the request raises, when the status is 4xx or 5xx,
    and when the body does not decode. *)
Theorem video_embeds_empty_on_failure :
  ∀ repr requests_get self content_id content_type,
    (∃ embeds, get_video_embeds repr requests_get self content_id content_type
               = Ok (JArr embeds))
    ∧ ((∃ e, requests_get
               (base_url self +:+ "/" +:+ content_type +:+ "/" +:+ pretty content_id
                  +:+ "/videos")
               ("Bearer " +:+ tmdb_api_key self) = Raise e)
       ∨ (∃ response,
            requests_get
              (base_url self +:+ "/" +:+ content_type +:+ "/" +:+ pretty content_id
                 +:+ "/videos")
              ("Bearer " +:+ tmdb_api_key self) = Ok response
            ∧ ((400 ≤ status_code response < 600)%Z ∨ ∃ e, body response = Raise e)) →
       get_video_embeds repr requests_get self content_id content_type = Ok (JArr [])).
Proof.
  intros repr requests_get self content_id content_type. split.
  - apply embeds_never_raise.
  - unfold get_video_embeds, authorization.
    intros [[e ->] | (response & -> & Hfail)]; [reflexivity|]. simpl.
    unfold raise_for_status.
    destruct ((400 <=? status_code response)%Z && (status_code response <? 500)%Z) eqn:H4;
      [reflexivity|].
    destruct ((500 <=? status_code response)%Z && (status_code response <? 600)%Z) eqn:H5;
      [reflexivity|].
    destruct Hfail as [Hrange | [e He]].
    + apply andb_false_iff in H4, H5. lia.
    + simpl. by rewrite He.
Qed.

Lemma video_embeds_empty_on_failure_witness :
  (∃ embeds, get_video_embeds plain_repr (answers_status 404 "Not Found") demo_service
               299534 "movie" = Ok (JArr embeds))
  ∧ get_video_embeds plain_repr (answers_status 404 "Not Found") demo_service
      299534 "movie" = Ok (JArr []).
Proof.
  destruct (video_embeds_empty_on_failure plain_repr (answers_status 404 "Not Found")
              demo_service 299534 "movie") as [Hlist Hempty].
  split; [exact Hlist|]. apply Hempty. right.
  eexists. split; [reflexivity|]. left. simpl. lia.
Defined.

Section Links.

Variable repr : json -> string.
Variable requests_get : string -> string -> result http_response.
Variable self : StreamingService.
Variable openai_api_key : option string.
Variable chat_create : string -> string -> string -> result (list (option string)).

Lemma append_at_typed key x links :
  typed_links links →
  key = "stream" ∨ key = "rent" ∨ key = "buy" →
  has_type key x →
  ∃ links', append_at key x links = Ok links' ∧ typed_links links'.
Proof.
  intros (s & r & b & -> & Hs & Hr & Hb) Hkey Hx.
  destruct Hkey as [-> | [-> | ->]]; simpl; eexists; (split; [reflexivity|]).
  - exists (s ++ [x]), r, b. repeat split; auto. apply Forall_app; auto.
  - exists s, (r ++ [x]), b. repeat split; auto. apply Forall_app; auto.
  - exists s, r, (b ++ [x]). repeat split; auto. apply Forall_app; auto.
Qed.

Lemma link_key_cases link_type :
  link_type = "flatrate" ∨ link_type = "rent" ∨ link_type = "buy" →
  link_key link_type = "stream" ∨ link_key link_type = "rent"
  ∨ link_key link_type = "buy".
Proof. intros [-> | [-> | ->]]; cbv; auto. Qed.

(** Each loop either raises or keeps the three typed lists. *)
Lemma add_providers_typed content_id content_type link_type providers links :
  link_type = "flatrate" ∨ link_type = "rent" ∨ link_type = "buy" →
  typed_links links →
  match add_providers repr content_id content_type link_type providers links with
  | Ok links' => typed_links links'
  | Raise _ => True
  end.
Proof.
  intros Hlt. revert links. induction providers as [|p providers IH]; intros links Hl; simpl.
  - exact Hl.
  - destruct (PyJson.get p "provider_name" (JStr "Unknown")) as [name|]; simpl; [|done].
    destruct (PyJson.get p "logo_path" (JStr EmptyString)) as [logo|]; simpl; [|done].
    destruct (PyJson.get p "provider_id" JNull) as [pid|]; simpl; [|done].
    destruct (_get_streaming_url content_id content_type pid) as [target|]; simpl; [|done].
    match goal with
    | |- context [append_at ?k ?x links] =>
        destruct (append_at_typed k x links Hl (link_key_cases link_type Hlt))
          as (links' & -> & Hl'); [reflexivity|]
    end.
    simpl. by apply IH.
Qed.

Lemma add_link_types_typed content_id content_type link_types region_data links :
  Forall (λ t, t = "flatrate" ∨ t = "rent" ∨ t = "buy") link_types →
  typed_links links →
  match add_link_types repr content_id content_type link_types region_data links with
  | Ok links' => typed_links links'
  | Raise _ => True
  end.
Proof.
  intros Hts. revert links. induction Hts as [|t ts Ht Hts IH]; intros links Hl; simpl.
  - exact Hl.
  - destruct (PyJson.contains region_data t) as [[|]|]; simpl; [| by apply IH | done].
    destruct (PyJson.getitem region_data t) as [ps|]; simpl; [|done].
    destruct (PyJson.iter ps) as [items|]; simpl; [|done].
    pose proof (add_providers_typed content_id content_type t items links Ht Hl) as Hp.
    destruct (add_providers repr content_id content_type t items links) as [links'|];
      simpl; [|done].
    by apply IH.
Qed.

Lemma add_regions_typed content_id content_type regions providers links :
  typed_links links →
  match add_regions repr content_id content_type regions providers links with
  | Ok links' => typed_links links'
  | Raise _ => True
  end.
Proof.
  revert links. induction regions as [|region regions IH]; intros links Hl;
    cbn [add_regions].
  - exact Hl.
  - destruct (PyJson.contains providers region) as [[|]|]; cbn [bindR];
      [| by apply IH | done].
    destruct (PyJson.getitem providers region) as [data|]; cbn [bindR]; [|done].
    pose proof (add_link_types_typed content_id content_type ["flatrate"; "rent"; "buy"]
                  data links) as Hp.
    destruct (add_link_types repr content_id content_type ["flatrate"; "rent"; "buy"]
                data links) as [links'|]; cbn [bindR]; [|done].
    apply IH. apply Hp; [|exact Hl].
    repeat (constructor; [solve [auto]|]). constructor.
Qed.

Lemma typed_links_empty :
  typed_links [("stream", JArr []); ("rent", JArr []); ("buy", JArr [])].
Proof. exists [], [], []. repeat split; constructor. Qed.

End Links.

(** X14.  [get_streaming_links] never raises, and its result has one of two
    shapes: [{'error': text}], or the lists [stream], [rent] and [buy], in
    this order, followed by at most an [ai_recommendation].  Every link of
    a list carries the list's name as its [type]: what the catalog calls
    [flatrate] is filed, and typed, as [stream]. *)
Theorem streaming_links_shape :
  ∀ repr requests_get self openai_api_key chat_create content_id content_type title year,
    ∃ fields,
      get_streaming_links repr requests_get self openai_api_key chat_create
        content_id content_type title year = Ok (JObj fields)
      ∧ ((∃ text, fields = [("error", JStr text)])
         ∨ ∃ links extra,
             fields = links ++ extra
             ∧ typed_links links
             ∧ (extra = [] ∨ ∃ text, extra = [("ai_recommendation", JStr text)])).
Proof.
  intros repr requests_get self key chat content_id content_type title year.
  unfold get_streaming_links, except_all.
  destruct (requests_get _ _) as [response|e]; cbn [bindR]; [|eauto].
  destruct (raise_for_status response) as [[]|e]; cbn [bindR]; [|eauto].
  destruct (body response) as [data|e]; cbn [bindR]; [|eauto].
  destruct (PyJson.get data "results" (JObj [])) as [providers|e]; cbn [bindR]; [|eauto].
  pose proof (add_regions_typed repr content_id content_type ["US"; "GB"; "CA"; "IN"]
                providers _ typed_links_empty) as Hl.
  destruct (add_regions repr content_id content_type ["US"; "GB"; "CA"; "IN"] providers _)
    as [links|e]; cbn [bindR]; [|eauto].
  destruct title as [[|c t]|]; [| destruct (nonempty key) |]; simpl;
    eexists; (split; [reflexivity|]); right.
  - exists links, []. rewrite app_nil_r. auto.
  - exists links, [("ai_recommendation",
                    JStr (ai_recommendation chat (String c t) year))]. eauto.
  - exists links, []. rewrite app_nil_r. auto.
  - exists links, []. rewrite app_nil_r. auto.
Qed.

Example streaming_links_of_two_regions :
  get_streaming_links plain_repr (answers two_regions) demo_service None chat_fails
    299534 "movie" None None
  = Ok (JObj
          [("stream",
            JArr [JObj [("provider_name", JStr "Netflix");
                        ("logo_path", JStr "https://image.tmdb.org/t/p/w92/n.png");
                        ("provider_id", JInt 8); ("type", JStr "stream");
                        ("url", JStr "https://www.netflix.com/title/299534")]]);
           ("rent",
            JArr [JObj [("provider_name", JStr "Apple TV");
                        ("logo_path", JStr "https://image.tmdb.org/t/p/w92");
                        ("provider_id", JInt 350); ("type", JStr "rent");
                        ("url", JStr "https://tv.apple.com/movie/299534")]]);
           ("buy", JArr [])]).
Proof. vm_compute. reflexivity. Qed.

(** X15.  The recommendation cannot spoil the provider links.  With a title
    and an OpenAI key, the result is the one obtained without a title, with
    an [ai_recommendation] appended; when anything in the completion call
    fails, that entry is the text [AI recommendations are currently
    unavailable.] *)
Theorem recommendation_keeps_links :
  ∀ repr requests_get self key chat_create content_id content_type c title year links,
    get_streaming_links repr requests_get self (Some key) chat_create
      content_id content_type None year = Ok (JObj links) →
    typed_links links →
    key ≠ EmptyString →
    ∃ text,
      get_streaming_links repr requests_get self (Some key) chat_create
        content_id content_type (Some (String c title)) year
      = Ok (JObj (links ++ [("ai_recommendation", JStr text)]))
      ∧ ((∃ e, chat_create "gpt-3.5-turbo"
                 "You are a helpful assistant that provides streaming recommendations."
                 (recommendation_prompt (String c title) year) = Raise e) →
         text = "AI recommendations are currently unavailable.").
Proof.
  intros repr requests_get self key chat content_id content_type c title year links
    Hplain Htyped Hkey.
  exists (ai_recommendation chat (String c title) year). split.
  - revert Hplain. unfold get_streaming_links, except_all.
    destruct (bindR (requests_get _ _) _) as [v|e] eqn:Hrun.
    + revert Hrun.
      destruct (requests_get _ _) as [response|e]; cbn [bindR]; [|discriminate].
      destruct (raise_for_status response) as [[]|e]; cbn [bindR]; [|discriminate].
      destruct (body response) as [data|e]; cbn [bindR]; [|discriminate].
      destruct (PyJson.get data "results" (JObj [])) as [providers|e]; cbn [bindR];
        [|discriminate].
      destruct (add_regions repr content_id content_type _ providers _) as [ls|e];
        cbn [bindR]; [|discriminate].
      intros [= <-] [= <-].
      destruct key; [done|]. reflexivity.
    + intros [= <-]. destruct Htyped as (s & r & b & [=] & _).
  - intros [e He]. unfold ai_recommendation. by rewrite He.
Qed.

Lemma recommendation_keeps_links_witness :
  ∃ text,
    get_streaming_links plain_repr (answers two_regions) demo_service (Some "sk-1")
      chat_fails 299534 "movie" (Some "Avengers") None
    = Ok (JObj ([("stream",
                  JArr [JObj [("provider_name", JStr "Netflix");
                              ("logo_path", JStr "https://image.tmdb.org/t/p/w92/n.png");
                              ("provider_id", JInt 8); ("type", JStr "stream");
                              ("url", JStr "https://www.netflix.com/title/299534")]]);
                 ("rent",
                  JArr [JObj [("provider_name", JStr "Apple TV");
                              ("logo_path", JStr "https://image.tmdb.org/t/p/w92");
                              ("provider_id", JInt 350); ("type", JStr "rent");
                              ("url", JStr "https://tv.apple.com/movie/299534")]]);
                 ("buy", JArr [])]
                ++ [("ai_recommendation", JStr text)]))
    ∧ ((∃ e, chat_fails "gpt-3.5-turbo"
               "You are a helpful assistant that provides streaming recommendations."
               (recommendation_prompt "Avengers" None) = Raise e) →
       text = "AI recommendations are currently unavailable.").
Proof.
  apply (recommendation_keeps_links plain_repr (answers two_regions) demo_service "sk-1"
           chat_fails 299534 "movie" "A" "vengers" None).
  - vm_compute. reflexivity.
  - eexists _, _, _. split; [reflexivity|].
    repeat split; repeat constructor.
  - discriminate.
Defined.

(** X16.  A 4xx or 5xx status ends [get_streaming_links] with
    [{'error': text}], the text being the one [raise_for_status] gives
    (status, kind, reason, URL), whatever the title and the key: no
    completion is requested. *)
Theorem streaming_links_http_error :
  ∀ repr requests_get self openai_api_key chat_create content_id content_type title year
    response,
    requests_get
      (base_url self +:+ "/" +:+ content_type +:+ "/" +:+ pretty content_id
         +:+ "/watch/providers")
      ("Bearer " +:+ tmdb_api_key self) = Ok response →
    (400 ≤ status_code response < 600)%Z →
    get_streaming_links repr requests_get self openai_api_key chat_create
      content_id content_type title year
    = Ok (JObj [("error",
                 JStr (pretty (status_code response)
                         +:+ (if (status_code response <? 500)%Z then " Client Error: "
                              else " Server Error: ")
                         +:+ reason response +:+ " for url: " +:+ url response))]).
Proof.
  intros repr requests_get self key chat content_id content_type title year response
    Hget Hrange.
  unfold get_streaming_links, authorization. rewrite Hget. simpl.
  unfold raise_for_status.
  destruct (Z.ltb_spec (status_code response) 500) as [Hlt|Hge].
  - replace (400 <=? status_code response)%Z with true by (symmetry; apply Z.leb_le; lia).
    reflexivity.
  - replace (500 <=? status_code response)%Z with true by (symmetry; apply Z.leb_le; lia).
    replace (status_code response <? 600)%Z with true by (symmetry; apply Z.ltb_lt; lia).
    rewrite andb_false_r. reflexivity.
Qed.

Lemma streaming_links_http_error_witness :
  get_streaming_links plain_repr (answers_status 404 "Not Found") demo_service
    (Some "sk-1") chat_fails 299534 "movie" (Some "Avengers") None
  = Ok (JObj [("error",
               JStr (pretty 404%Z
                       +:+ (if (404 <? 500)%Z then " Client Error: " else " Server Error: ")
                       +:+ "Not Found" +:+ " for url: "
                       +:+ (base_url demo_service +:+ "/" +:+ "movie" +:+ "/"
                              +:+ pretty 299534%Z +:+ "/watch/providers")))]).
Proof.
  apply (streaming_links_http_error plain_repr (answers_status 404 "Not Found")
           demo_service (Some "sk-1") chat_fails 299534 "movie" (Some "Avengers") None
           {| status_code := 404; reason := "Not Found";
              url := base_url demo_service +:+ "/" +:+ "movie" +:+ "/"
                       +:+ pretty 299534%Z +:+ "/watch/providers";
              body := Raise (JSONDecodeError "Expecting value") |});
    [reflexivity | simpl; lia].
Defined.

End StreamingProofs.

(** * The other OpenAI helpers *)

Module RecommendationProofs.
Import OpenAIService Recommendations LinkFixtures.

(** X17.  [get_streaming_recommendations] never raises.  A completion whose
    text decodes as JSON is returned decoded, whatever its type; a text the
    decoder rejects with [JSONDecodeError] is returned as
    [{"response": text}]; a failing completion call is returned as
    [{"error": str(e)}]. *)
Theorem streaming_recommendations_contract :
  ∀ json_loads create model title content_type year,
    (∃ v, get_streaming_recommendations json_loads create model title content_type year
          = Ok v)
    ∧ (∀ message others text,
         create model recommendations_system
           (recommendations_prompt title content_type year)
         = Ok {| choices := message :: others |} →
         getitem message "content" = Ok (FStr text) →
         get_streaming_recommendations json_loads create model title content_type year
         = match json_loads text with
           | Ok v => Ok v
           | Raise (JSONDecodeError _) => Ok (JObj [("response", JStr text)])
           | Raise e => Ok (JObj [("error", JStr (exn_str e))])
           end)
    ∧ (∀ e,
         create model recommendations_system
           (recommendations_prompt title content_type year) = Raise e →
         get_streaming_recommendations json_loads create model title content_type year
         = Ok (JObj [("error", JStr (exn_str e))])).
Proof.
  intros json_loads create model title content_type year.
  unfold get_streaming_recommendations. split; [|split].
  - destruct (bindR _ _); eauto.
  - intros message others text -> Hcontent. simpl.
    unfold content_of. rewrite Hcontent. simpl.
    destruct (json_loads text) as [v|e]; simpl; [reflexivity|].
    by destruct e.
  - intros e ->. reflexivity.
Qed.

Lemma streaming_recommendations_contract_witness :
  get_streaming_recommendations loads_one_two (completes_with "[1, 2]") "gpt-3.5-turbo"
    "Inception" "movie" (Some 2010%Z)
  = match loads_one_two "[1, 2]" with
    | Ok v => Ok v
    | Raise (JSONDecodeError _) => Ok (JObj [("response", JStr "[1, 2]")])
    | Raise e => Ok (JObj [("error", JStr (exn_str e))])
    end.
Proof.
  destruct (streaming_recommendations_contract loads_one_two (completes_with "[1, 2]")
              "gpt-3.5-turbo" "Inception" "movie" (Some 2010%Z)) as (_ & Htext & _).
  apply (Htext [("role", FStr "assistant"); ("content", FStr "[1, 2]")] []);
    reflexivity.
Defined.

Example recommendations_of_plain_text :
  get_streaming_recommendations loads_one_two (completes_with "Watch it on Netflix.")
    "gpt-3.5-turbo" "Inception" "movie" None
  = Ok (JObj [("response", JStr "Watch it on Netflix.")]).
Proof. vm_compute. reflexivity. Qed.

(** X18.  [generate_content_description] on a dictionary of details never
    raises.  When the prompt can be built and the completion call returns a
    text (a completion with a first choice whose content is a string), the
    result is that text, stripped.  In every other case (the prompt cannot be
    built, the call raises, there is no choice, the content is missing or
    [None]) it is the [overview] of the details, or
    [No description available.] when there is none. *)
Theorem content_description_falls_back :
  ∀ repr create model title content_type fields,
    generate_content_description repr create model title content_type (JObj fields)
    = Ok (match description_prompt repr title content_type (JObj fields) with
          | Ok prompt =>
              match LinkSpec.returned_text (create model description_system prompt) with
              | Some text => JStr (PyStr.strip text)
              | None => fields_get fields "overview" (JStr "No description available.")
              end
          | Raise _ => fields_get fields "overview" (JStr "No description available.")
          end).
Proof.
  intros repr create model title content_type fields.
  unfold generate_content_description, LinkSpec.returned_text.
  destruct (description_prompt repr title content_type (JObj fields)) as [prompt|e];
    simpl; [|reflexivity].
  destruct (create model description_system prompt) as [[chs]|e]; simpl; [|reflexivity].
  destruct chs as [|m chs]; simpl; [reflexivity|].
  unfold content_of. rewrite LinkLookup.getitem_entry.
  by destruct (LinkSpec.entry "content" m) as [[text|]|].
Qed.

Example content_description_of_a_completion :
  generate_content_description Streaming.plain_repr
    (LinkFixtures.completes_with "  A heist inside a dream.
") "gpt-3.5-turbo" "Inception" "movie" inception
  = Ok (JStr "A heist inside a dream.").
Proof. vm_compute. reflexivity. Qed.

Example content_description_when_the_call_fails :
  generate_content_description Streaming.plain_repr create_fails "gpt-3.5-turbo"
    "Inception" "movie" inception
  = Ok (JStr "A thief who steals corporate secrets.").
Proof. vm_compute. reflexivity. Qed.

(** X19.  [generate_content_description] on details that are not a
    dictionary raises [AttributeError]: the prompt fails on [details.get],
    and so does the handler, which calls it again. *)
Theorem content_description_of_other_details :
  ∀ repr create model title content_type details,
    (∀ fields, details ≠ JObj fields) →
    generate_content_description repr create model title content_type details
    = Raise (PyJson.no_attribute details "get").
Proof.
  intros repr create model title content_type details Hd.
  unfold generate_content_description, description_prompt.
  destruct details; try reflexivity. by destruct (Hd fields).
Qed.

Lemma content_description_of_other_details_witness :
  generate_content_description Streaming.plain_repr create_fails "gpt-3.5-turbo" "Inception" "movie"
    JNull
  = Raise (PyJson.no_attribute JNull "get").
Proof.
  apply (content_description_of_other_details Streaming.plain_repr create_fails "gpt-3.5-turbo"
           "Inception" "movie" JNull).
  intros fields. discriminate.
Defined.

Example description_prompt_of_inception :
  description_prompt Streaming.plain_repr "Inception" "movie" inception
  = Ok "
            Write an engaging and concise description for this movie:
            
            Title: Inception
            Overview: A thief who steals corporate secrets.
            Genres: Action, Science Fiction
            
            Make it engaging and highlight what makes this content special.
            Keep it under 200 characters.
            ".
Proof. vm_compute. reflexivity. Qed.

End RecommendationProofs.

(** * The HTML routes *)

Module PageProofs.
Import Pages.

Section Homepage.

Variable G : Globals.
Variable net : nat -> get_outcome.
Variable tmdb_client : TMDBClient.
Variable page : Type.
Variable TemplateResponse : string -> list (string * ctx) -> Z -> result page.

(** A guarded lookup always yields a value. *)
Lemma lookup_total lookup st :
  ∃ v st', lookup_or_no_results lookup st = (Ok v, st').
Proof.
  unfold lookup_or_no_results, try_except, bind, ret, any_exception.
  destruct (lookup st) as [[v|e] st1]; eauto.
Qed.

Lemma lookup_of_raise lookup st :
  (∃ e st1, lookup st = (Raise e, st1)) →
  ∃ st', lookup_or_no_results lookup st = (Ok no_results, st').
Proof.
  intros (e & st1 & H).
  unfold lookup_or_no_results, try_except, bind, ret, any_exception. rewrite H. eauto.
Qed.

Lemma make_request_raises_when_down endpoint params mr st :
  (∀ i, transient (attempt_sees net i) = true) →
  ∃ e st1, _make_request G net tmdb_client endpoint params mr st = (Raise e, st1).
Proof.
  intros Hdown.
  destruct (make_request_start G net tmdb_client endpoint params mr st)
    as (l & st0 & -> & _).
  apply loop_transient_raises. exact Hdown.
Qed.

Lemma trending_raises_when_down media_type st :
  (∀ i, transient (attempt_sees net i) = true) →
  ∃ e st1, get_trending G net tmdb_client [VStr media_type; VStr "day"] st
           = (Raise e, st1).
Proof.
  intros Hdown. unfold get_trending, call_method2, get_trending_body, bind.
  destruct (make_request_raises_when_down
              ("trending/" +:+ pyval_str (VStr media_type) +:+ "/" +:+ pyval_str (VStr "day"))
              None 3 st Hdown) as (e & st1 & ->).
  eauto.
Qed.

Lemma paged_raises_when_down endpoint page_number st :
  (∀ i, transient (attempt_sees net i) = true) →
  ∃ e st1, paged_results G net tmdb_client endpoint page_number st = (Raise e, st1).
Proof.
  intros Hdown. unfold paged_results. unfold bind at 1.
  destruct (new_dict_spec {[ "page" := page_number ]} st) as (l & st0 & -> & _).
  unfold bind.
  destruct (make_request_raises_when_down endpoint (Some l) 3 st0 Hdown)
    as (e & st1 & ->).
  eauto.
Qed.

(** The first lookup of the homepage when the catalog answers with a list
    of results. *)
Lemma trending_list st r fields x xs :
  attempt_sees net (length (sent st)) = Resp r →
  resp_status r = 200%Z →
  resp_json r = Ok (JObj fields) →
  fields_get fields "results" (JArr []) = JArr (x :: xs) →
  ∃ st1,
    lookup_or_no_results (get_trending G net tmdb_client [VStr "movie"; VStr "day"]) st
    = (Ok (JArr (x :: xs)), st1).
Proof.
  intros Hsee Hst Hjs Hres.
  unfold lookup_or_no_results, try_except, get_trending, call_method2, get_trending_body.
  unfold bind at 1. unfold bind at 1.
  destruct (make_request_first_ok G net tmdb_client
              ("trending/" +:+ pyval_str (VStr "movie") +:+ "/" +:+ pyval_str (VStr "day"))
              None 3 st r (JObj fields)) as (st1 & -> & _); [lia | done | done | done |].
  destruct fields as [|f fields]; [discriminate Hres|].
  simpl truthy. cbv iota. unfold ret. rewrite Hres. simpl. eauto.
Qed.

End Homepage.

(** X20.  The homepage cannot show a list of results.  When the catalog
    answers the first lookup (trending movies) with a 200 whose [results] is
    a non-empty list, the list has no [get] and [read_root] enters its
    handler, which raises [UnboundLocalError] for [traceback]: no page is
    rendered, whatever the three other lookups give. *)
Theorem homepage_fails_on_results :
  ∀ G net tmdb_client page (TemplateResponse : string → list (string * ctx) → Z → result page)
    st r fields x xs,
    attempt_sees net (length (sent st)) = Resp r →
    resp_status r = 200%Z →
    resp_json r = Ok (JObj fields) →
    fields_get fields "results" (JArr []) = JArr (x :: xs) →
    ∃ st',
      read_root G net tmdb_client page TemplateResponse st
      = (Raise unbound_traceback, st').
Proof.
  intros G net c page TR st r fields x xs Hsee Hst Hjs Hres.
  unfold read_root, try_except.
  destruct (trending_list G net c st r fields x xs Hsee Hst Hjs Hres) as (st1 & H1).
  unfold bind at 1. rewrite H1.
  unfold bind at 1.
  destruct (lookup_total (get_trending G net c [VStr "tv"; VStr "day"]) st1)
    as (v2 & st2 & ->).
  unfold bind at 1.
  destruct (lookup_total (get_popular_movies G net c (VInt 1)) st2) as (v3 & st3 & ->).
  unfold bind at 1.
  destruct (lookup_total (get_top_rated_movies G net c (VInt 1)) st3) as (v4 & st4 & ->).
  unfold bind at 1. simpl. unfold raise. eauto.
Qed.

Lemma homepage_fails_on_results_witness :
  ∃ st',
    read_root main_globals (always (reply_ok results_id_1)) demo_client rendered renders
      fresh_state
    = (Raise unbound_traceback, st').
Proof.
  apply (homepage_fails_on_results main_globals (always (reply_ok results_id_1))
           demo_client rendered renders fresh_state (reply_ok results_id_1)
           [("results", JArr [JObj [("id", JInt 1)]])] (JObj [("id", JInt 1)]) []);
    reflexivity.
Defined.

(** X21.  When the catalog is down (every attempt ends in a status of 500 or
    more or in a connection error or timeout), each of the four lookups is
    absorbed and [read_root] renders [index.html] with four empty lists. *)
Theorem homepage_when_catalog_is_down :
  ∀ G net tmdb_client page (TemplateResponse : string → list (string * ctx) → Z → result page)
    st shown,
    (∀ i, transient (attempt_sees net i) = true) →
    TemplateResponse "index.html" empty_homepage 200%Z = Ok shown →
    ∃ st', read_root G net tmdb_client page TemplateResponse st = (Ok shown, st').
Proof.
  intros G net c page TR st shown Hdown Hrender.
  unfold read_root, try_except.
  unfold bind at 1.
  destruct (lookup_of_raise (get_trending G net c [VStr "movie"; VStr "day"]) st
              (trending_raises_when_down G net c "movie" st Hdown)) as (st1 & ->).
  unfold bind at 1.
  destruct (lookup_of_raise (get_trending G net c [VStr "tv"; VStr "day"]) st1
              (trending_raises_when_down G net c "tv" st1 Hdown)) as (st2 & ->).
  unfold bind at 1.
  destruct (lookup_of_raise (get_popular_movies G net c (VInt 1)) st2
              (paged_raises_when_down G net c "movie/popular" (VInt 1) st2 Hdown))
    as (st3 & ->).
  unfold bind at 1.
  destruct (lookup_of_raise (get_top_rated_movies G net c (VInt 1)) st3
              (paged_raises_when_down G net c "movie/top_rated" (VInt 1) st3 Hdown))
    as (st4 & ->).
  simpl. unfold bind, lift. simpl.
  unfold empty_homepage in Hrender. rewrite Hrender. eauto.
Qed.

Lemma homepage_when_catalog_is_down_witness :
  ∃ st',
    read_root main_globals (always unavailable) demo_client rendered renders fresh_state
    = (Ok ("index.html", empty_homepage, 200%Z), st').
Proof.
  apply (homepage_when_catalog_is_down main_globals (always unavailable) demo_client
           rendered renders fresh_state ("index.html", empty_homepage, 200%Z)).
  - intros i. reflexivity.
  - reflexivity.
Defined.

(** X22.  An empty query never redirects.  [RedirectResponse] is not a name
    of the module, so [search_movies] with an empty [q] raises
    [HTTPException(500, "Search failed")] without issuing a request; and
    for every query the handler raises nothing but that exception. *)
Theorem search_page_empty_query :
  ∀ G net tmdb_client page
    (TemplateResponse : string → list (string * ctx) → Z → result page)
    (RedirectResponse : string → result page) q page_number st,
    search_movies G net tmdb_client page TemplateResponse RedirectResponse
      EmptyString page_number st
    = (Raise (HTTPException 500 "Search failed"), st)
    ∧ ∃ st',
        (∃ shown,
           search_movies G net tmdb_client page TemplateResponse RedirectResponse
             q page_number st = (Ok shown, st'))
        ∨ search_movies G net tmdb_client page TemplateResponse RedirectResponse
            q page_number st
          = (Raise (HTTPException 500 "Search failed"), st').
Proof.
  intros G net c page TR RR q page_number st. split; [reflexivity|].
  unfold search_movies, try_except, any_exception.
  match goal with
  | |- context [match ?run with _ => _ end] => destruct run as [[shown|e] st1]
  end; eauto.
Qed.

Example random_is_not_a_module_name : resolve "random" = Raise (NameError "random").
Proof. reflexivity. Qed.

End PageProofs.

(** * The movie page *)

Module MoviePageProofs.
Import Pages MoviePage.

Lemma fields_get_found fields key d v :
  fields_get fields key d = v → v ≠ d →
  PyJson.has_key fields key = true ∧ ∀ d', fields_get fields key d' = v.
Proof.
  induction fields as [|[k x] fields IH]; simpl; intros Hget Hne.
  - congruence.
  - destruct (String.eqb k key); simpl; [by split|]. by apply IH.
Qed.

Lemma getitem_found fields key d v :
  fields_get fields key d = v → v ≠ d → PyJson.getitem (JObj fields) key = Ok v.
Proof.
  intros Hget Hne. destruct (fields_get_found fields key d v Hget Hne) as [Hk Hv].
  unfold PyJson.getitem. by rewrite Hk, Hv.
Qed.

Section Links.

Variable repr : json -> string.
Variable TMDB_IMAGE_BASE : string.
Variable movie_id : Z.

(** Whatever [provider_links] returns has no logo. *)
Lemma provider_links_plain providers links :
  provider_links repr TMDB_IMAGE_BASE movie_id providers = Ok links →
  Forall (plain_link movie_id) links.
Proof.
  revert links. induction providers as [|p providers IH]; intros links; simpl.
  - intros [= <-]. constructor.
  - destruct (PyJson.get p "provider_name" (JStr "Unknown")) as [name|]; simpl; [|done].
    destruct (PyJson.get p "logo_path" JNull) as [has_logo|]; simpl; [|done].
    destruct (truthy has_logo); simpl; [done|].
    destruct (provider_links repr TMDB_IMAGE_BASE movie_id providers) as [rest|];
      simpl; [|done].
    intros [= <-]. constructor; [by exists name | by apply IH].
Qed.

(** A provider with a logo makes the comprehension raise. *)
Lemma provider_links_with_logo providers p :
  In (JObj p) providers →
  truthy (fields_get p "logo_path" JNull) = true →
  ∃ e, provider_links repr TMDB_IMAGE_BASE movie_id providers = Raise e.
Proof.
  intros Hin Hlogo. induction providers as [|q providers IH]; [destruct Hin|].
  simpl.
  destruct (PyJson.get q "provider_name" (JStr "Unknown")) as [name|e] eqn:Hname;
    simpl; [|eauto].
  destruct (PyJson.get q "logo_path" JNull) as [has_logo|e] eqn:Hq; simpl; [|eauto].
  destruct (truthy has_logo) eqn:Ht; simpl; [eauto|].
  destruct Hin as [->|Hin].
  - simpl in Hq. injection Hq as <-. congruence.
  - destruct (IH Hin) as [e ->]. simpl. eauto.
Qed.

Lemma add_kind_filed kind key us links :
  key = "stream" ∨ key = "rent" ∨ key = "buy" →
  Forall (filed movie_id) links →
  Forall (filed movie_id) (add_kind repr TMDB_IMAGE_BASE movie_id kind key us links).1.
Proof.
  intros Hkey Hl. unfold add_kind.
  destruct (PyJson.get us kind JNull) as [offered|]; simpl; [|done].
  destruct (truthy offered); simpl; [|done].
  destruct (PyJson.get us kind (JArr [])) as [providers|]; simpl; [|done].
  destruct (PyJson.iter providers) as [items|]; simpl; [|done].
  destruct (provider_links repr TMDB_IMAGE_BASE movie_id items) as [built|] eqn:Hb;
    simpl; [|done].
  apply Forall_app. split; [exact Hl|].
  constructor; [|constructor]. split; [exact Hkey|].
  exists built. split; [done|]. by apply provider_links_plain with items.
Qed.

End Links.

(** X23.  The streaming links of the movie page never carry a logo.  Every
    entry of [streaming_links] is filed under [stream], [rent] or [buy], and
    each of its links has an empty [logo_path] and the TMDB watch page of
    the movie as its target: [TMDB_IMAGE_BASE] is not a name of the module,
    so a link with a logo is never built. *)
Theorem movie_links_have_no_logo :
  ∀ repr TMDB_IMAGE_BASE movie_id providers,
    Forall (filed movie_id)
      (movie_streaming_links repr TMDB_IMAGE_BASE movie_id providers).
Proof.
  intros repr base movie_id providers. unfold movie_streaming_links.
  destruct (seq_result _ _) as [[us|]|]; try constructor.
  pose proof (add_kind_filed repr base movie_id "flatrate" "stream" us []
                (or_introl eq_refl) (Forall_nil_2 _)) as H1.
  destruct (add_kind repr base movie_id "flatrate" "stream" us []) as [l1 [u1|e1]];
    simpl in H1; [|exact H1].
  pose proof (add_kind_filed repr base movie_id "rent" "rent" us l1
                (or_intror (or_introl eq_refl)) H1) as H2.
  destruct (add_kind repr base movie_id "rent" "rent" us l1) as [l2 [u2|e2]];
    simpl in H2; [|exact H2].
  apply (add_kind_filed repr base movie_id "buy" "buy" us l2); auto.
Qed.

(** X24.  One logo is enough to lose every link.  When the first kind
    offered in the US ([flatrate]) lists a provider that has a [logo_path],
    the [NameError] ends the block before anything is assigned:
    [streaming_links] stays empty, the providers without a logo and the
    [rent] and [buy] lists included. *)
Theorem movie_links_lost_to_a_logo :
  ∀ repr TMDB_IMAGE_BASE movie_id providers results us flatrate p,
    PyJson.get providers "results" (JObj []) = Ok results →
    PyJson.get results "US" JNull = Ok (JObj us) →
    fields_get us "flatrate" JNull = JArr flatrate →
    In (JObj p) flatrate →
    truthy (fields_get p "logo_path" JNull) = true →
    movie_streaming_links repr TMDB_IMAGE_BASE movie_id providers = [].
Proof.
  intros repr base movie_id providers results us flatrate p Hres Hus Hflat Hin Hlogo.
  assert (Hne : us ≠ []) by (intros ->; discriminate Hflat).
  destruct providers as [| | | | | |pf]; try discriminate Hres.
  simpl in Hres. injection Hres as Hres.
  destruct results as [| | | | | |rf]; try discriminate Hus.
  simpl in Hus. injection Hus as Hus.
  assert (Hrf : rf ≠ []) by (intros ->; discriminate Hus).
  assert (Hgi1 : PyJson.getitem (JObj pf) "results" = Ok (JObj rf)).
  { apply getitem_found with (JObj []); [exact Hres|]. intros [=]; done. }
  assert (Hgi2 : PyJson.getitem (JObj rf) "US" = Ok (JObj us)).
  { apply getitem_found with JNull; [exact Hus | discriminate]. }
  unfold movie_streaming_links.
  cbn [PyJson.get seq_result]. rewrite Hres. cbn [PyJson.get seq_result]. rewrite Hus.
  replace (truthy (JObj us)) with true by (destruct us; [done | reflexivity]).
  rewrite Hgi1. cbn [seq_result]. rewrite Hgi2. cbn [seq_result keys].
  unfold add_kind at 1. cbn [PyJson.get seq_result]. rewrite Hflat.
  replace (truthy (JArr flatrate)) with true by (destruct flatrate; [destruct Hin | done]).
  assert (Hflat' : fields_get us "flatrate" (JArr []) = JArr flatrate).
  { destruct (fields_get_found us "flatrate" JNull (JArr flatrate) Hflat) as [_ H];
      [discriminate | apply H]. }
  rewrite Hflat'. cbn [PyJson.iter seq_result].
  destruct (provider_links_with_logo repr base movie_id flatrate p Hin Hlogo) as [e ->].
  reflexivity.
Qed.

Lemma movie_links_lost_to_a_logo_witness :
  movie_streaming_links Streaming.plain_repr "?" 550 us_with_logo = [].
Proof.
  apply (movie_links_lost_to_a_logo Streaming.plain_repr "?" 550 us_with_logo
           (JObj [("US", JObj [("flatrate", JArr [JObj [("provider_name", JStr "Netflix");
                                                          ("logo_path", JStr "/n.png")]]);
                               ("buy", JArr [JObj [("provider_id", JInt 3)]])])])
           [("flatrate", JArr [JObj [("provider_name", JStr "Netflix");
                                     ("logo_path", JStr "/n.png")]]);
            ("buy", JArr [JObj [("provider_id", JInt 3)]])]
           [JObj [("provider_name", JStr "Netflix"); ("logo_path", JStr "/n.png")]]
           [("provider_name", JStr "Netflix"); ("logo_path", JStr "/n.png")]);
    [reflexivity | reflexivity | reflexivity | by left | reflexivity].
Defined.

Example movie_links_without_logo :
  movie_streaming_links Streaming.plain_repr "?" 550 us_without_logo
  = [("stream",
      JArr [JObj [("provider_name", JStr "Netflix"); ("logo_path", JStr EmptyString);
                  ("link", JStr "https://www.themoviedb.org/movie/550/watch?locale=US")]]);
     ("buy",
      JArr [JObj [("provider_name", JStr "Unknown"); ("logo_path", JStr EmptyString);
                  ("link", JStr "https://www.themoviedb.org/movie/550/watch?locale=US")]])].
Proof. vm_compute. reflexivity. Qed.

(** X25.  The movie page answers 404 when the details are empty or carry a
    [status_code].  When the first attempt receives a 200 whose body has
    truth value false, or is an object with a [status_code] key,
    [read_movie] raises [HTTPException(404)] with the details it received
    in its message, after the two GETs of that attempt and no other
    request. *)
Theorem movie_page_not_found :
  ∀ G net tmdb_client repr TMDB_IMAGE_BASE page
    (TemplateResponse : string → list (string * ctx) → Z → result page)
    movie_id st r v,
    attempt_sees net (length (sent st)) = Resp r →
    resp_status r = 200%Z →
    resp_json r = Ok v →
    (truthy v = false
     ∨ ∃ fields, v = JObj fields ∧ PyJson.has_key fields "status_code" = true) →
    ∃ st',
      read_movie G net tmdb_client repr TMDB_IMAGE_BASE page TemplateResponse movie_id st
      = (Raise (HTTPException 404
                  ("Movie not found. TMDB Response: "
                     +:+ PyJson.str repr (PyJson.or_empty_dict v))), st')
      ∧ length (sent st') = 2 + length (sent st).
Proof.
  intros G net c repr base page TR movie_id st r v Hsee Hst Hjs Hv.
  unfold read_movie, try_except, get_movie_details.
  unfold bind at 1. unfold bind at 1.
  destruct (make_request_first_ok G net c ("movie/" +:+ pyval_str (VInt movie_id))
              None 3 st r v) as (st1 & -> & _ & Hn); [lia | done | done | done |].
  unfold ret at 1. unfold bind at 1.
  exists st1. split; [|exact Hn].
  destruct Hv as [Hfalse | (fields & -> & Hkey)].
  - unfold PyJson.or_empty_dict. rewrite Hfalse. reflexivity.
  - destruct fields as [|kv fields]; [discriminate Hkey|].
    assert (Ht : truthy (JObj (kv :: fields)) = true) by reflexivity.
    unfold PyJson.or_empty_dict, lift, PyJson.contains. rewrite !Ht, Hkey. reflexivity.
Qed.

Lemma movie_page_not_found_witness :
  ∃ st',
    read_movie main_globals
      (always (reply_ok (JObj [("status_code", JInt 34)]))) demo_client
      Streaming.plain_repr "?" rendered renders 0 fresh_state
    = (Raise (HTTPException 404
                ("Movie not found. TMDB Response: "
                   +:+ PyJson.str Streaming.plain_repr
                         (PyJson.or_empty_dict (JObj [("status_code", JInt 34)])))), st')
    ∧ length (sent st') = 2 + length (sent fresh_state).
Proof.
  apply (movie_page_not_found main_globals
           (always (reply_ok (JObj [("status_code", JInt 34)]))) demo_client
           Streaming.plain_repr "?" rendered renders 0 fresh_state
           (reply_ok (JObj [("status_code", JInt 34)])) (JObj [("status_code", JInt 34)]));
    [reflexivity | reflexivity | reflexivity |].
  right. eexists. split; reflexivity.
Defined.

End MoviePageProofs.

(** * The URL of a request *)

Lemma rstrip_by_slashes p s n :
  p "/"%char = true → PyStr.rstrip_by p (s +:+ slashes n) = PyStr.rstrip_by p s.
Proof.
  intros Hp. induction s as [|c s IH].
  - change (EmptyString +:+ slashes n) with (slashes n).
    induction n as [|n IHn]; [reflexivity|].
    cbn [slashes PyStr.rstrip_by]. rewrite IHn. simpl. by rewrite Hp.
  - change (String c s +:+ slashes n) with (String c (s +:+ slashes n)).
    cbn [PyStr.rstrip_by]. by rewrite IH.
Qed.

Lemma lstrip_by_slashes p s n :
  p "/"%char = true → PyStr.lstrip_by p (slashes n +:+ s) = PyStr.lstrip_by p s.
Proof.
  intros Hp. induction n as [|n IH]; [reflexivity|].
  change (slashes (S n) +:+ s) with (String "/" (slashes n +:+ s)).
  cbn [PyStr.lstrip_by]. by rewrite Hp.
Qed.

(** X26.  Slashes at the join do not change the URL.  Any number of slashes
    at the end of the client's [base_url] and at the start of the endpoint
    give the URL of the client and endpoint without them. *)
Theorem build_url_ignores_slashes :
  ∀ self n m endpoint,
    build_url {| api_key := api_key self; base_url := base_url self +:+ slashes n |}
      (slashes m +:+ endpoint)
    = build_url self endpoint.
Proof.
  intros self n m endpoint. unfold build_url, PyStr.rstrip_char, PyStr.lstrip_char.
  cbn [base_url]. by rewrite rstrip_by_slashes, lstrip_by_slashes.
Qed.

(** The URL has one slash between the two parts whatever they look like. *)
Example build_url_of_slashed_parts :
  build_url {| api_key := "k"; base_url := "https://api.themoviedb.org/3//" |}
    "//movie/popular"
  = "https://api.themoviedb.org/3/movie/popular".
Proof. reflexivity. Qed.
